(** * visualize_predictions.py: a shallow embedding and its properties

    The script has two routines.  [visualize_prediction] runs a point-cloud
    classifier on one labelled sample and draws the ground-truth and the
    predicted classes side by side; [main] finds the latest checkpoint
    directory, restores the weights and calls [visualize_prediction] once
    per test sample.

    Conventions of the embedding:
    - Python exceptions are the [Raise] branch of [result];
    - calls into matplotlib, torch, os and the console are [event]s, logged
      in program order by the monad [M] (a writer over the trace, with
      errors);
    - a finite float is the rational ([Q]) it denotes; comparisons of
      floats are exact, and an arithmetic operation returns its exact
      result rounded to the format;
    - the element type of the logits tensor and the arithmetic torch runs on
      it are an interface ([TorchFloat]), since the forward pass and
      [torch.softmax] live outside the script; [binary32] is the instance
      for single-precision floats;
    - each routine is given twice.  [render_in], [visualize_prediction_in]
      and [main_in] take the libraries as they are: the rounding of the
      coordinates' arithmetic and the outcome of every call that can raise
      ([ax.scatter], [plt.savefig], the forward pass, the configuration,
      the checkpoint, the data set) come from an environment, and a call
      that can raise is logged when it returns.  [render] and
      [visualize_prediction] are these routines in exact arithmetic with
      scatter, savefig and the forward pass returning ([render_ideal],
      [visualize_prediction_ideal]); [main] is the driver on a
      configuration that has its keys, with a network, a state dictionary
      and a data set that cannot fail, and logs a call when it is made.
      They carry the statements about labels, counts and the choice of the
      checkpoint directory. *)

From Stdlib Require Import ZArith QArith Qround Qabs List String Ascii Bool Lia Lqa.
Import ListNotations.

Local Open Scope Z_scope.

(** ** Python values and exceptions *)

Inductive exn : Type :=
| IndexError
| ValueError
| FileNotFoundError
| RuntimeError
| KeyError
| OSError
| OtherError (name : string).

Inductive result (A : Type) : Type :=
| Ok (a : A)
| Raise (e : exn).

Arguments Ok {A} a.
Arguments Raise {A} e.

(** [l[i]] on a Python list: a negative index counts from the end, and an
    index outside [-len, len) raises IndexError. *)
Definition py_getitem {A : Type} (l : list A) (i : Z) : result A :=
  let n := Z.of_nat (List.length l) in
  let j := if i <? 0 then i + n else i in
  if (j <? 0) || (n <=? j) then Raise IndexError
  else match nth_error l (Z.to_nat j) with
       | Some x => Ok x
       | None => Raise IndexError
       end.

(** A list comprehension [[f(c) for c in l]]: evaluated left to right, the
    first exception ends it. *)
Fixpoint list_comp {A B : Type} (f : A -> result B) (l : list A) : result (list B) :=
  match l with
  | [] => Ok []
  | c :: tl =>
      match f c with
      | Raise e => Raise e
      | Ok b =>
          match list_comp f tl with
          | Raise e => Raise e
          | Ok bs => Ok (b :: bs)
          end
      end
  end.

(** [range(n)] *)
Definition py_range (n : nat) : list Z := map Z.of_nat (seq 0 n).

(** [enumerate(l)] *)
Definition py_enumerate {A : Type} (l : list A) : list (Z * A) :=
  combine (py_range (List.length l)) l.

(** Truth value of an optional string argument: [None] and the empty string
    are false. *)
Definition py_truthy (s : option string) : bool :=
  match s with
  | None => false
  | Some p => negb (String.eqb p EmptyString)
  end.

(** [a > b] on str: lexicographic on the character codes. *)
Definition py_str_gt (a b : string) : bool :=
  match String.compare a b with
  | Gt => true
  | _ => false
  end.

(** The builtin [max] on a list of str: ValueError on an empty list,
    otherwise the first maximal item (the running maximum is replaced only
    by a strictly greater item). *)
Definition py_max (l : list string) : result string :=
  match l with
  | [] => Raise ValueError
  | x :: tl => Ok (fold_left (fun m item => if py_str_gt item m then item else m) tl x)
  end.

(** [str.capitalize()] on ASCII text: first character upper case, the rest
    lower case. *)
Definition ascii_upper (c : ascii) : ascii :=
  let n := nat_of_ascii c in
  if ((97 <=? n) && (n <=? 122))%nat then ascii_of_nat (n - 32) else c.

Definition ascii_lower (c : ascii) : ascii :=
  let n := nat_of_ascii c in
  if ((65 <=? n) && (n <=? 90))%nat then ascii_of_nat (n + 32) else c.

Fixpoint str_lower (s : string) : string :=
  match s with
  | EmptyString => EmptyString
  | String c tl => String (ascii_lower c) (str_lower tl)
  end.

Definition capitalize (s : string) : string :=
  match s with
  | EmptyString => EmptyString
  | String c tl => String (ascii_upper c) (str_lower tl)
  end.

(** [os.path.join(a, b)] on POSIX. *)
Definition ends_with_slash (a : string) : bool :=
  match rev (list_ascii_of_string a) with
  | c :: _ => Ascii.eqb c "/"%char
  | [] => false
  end.

Definition os_path_join (a b : string) : string :=
  match b with
  | String c _ =>
      if Ascii.eqb c "/"%char then b
      else if String.eqb a EmptyString || ends_with_slash a then (a ++ b)%string
      else (a ++ "/" ++ b)%string
  | EmptyString =>
      if String.eqb a EmptyString || ends_with_slash a then a
      else (a ++ "/")%string
  end.

(** ** numpy on one-dimensional arrays *)

(** A float the routine reports: a finite value or nan. *)
Inductive float_val : Type :=
| Fval (q : Q)
| Fnan.

(** [a == b] on two integer arrays: elementwise, a length-one array is
    broadcast, other length mismatches raise. *)
Definition np_eq (a b : list Z) : result (list bool) :=
  if (List.length a =? List.length b)%nat then Ok (map (fun '(x, y) => Z.eqb x y) (combine a b))
  else match a, b with
       | [x], _ => Ok (map (fun y => Z.eqb x y) b)
       | _, [y] => Ok (map (fun x => Z.eqb x y) a)
       | _, _ => Raise ValueError
       end.

(** [a == i] with a scalar [i]. *)
Definition np_eq_scalar (a : list Z) (i : Z) : list bool :=
  map (fun x => Z.eqb x i) a.

(** [np.sum] of a boolean array: the number of True entries. *)
Fixpoint np_sum (l : list bool) : Z :=
  match l with
  | [] => 0
  | b :: tl => (if b then 1 else 0) + np_sum tl
  end.

(** [np.mean] of a boolean array: the sum divided by the size; nan for an
    empty array. *)
Definition np_mean (l : list bool) : float_val :=
  match l with
  | [] => Fnan
  | _ => Fval (inject_Z (np_sum l) / inject_Z (Z.of_nat (List.length l)))
  end.

(** The larger and the smaller of two floats. *)
Definition qmax (a b : Q) : Q := if Qle_bool a b then b else a.
Definition qmin (a b : Q) : Q := if Qle_bool a b then a else b.

(** [a.max()] and [a.min()]: ValueError on an array of size zero. *)
Definition np_max (l : list Q) : result Q :=
  match l with
  | [] => Raise ValueError
  | x :: tl => Ok (fold_left qmax tl x)
  end.

Definition np_min (l : list Q) : result Q :=
  match l with
  | [] => Raise ValueError
  | x :: tl => Ok (fold_left qmin tl x)
  end.

(** ** The sample *)

(** A point: the first three columns of a row of [data.x]. *)
Definition point : Type := (Q * Q * Q)%type.

(** One batch of the test loader (batch size 1): [data_x] is [data.x], the
    coordinates; [data_y] is [data.y], the per-point class labels;
    [form_type] and [form_number] are the first entries of the two metadata
    fields. *)
Record Sample : Type := {
  data_x : list point;
  data_y : list Z;
  form_type : string;
  form_number : string
}.

(** [points[:, k]] *)
Definition col0 (points : list point) : list Q := map (fun p => fst (fst p)) points.
Definition col1 (points : list point) : list Q := map (fun p => snd (fst p)) points.
Definition col2 (points : list point) : list Q := map (fun p => snd p) points.

(** ** The class table *)

Definition colors : list string :=
  ["blue"; "green"; "yellow"; "orange"; "red"]%string.

Definition class_names : list string :=
  ["No attention"; "Low"; "Medium-low"; "Medium-high"; "High"]%string.

(** [[colors[int(c)] for c in labels]] *)
Definition color_array (labels : list Z) : result (list string) :=
  list_comp (fun c => py_getitem colors c) labels.

(** [for i, c in enumerate(colors)]: one legend handle per color, labelled
    [class_names[i]]. *)
Definition legend_elements : result (list (string * string)) :=
  list_comp (fun ic => match py_getitem class_names (fst ic) with
                       | Ok name => Ok (snd ic, name)
                       | Raise e => Raise e
                       end)
            (py_enumerate colors).

(** ** Sequencing of fallible steps *)

(** Bind of [result]: the first exception ends the sequence. *)
Definition rbind {A B : Type} (r : result A) (k : A -> result B) : result B :=
  match r with
  | Ok a => k a
  | Raise e => Raise e
  end.

Notation "'let*' v ':=' r 'in' k" := (rbind r (fun v => k))
  (at level 10, v name, r at level 100, k at level 200).

(** ** The bounding box (lines 59-71), in exact arithmetic *)

(** Half the largest of the three coordinate spans (lines 59-63). *)
Definition max_range (points : list point) : result Q :=
  let* x_max := np_max (col0 points) in
  let* x_min := np_min (col0 points) in
  let* y_max := np_max (col1 points) in
  let* y_min := np_min (col1 points) in
  let* z_max := np_max (col2 points) in
  let* z_min := np_min (col2 points) in
  let* m := np_max [x_max - x_min; y_max - y_min; z_max - z_min]%Q in
  Ok (m / 2)%Q.

(** [(c.max() + c.min()) * 0.5] *)
Definition mid (c : list Q) : result Q :=
  let* c_max := np_max c in
  let* c_min := np_min c in
  Ok ((c_max + c_min) * (1 # 2))%Q.

(** ** Accuracy (line 74) *)

(** [np.mean(pred_classes == ground_truth)] *)
Definition accuracy (pred_classes ground_truth : list Z) : result float_val :=
  let* hits := np_eq pred_classes ground_truth in
  Ok (np_mean hits).

(** ** Effects *)

Inductive axes : Type := Ax1 | Ax2.

Inductive axis_dim : Type := DimX | DimY | DimZ.

(** Lines written to the console. *)
Inductive report_line : Type :=
| LineCheckpoint (path : string)
| LineHeader
| LineClass (i : Z) (name : string)
| LineGroundTruth (count : Z)
| LinePredicted (count : Z).

(** The calls the script makes into its collaborators, with the arguments
    the script passes. *)
Inductive event : Type :=
| EvModelEval
| EvToDevice
| EvForward
| EvFigure (width height : Z)
| EvAddSubplot (ax : axes) (pos : Z)
| EvScatter (ax : axes) (points : list point) (c : list string) (s : Z)
| EvSetTitle (ax : axes) (title : string)
| EvLegend (ax : axes) (handles : list (string * string))
| EvSetLabel (ax : axes) (d : axis_dim) (label : string)
| EvViewInit (ax : axes) (elev azim : Z)
| EvSetLim (ax : axes) (d : axis_dim) (lo hi : Q)
| EvSuptitle (acc : float_val)
| EvTightLayout
| EvSavefig (path : string) (dpi : Z) (bbox_inches : string)
| EvShow
| EvPrint (line : report_line)
| EvLoadConfig (path : string)
| EvBuildModel (k : Z) (dropout : Q)
| EvListdir (dir : string)
| EvTorchLoad (path : string)
| EvLoadStateDict
| EvDataset (data_dir demographic : string)
| EvDataloaders (test_models : list Z) (batch_size : Z).

(** A computation: the events it made, in order, and how it ended. *)
Definition M (A : Type) : Type := (list event * result A)%type.

Definition ret {A : Type} (a : A) : M A := ([], Ok a).

Definition bind {A B : Type} (m : M A) (k : A -> M B) : M B :=
  match m with
  | (t, Ok a) => let rest := k a in (t ++ fst rest, snd rest)
  | (t, Raise e) => (t, Raise e)
  end.

Definition emit (e : event) : M unit := ([e], Ok tt).

Definition lift {A : Type} (r : result A) : M A := ([], r).

Definition trace {A : Type} (m : M A) : list event := fst m.

Definition outcome {A : Type} (m : M A) : result A := snd m.

Notation "v <- m ;; k" := (bind m (fun v => k))
  (at level 100, m at next level, right associativity).
Notation "m ;; k" := (bind m (fun _ => k))
  (at level 100, right associativity).

Fixpoint for_each {A : Type} (l : list A) (body : A -> M unit) : M unit :=
  match l with
  | [] => ret tt
  | a :: tl => body a ;; for_each tl body
  end.

(** ** visualize_prediction, lines 20-89: everything after inference *)

(** The title of a subplot (lines 35 and 49). *)
Definition axis_title (data : Sample) (what : string) : string :=
  (capitalize (form_type data) ++ " Model " ++ form_number data ++ " - " ++ what)%string.

(** The body of [for ax in [ax1, ax2]]. *)
Definition set_view (points : list point) (ax : axes) : M unit :=
  emit (EvSetLabel ax DimX "X") ;;
  emit (EvSetLabel ax DimY "Y") ;;
  emit (EvSetLabel ax DimZ "Z") ;;
  emit (EvViewInit ax 30 45) ;;
  r <- lift (max_range points) ;;
  mid_x <- lift (mid (col0 points)) ;;
  mid_y <- lift (mid (col1 points)) ;;
  mid_z <- lift (mid (col2 points)) ;;
  emit (EvSetLim ax DimX (mid_x - r) (mid_x + r))%Q ;;
  emit (EvSetLim ax DimY (mid_y - r) (mid_y + r))%Q ;;
  emit (EvSetLim ax DimZ (mid_z - r) (mid_z + r))%Q.

(** The body of [for i in range(5)]. *)
Definition print_class (ground_truth pred_classes : list Z) (i : Z) : M unit :=
  name <- lift (py_getitem class_names i) ;;
  emit (EvPrint (LineClass i name)) ;;
  emit (EvPrint (LineGroundTruth (np_sum (np_eq_scalar ground_truth i)))) ;;
  emit (EvPrint (LinePredicted (np_sum (np_eq_scalar pred_classes i)))).

(** Lines 20-89, with the predicted classes as an argument, in exact
    arithmetic and with scatter and savefig calls that return.  The texts
    the f-strings build for the suptitle and the report are kept as the
    values they show. *)
Definition render (data : Sample) (pred_classes : list Z) (save_path : option string) : M unit :=
  let points := data_x data in
  let ground_truth := data_y data in
  emit (EvFigure 15 7) ;;
  emit (EvAddSubplot Ax1 121) ;;
  c1 <- lift (color_array ground_truth) ;;
  emit (EvScatter Ax1 points c1 2) ;;
  emit (EvSetTitle Ax1 (axis_title data "Ground Truth")) ;;
  handles <- lift legend_elements ;;
  emit (EvLegend Ax1 handles) ;;
  emit (EvAddSubplot Ax2 122) ;;
  c2 <- lift (color_array pred_classes) ;;
  emit (EvScatter Ax2 points c2 2) ;;
  emit (EvSetTitle Ax2 (axis_title data "Predicted")) ;;
  emit (EvLegend Ax2 handles) ;;
  for_each [Ax1; Ax2] (set_view points) ;;
  acc <- lift (accuracy pred_classes ground_truth) ;;
  emit (EvSuptitle acc) ;;
  emit EvTightLayout ;;
  (if py_truthy save_path
   then match save_path with
        | Some p => emit (EvSavefig p 300 "tight")
        | None => ret tt
        end
   else ret tt) ;;
  emit EvShow ;;
  emit (EvPrint LineHeader) ;;
  for_each (py_range 5) (print_class ground_truth pred_classes).

(** ** torch on the logits tensor *)

(** What torch does with tensor elements, as far as the script relies on
    it: the exponential, sum and quotient of softmax, and the strict
    "ranks above" test of argmax. *)
Class TorchFloat (F : Type) : Type := {
  fzero : F;
  fadd : F -> F -> F;
  fdiv : F -> F -> F;
  fexp : F -> F;
  fgt : F -> F -> bool
}.

(** A two-dimensional tensor of shape [shape0, shape1]; for the logits,
    dimension 0 runs over the points and dimension 1 over the classes. *)
Record tensor (F : Type) : Type := {
  shape0 : nat;
  shape1 : nat;
  item : nat -> nat -> F
}.

Arguments shape0 {F} t.
Arguments shape1 {F} t.
Arguments item {F} t i j.

(** A dimension argument of a 2-D tensor: 0, 1, or -2, -1 counted from the
    end. *)
Definition norm_dim (dim : Z) : result nat :=
  if (0 <=? dim) && (dim <? 2) then Ok (Z.to_nat dim)
  else if (-2 <=? dim) && (dim <? 0) then Ok (Z.to_nat (dim + 2))
  else Raise IndexError.

(** The entries that agree with position [(i, j)] on every index but the
    one of dimension [d]. *)
Definition lane {F : Type} (t : tensor F) (d : nat) (i j : nat) : list F :=
  match d with
  | O => map (fun k => item t k j) (seq 0 (shape0 t))
  | _ => map (fun k => item t i k) (seq 0 (shape1 t))
  end.

Section Torch.
Context {F : Type} {K : TorchFloat F}.

(** Sum of a lane, accumulated from the left. *)
Definition fsum (l : list F) : F := fold_left fadd l fzero.

(** [torch.softmax(t, dim)]: every entry becomes its exponential divided by
    the sum of the exponentials along [dim]. *)
Definition torch_softmax (t : tensor F) (dim : Z) : result (tensor F) :=
  let* d := norm_dim dim in
  Ok {| shape0 := shape0 t;
        shape1 := shape1 t;
        item := fun i j => fdiv (fexp (item t i j)) (fsum (map fexp (lane t d i j))) |}.

(** Index of the first entry no later entry ranks above, scanning left to
    right from a running best. *)
Fixpoint argmax_from (best : F) (best_i i : nat) (l : list F) : nat :=
  match l with
  | [] => best_i
  | v :: tl =>
      if fgt v best then argmax_from v i (S i) tl
      else argmax_from best best_i (S i) tl
  end.

(** Argmax of one lane; a lane of size zero has none. *)
Definition argmax1d (l : list F) : result Z :=
  match l with
  | [] => Raise IndexError
  | v :: tl => Ok (Z.of_nat (argmax_from v 0 1 tl))
  end.

(** [t.argmax(dim)]: one index per position of the other dimension.  A
    dimension of size zero cannot be reduced (IndexError), also when the
    other dimension is empty. *)
Definition torch_argmax (t : tensor F) (dim : Z) : result (list Z) :=
  let* d := norm_dim dim in
  match d with
  | O => if (shape0 t =? 0)%nat then Raise IndexError
         else list_comp (fun j => argmax1d (lane t 0 0 j)) (seq 0 (shape1 t))
  | _ => if (shape1 t =? 0)%nat then Raise IndexError
         else list_comp (fun i => argmax1d (lane t 1 i 0)) (seq 0 (shape0 t))
  end.

(** Lines 17-18. *)
Definition pred_classes_of (outputs : tensor F) : result (list Z) :=
  let* predictions := torch_softmax outputs 1 in
  torch_argmax predictions 1.

(** ** visualize_prediction *)

(** Lines 10-89 with a forward pass that returns: inference (lines 12-18),
    then [render]. *)
Definition visualize_prediction (model : Sample -> tensor F) (data : Sample)
    (save_path : option string) : M unit :=
  emit EvModelEval ;;
  emit EvToDevice ;;
  emit EvForward ;;
  pred_classes <- lift (pred_classes_of (model data)) ;;
  render data pred_classes save_path.

(** ** main *)

(** The keys of the configuration the script reads. *)
Record Config : Type := {
  model_k : Z;
  model_dropout : Q;
  training_checkpoint_dir : string;
  data_path : string
}.

(** What the driver reads from outside: the configuration file, the file
    system, the checkpoint files, the network and the data set.  Here the
    configuration has its keys, the checkpoint file holds the weights and
    the network accepts them; [Site] below drops these assumptions. *)
Record World : Type := {
  Weights : Type;
  load_config : string -> Config;
  os_listdir : string -> result (list string);
  os_path_isdir : string -> bool;
  DGCNN_forward : Z -> Q -> Weights -> Sample -> tensor F;
  torch_load : string -> result Weights;
  test_loader : string -> string -> list Z -> Z -> result (list Sample)
}.

(** The subdirectories of [checkpoint_dir], in listing order (line 103). *)
Definition timestamp_dirs (w : World) (checkpoint_dir : string) (names : list string) : list string :=
  filter (fun d => os_path_isdir w (os_path_join checkpoint_dir d)) names.

(** Lines 104-106. *)
Definition latest_dir (dirs : list string) : result string :=
  match dirs with
  | [] => Raise FileNotFoundError
  | _ => py_max dirs
  end.

(** Line 137. *)
Definition save_name (batch : Sample) : string :=
  ("visualization_" ++ form_type batch ++ "_model_" ++ form_number batch ++ ".png")%string.

(** Lines 91-138. *)
Definition main (w : World) : M unit :=
  emit (EvLoadConfig "configs/config.yaml") ;;
  let config := load_config w "configs/config.yaml" in
  emit (EvBuildModel (model_k config) (model_dropout config)) ;;
  let checkpoint_dir := training_checkpoint_dir config in
  emit (EvListdir checkpoint_dir) ;;
  names <- lift (os_listdir w checkpoint_dir) ;;
  latest <- lift (latest_dir (timestamp_dirs w checkpoint_dir names)) ;;
  let checkpoint_path :=
    os_path_join (os_path_join checkpoint_dir latest) "best_model.pt" in
  emit (EvPrint (LineCheckpoint checkpoint_path)) ;;
  emit (EvTorchLoad checkpoint_path) ;;
  weights <- lift (torch_load w checkpoint_path) ;;
  emit EvLoadStateDict ;;
  let model := DGCNN_forward w (model_k config) (model_dropout config) weights in
  emit (EvDataset (data_path config) "novice") ;;
  emit (EvDataloaders [1; 15] 1) ;;
  batches <- lift (test_loader w (data_path config) "novice" [1; 15] 1) ;;
  for_each batches
    (fun batch => visualize_prediction model batch (Some (save_name batch))).

End Torch.

Arguments World F : clear implicits.

(** * The routines with the libraries as they are *)

(** ** Floating-point arithmetic on the coordinates *)

Section Rounded.
Variable rnd : Q -> Q.

(** Lines 59-63: the three spans, the largest of them, and its half, each
    operation rounded by [rnd]. *)
Definition max_range_in (points : list point) : result Q :=
  let* x_max := np_max (col0 points) in
  let* x_min := np_min (col0 points) in
  let* y_max := np_max (col1 points) in
  let* y_min := np_min (col1 points) in
  let* z_max := np_max (col2 points) in
  let* z_min := np_min (col2 points) in
  let* m := np_max [rnd (x_max - x_min); rnd (y_max - y_min); rnd (z_max - z_min)]%Q in
  Ok (rnd (m / 2))%Q.

(** [(c.max() + c.min()) * 0.5]: the sum is rounded, then the product. *)
Definition mid_in (c : list Q) : result Q :=
  let* c_max := np_max c in
  let* c_min := np_min c in
  Ok (rnd (rnd (c_max + c_min) * (1 # 2)))%Q.

End Rounded.

(** ** matplotlib and numpy under [visualize_prediction] *)

(** What lines 20-89 take from the libraries: the rounding of the float
    format of [points], and the outcome of the two matplotlib calls that
    check their arguments or touch the disk. *)
Record Lib : Type := {
  fl_round : Q -> Q;
  scatter : list point -> list string -> result unit;
  savefig : string -> result unit
}.

(** A library call that can raise: it is logged when it returns. *)
Definition call (r : result unit) (e : event) : M unit :=
  lift r ;; emit e.

(** The body of [for ax in [ax1, ax2]]. *)
Definition set_view_in (L : Lib) (points : list point) (ax : axes) : M unit :=
  let rnd := fl_round L in
  emit (EvSetLabel ax DimX "X") ;;
  emit (EvSetLabel ax DimY "Y") ;;
  emit (EvSetLabel ax DimZ "Z") ;;
  emit (EvViewInit ax 30 45) ;;
  r <- lift (max_range_in rnd points) ;;
  mid_x <- lift (mid_in rnd (col0 points)) ;;
  mid_y <- lift (mid_in rnd (col1 points)) ;;
  mid_z <- lift (mid_in rnd (col2 points)) ;;
  emit (EvSetLim ax DimX (rnd (mid_x - r)) (rnd (mid_x + r)))%Q ;;
  emit (EvSetLim ax DimY (rnd (mid_y - r)) (rnd (mid_y + r)))%Q ;;
  emit (EvSetLim ax DimZ (rnd (mid_z - r)) (rnd (mid_z + r)))%Q.

(** Lines 20-89, with the predicted classes as an argument.  A scatter or
    savefig call that raises ends the run and leaves no event; the limits
    are computed in the arithmetic of [L]. *)
Definition render_in (L : Lib) (data : Sample) (pred_classes : list Z)
    (save_path : option string) : M unit :=
  let points := data_x data in
  let ground_truth := data_y data in
  emit (EvFigure 15 7) ;;
  emit (EvAddSubplot Ax1 121) ;;
  c1 <- lift (color_array ground_truth) ;;
  call (scatter L points c1) (EvScatter Ax1 points c1 2) ;;
  emit (EvSetTitle Ax1 (axis_title data "Ground Truth")) ;;
  handles <- lift legend_elements ;;
  emit (EvLegend Ax1 handles) ;;
  emit (EvAddSubplot Ax2 122) ;;
  c2 <- lift (color_array pred_classes) ;;
  call (scatter L points c2) (EvScatter Ax2 points c2 2) ;;
  emit (EvSetTitle Ax2 (axis_title data "Predicted")) ;;
  emit (EvLegend Ax2 handles) ;;
  for_each [Ax1; Ax2] (set_view_in L points) ;;
  acc <- lift (accuracy pred_classes ground_truth) ;;
  emit (EvSuptitle acc) ;;
  emit EvTightLayout ;;
  (if py_truthy save_path
   then match save_path with
        | Some p => call (savefig L p) (EvSavefig p 300 "tight")
        | None => ret tt
        end
   else ret tt) ;;
  emit EvShow ;;
  emit (EvPrint LineHeader) ;;
  for_each (py_range 5) (print_class ground_truth pred_classes).

(** ** The driver's collaborators *)

(** The parsed configuration file: each key the script reads, or the
    exception of reading it. *)
Record ConfigFile : Type := {
  cfg_model_k : result Z;
  cfg_model_dropout : result Q;
  cfg_checkpoint_dir : result string;
  cfg_data_path : result string
}.

Section Collaborators.
Context {F : Type} {K : TorchFloat F}.

(** Lines 10-89 with a forward pass that can raise. *)
Definition visualize_prediction_in (L : Lib) (model : Sample -> result (tensor F))
    (data : Sample) (save_path : option string) : M unit :=
  emit EvModelEval ;;
  emit EvToDevice ;;
  outputs <- lift (model data) ;;
  emit EvForward ;;
  pred_classes <- lift (pred_classes_of outputs) ;;
  render_in L data pred_classes save_path.

(** Everything [main] calls: the configuration reader, the network's
    constructor and forward pass, the file system, the checkpoint file and
    its state dictionary, the data set and its loaders.  The test loader
    is the sequence of what the loop is handed for each batch: the sample
    with its two metadata entries, or the exception of fetching it. *)
Record Site : Type := {
  Checkpoint : Type;
  StateDict : Type;
  Dataset : Type;
  read_config : string -> result ConfigFile;
  build_DGCNN : Z -> Q -> result unit;
  listdir : string -> result (list string);
  isdir : string -> bool;
  load_checkpoint_file : string -> result Checkpoint;
  state_dict_of : Checkpoint -> result StateDict;
  restore_weights : StateDict -> result unit;
  forward_pass : Z -> Q -> StateDict -> Sample -> result (tensor F);
  build_dataset : string -> string -> result Dataset;
  build_loaders : Dataset -> list Z -> Z -> result (list (result Sample));
  lib : Lib
}.

(** One pass of the loop of lines 129-138. *)
Definition visualize_fetched (L : Lib) (model : Sample -> result (tensor F))
    (fetched : result Sample) : M unit :=
  batch <- lift fetched ;;
  visualize_prediction_in L model batch (Some (save_name batch)).

(** Lines 91-138. *)
Definition main_in (s : Site) : M unit :=
  config <- lift (read_config s "configs/config.yaml") ;;
  emit (EvLoadConfig "configs/config.yaml") ;;
  k <- lift (cfg_model_k config) ;;
  dropout <- lift (cfg_model_dropout config) ;;
  lift (build_DGCNN s k dropout) ;;
  emit (EvBuildModel k dropout) ;;
  checkpoint_dir <- lift (cfg_checkpoint_dir config) ;;
  names <- lift (listdir s checkpoint_dir) ;;
  emit (EvListdir checkpoint_dir) ;;
  latest <- lift (latest_dir
                    (filter (fun d => isdir s (os_path_join checkpoint_dir d)) names)) ;;
  let checkpoint_path :=
    os_path_join (os_path_join checkpoint_dir latest) "best_model.pt" in
  emit (EvPrint (LineCheckpoint checkpoint_path)) ;;
  checkpoint <- lift (load_checkpoint_file s checkpoint_path) ;;
  emit (EvTorchLoad checkpoint_path) ;;
  state <- lift (state_dict_of s checkpoint) ;;
  lift (restore_weights s state) ;;
  emit EvLoadStateDict ;;
  data_dir <- lift (cfg_data_path config) ;;
  dataset <- lift (build_dataset s data_dir "novice") ;;
  emit (EvDataset data_dir "novice") ;;
  loader <- lift (build_loaders s dataset [1; 15] 1) ;;
  emit (EvDataloaders [1; 15] 1) ;;
  for_each loader (visualize_fetched (lib s) (forward_pass s k dropout state)).

End Collaborators.

Arguments Site F : clear implicits.

(** ** Single-precision floats *)

(** [2 ^ e] for an integer exponent. *)
Definition pow2 (e : Z) : Q := Qpower 2 e.

(** The nearest integer, ties to the even one. *)
Definition round_half_even (q : Q) : Z :=
  let f := Qfloor q in
  match Qcompare (q - inject_Z f) (1 # 2) with
  | Lt => f
  | Gt => f + 1
  | Eq => if Z.even f then f else f + 1
  end.

(** The exponent [e] of a positive rational: [2 ^ e <= q < 2 ^ (e + 1)]. *)
Definition binade (q : Q) : Z :=
  let e0 := Z.log2 (Qnum q) - Z.log2 (Zpos (Qden q)) in
  if Qle_bool (pow2 e0) q then e0 else e0 - 1.

(** Rounding to [p] significant bits with exponents from [emin] up: to the
    nearest value of the format, ties to the even significand.  Values
    beyond the largest float of a format (where IEEE arithmetic gives inf)
    are not cut off. *)
Definition round_to (p emin : Z) (q : Q) : Q :=
  let q := Qred q in
  if Qeq_bool q 0 then 0%Q
  else
    let a := Qabs q in
    let e := Z.max (binade a) emin in
    let ulp := pow2 (e - (p - 1)) in
    let n := round_half_even (a / ulp) in
    let r := Qred (inject_Z n * ulp) in
    if Qle_bool 0 q then r else Qred (- r).

(** binary32: 24 significant bits, exponents from -126 (below it, the
    subnormal floats, multiples of [2 ^ -149]). *)
Definition round32 : Q -> Q := round_to 24 (-126).

(** The exponential, computed to 80 bits and then rounded: the argument is
    halved until it is at most 1/2, the series is summed to degree 24, and
    the result is squared back.  Arguments are clamped to [-128, 128],
    where the result already rounds to 0 or lies beyond the largest
    float. *)
Definition wide : Q -> Q := round_to 80 (-1000).

Fixpoint taylor_exp (n : nat) (k : positive) (y : Q) : Q :=
  match n with
  | O => 1%Q
  | S m => wide (1 + wide (y / (Zpos k # 1) * taylor_exp m (Pos.succ k) y))
  end.

Fixpoint halvings (fuel : nat) (y : Q) : nat :=
  match fuel with
  | O => O
  | S f => if Qle_bool (Qabs y) (1 # 2) then O else S (halvings f (y / 2))
  end.

Fixpoint squarings (k : nat) (t : Q) : Q :=
  match k with
  | O => t
  | S m => squarings m (wide (t * t))
  end.

Definition clamp (lo hi q : Q) : Q :=
  if Qle_bool q lo then lo else if Qle_bool hi q then hi else q.

Definition exp_wide (q : Q) : Q :=
  let k := halvings 8 q in
  squarings k (taylor_exp 24 1 (wide (q / pow2 (Z.of_nat k)))).

Definition exp32 (q : Q) : Q := round32 (exp_wide (clamp (-128) 128 (Qred q))).

(** torch's arithmetic on float32 tensors, for finite values: sums and
    quotients are rounded, comparisons are exact. *)
Definition binary32 : TorchFloat Q :=
  {| fzero := 0%Q;
     fadd := fun a b => round32 (a + b);
     fdiv := fun a b => round32 (a / b);
     fexp := exp32;
     fgt := fun a b => negb (Qle_bool a b) |}.


(** * Vocabulary of the statements *)

(** ** Samples *)

(** A sample of [N] points with one label and one predicted class per
    point, all of them in the given range. *)
Definition sample_ok (lo : Z) (data : Sample) (pred_classes : list Z) (N : nat) : Prop :=
  List.length (data_x data) = N
  /\ List.length (data_y data) = N
  /\ List.length pred_classes = N
  /\ Forall (fun c => lo <= c <= 4) (data_y data)
  /\ Forall (fun c => lo <= c <= 4) pred_classes.

(** ** What the statements say about arrays and strings *)

(** The points whose predicted class equals the ground-truth class, as
    pairs (predicted, ground truth). *)
Definition matching_points (pred_classes ground_truth : list Z) : list (Z * Z) :=
  filter (fun pg => Z.eqb (fst pg) (snd pg)) (combine pred_classes ground_truth).

(** [np.sum(labels == i)] for [i] in [range(5)]. *)
Definition class_counts (labels : list Z) : list Z :=
  map (fun i => np_sum (np_eq_scalar labels i)) (py_range 5).

(** The sum of a list of counts. *)
Definition zsum (l : list Z) : Z := fold_right Z.add 0 l.

(** Lexicographic order on strings: the empty string is least, and two
    non-empty strings are ordered by their first character's code, the
    rest deciding between equal first characters. *)
Inductive lex_le : string -> string -> Prop :=
| lex_le_empty (s : string) : lex_le EmptyString s
| lex_le_head (c1 c2 : ascii) (s1 s2 : string) :
    (nat_of_ascii c1 < nat_of_ascii c2)%nat -> lex_le (String c1 s1) (String c2 s2)
| lex_le_tail (c : ascii) (s1 s2 : string) :
    lex_le s1 s2 -> lex_le (String c s1) (String c s2).

#[local] Hint Constructors lex_le : core.

(** ** What the statements say about traces *)

(** The ground-truth counts and the predicted counts a trace prints, in
    printing order. *)
Definition printed_ground_truth (t : list event) : list Z :=
  flat_map (fun e => match e with
                     | EvPrint (LineGroundTruth n) => [n]
                     | _ => []
                     end) t.

Definition printed_predicted (t : list event) : list Z :=
  flat_map (fun e => match e with
                     | EvPrint (LinePredicted n) => [n]
                     | _ => []
                     end) t.

Definition is_savefig (e : event) : bool :=
  match e with
  | EvSavefig _ _ _ => true
  | _ => false
  end.

Definition is_show (e : event) : bool :=
  match e with
  | EvShow => true
  | _ => false
  end.

(** Events that set a figure up; no others precede a failure of [render]. *)
Definition setup_event (e : event) : bool :=
  match e with
  | EvFigure _ _ | EvAddSubplot _ _ | EvScatter _ _ _ _ | EvSetTitle _ _
  | EvLegend _ _ | EvSetLabel _ _ _ | EvViewInit _ _ _ | EvSetLim _ _ _ _ => true
  | _ => false
  end.


(** The legend: each color with its class name. *)
Definition legend_handles : list (string * string) :=
  combine colors class_names.

(** What one pass of the loop over the two subplots emits. *)
Definition view_events (ax : axes) (r mid_x mid_y mid_z : Q) : list event :=
  [EvSetLabel ax DimX "X"; EvSetLabel ax DimY "Y"; EvSetLabel ax DimZ "Z";
   EvViewInit ax 30 45;
   EvSetLim ax DimX (mid_x - r) (mid_x + r);
   EvSetLim ax DimY (mid_y - r) (mid_y + r);
   EvSetLim ax DimZ (mid_z - r) (mid_z + r)]%Q.

(** What the [if save_path:] step emits. *)
Definition save_events (save_path : option string) : list event :=
  match save_path with
  | Some p => if String.eqb p EmptyString then [] else [EvSavefig p 300 "tight"]
  | None => []
  end.

(** The three lines printed for one class, and the whole report. *)
Definition class_events (ground_truth pred_classes : list Z) (row : Z * string) : list event :=
  [EvPrint (LineClass (fst row) (snd row));
   EvPrint (LineGroundTruth (np_sum (np_eq_scalar ground_truth (fst row))));
   EvPrint (LinePredicted (np_sum (np_eq_scalar pred_classes (fst row))))].

Definition report_events (ground_truth pred_classes : list Z) : list event :=
  EvPrint LineHeader
  :: flat_map (class_events ground_truth pred_classes) (py_enumerate class_names).

(** The events of a complete run before the figure is saved or shown. *)
Definition drawing_events (data : Sample) (c1 c2 : list string)
    (r mid_x mid_y mid_z : Q) (acc : float_val) : list event :=
  [EvFigure 15 7;
   EvAddSubplot Ax1 121;
   EvScatter Ax1 (data_x data) c1 2;
   EvSetTitle Ax1 (axis_title data "Ground Truth");
   EvLegend Ax1 legend_handles;
   EvAddSubplot Ax2 122;
   EvScatter Ax2 (data_x data) c2 2;
   EvSetTitle Ax2 (axis_title data "Predicted");
   EvLegend Ax2 legend_handles]
  ++ view_events Ax1 r mid_x mid_y mid_z
  ++ view_events Ax2 r mid_x mid_y mid_z
  ++ [EvSuptitle acc; EvTightLayout].

(** The events of a run of [render] that reaches its end. *)
Definition render_events (data : Sample) (pred_classes : list Z)
    (save_path : option string) (c1 c2 : list string)
    (r mid_x mid_y mid_z : Q) (acc : float_val) : list event :=
  [EvFigure 15 7;
   EvAddSubplot Ax1 121;
   EvScatter Ax1 (data_x data) c1 2;
   EvSetTitle Ax1 (axis_title data "Ground Truth");
   EvLegend Ax1 legend_handles;
   EvAddSubplot Ax2 122;
   EvScatter Ax2 (data_x data) c2 2;
   EvSetTitle Ax2 (axis_title data "Predicted");
   EvLegend Ax2 legend_handles]
  ++ view_events Ax1 r mid_x mid_y mid_z
  ++ view_events Ax2 r mid_x mid_y mid_z
  ++ [EvSuptitle acc; EvTightLayout]
  ++ save_events save_path
  ++ EvShow :: report_events (data_y data) pred_classes.

(** The conditions under which [render] reaches its end. *)
Definition render_inputs_ok (data : Sample) (pred_classes : list Z)
    (c1 c2 : list string) (r mid_x mid_y mid_z : Q) (acc : float_val) : Prop :=
  color_array (data_y data) = Ok c1
  /\ color_array pred_classes = Ok c2
  /\ max_range (data_x data) = Ok r
  /\ mid (col0 (data_x data)) = Ok mid_x
  /\ mid (col1 (data_x data)) = Ok mid_y
  /\ mid (col2 (data_x data)) = Ok mid_z
  /\ accuracy pred_classes (data_y data) = Ok acc.

(** ** What the statements say about inference and the driver *)

(** The logits of point [i], one per class. *)
Definition point_logits {F : Type} (outputs : tensor F) (i : nat) : list F :=
  map (fun j => item outputs i j) (seq 0 (shape1 outputs)).

(** Softmax of one point's logits: a probability per class. *)
Definition softmax_over_classes {F : Type} {K : TorchFloat F} (logits : list F) : list F :=
  map (fun v => fdiv (fexp v) (fsum (map fexp logits))) logits.

(** For each point in turn: softmax over its classes, then the argmax of
    the probabilities; a tensor with no class has no argmax. *)
Definition per_point_classes {F : Type} {K : TorchFloat F} (outputs : tensor F) :
    result (list Z) :=
  if (shape1 outputs =? 0)%nat then Raise IndexError
  else list_comp (fun i => argmax1d (softmax_over_classes (point_logits outputs i)))
                 (seq 0 (shape0 outputs)).

(** The sum of the exponentials of the first [n] logits of point [i], taken
    in the order of the classes. *)
Fixpoint exp_sum {F : Type} {K : TorchFloat F} (outputs : tensor F) (i n : nat) : F :=
  match n with
  | O => fzero
  | S m => fadd (exp_sum outputs i m) (fexp (item outputs i m))
  end.

(** The probability of class [j] for point [i]: the exponential of its logit
    over the sum of the exponentials of the point's logits. *)
Definition probability {F : Type} {K : TorchFloat F} (outputs : tensor F) (i j : nat) : F :=
  fdiv (fexp (item outputs i j)) (exp_sum outputs i (shape1 outputs)).

(** [running_best p n c]: going through [p 0], ..., [p (n - 1)] and moving
    on to an entry only when it ranks above the one held, one ends holding
    entry [c]. *)
Inductive running_best {F : Type} {K : TorchFloat F} (p : nat -> F) : nat -> nat -> Prop :=
| best_first : running_best p 1 0
| best_taken (n c : nat) :
    running_best p n c -> fgt (p n) (p c) = true -> running_best p (S n) n
| best_kept (n c : nat) :
    running_best p n c -> fgt (p n) (p c) = false -> running_best p (S n) c.

(** "Ranks above" orders [p 0], ..., [p (n - 1)]: nothing ranks above
    itself, and both ranking above and not ranking above are transitive.
    The [>] of floats does so when none of them is nan. *)
Definition ranked {F : Type} {K : TorchFloat F} (p : nat -> F) (n : nat) : Prop :=
  (forall i, (i < n)%nat -> fgt (p i) (p i) = false)
  /\ (forall i j k, (i < n)%nat -> (j < n)%nat -> (k < n)%nat ->
        fgt (p i) (p j) = true -> fgt (p j) (p k) = true -> fgt (p i) (p k) = true)
  /\ (forall i j k, (i < n)%nat -> (j < n)%nat -> (k < n)%nat ->
        fgt (p i) (p j) = false -> fgt (p j) (p k) = false -> fgt (p i) (p k) = false).

(** [c] is the argmax of [p 0], ..., [p (n - 1)]: no entry ranks above
    [p c], and [p c] ranks above every earlier entry. *)
Definition first_largest {F : Type} {K : TorchFloat F} (p : nat -> F) (n c : nat) : Prop :=
  (c < n)%nat
  /\ (forall j, (j < n)%nat -> fgt (p j) (p c) = false)
  /\ (forall j, (j < c)%nat -> fgt (p c) (p j) = true).

(** The configuration [main] works with. *)
Definition the_config {F : Type} (w : World F) : Config :=
  load_config w "configs/config.yaml".

(** ** Concrete inputs *)

(** A two-point sample used to run the routine: ranges X:[0,2], Y:[0,4],
    Z:[0,1], labels 0 and 4. *)
Definition demo_sample : Sample :=
  {| data_x := [(0, 0, 0); (2, 4, 1)]%Q;
     data_y := [0; 4];
     form_type := "curved";
     form_number := "15" |}.

(** The same points, the first one labelled -1. *)
Definition wrapped_sample : Sample :=
  {| data_x := [(0, 0, 0); (2, 4, 1)]%Q;
     data_y := [-1; 2];
     form_type := "curved";
     form_number := "15" |}.

(** Five points, one of each class. *)
Definition five_class_sample : Sample :=
  {| data_x := [(0, 0, 0); (1, 0, 0); (0, 1, 0); (0, 0, 1); (2, 4, 1)]%Q;
     data_y := [0; 1; 2; 3; 4];
     form_type := "curved";
     form_number := "1" |}.

(** A sample with a label outside the class table. *)
Definition six_class_sample : Sample :=
  {| data_x := [(0, 0, 0); (2, 4, 1)]%Q;
     data_y := [0; 5];
     form_type := "curved";
     form_number := "15" |}.

(** A sample with no point. *)
Definition empty_sample : Sample :=
  {| data_x := []; data_y := []; form_type := "curved"; form_number := "15" |}.

(** A small executable kernel, used to run the routines on concrete
    inputs: rationals, with [2 ^ floor q] standing for the exponential. *)
#[local] Instance Q_float : TorchFloat Q :=
  {| fzero := 0%Q;
     fadd := Qplus;
     fdiv := Qdiv;
     fexp := fun q => Qpower 2 (Qfloor q);
     fgt := fun a b => negb (Qle_bool a b) |}.

(** A configuration file's content. *)
Definition demo_config : Config :=
  {| model_k := 20;
     model_dropout := (1 # 2)%Q;
     training_checkpoint_dir := "checkpoints";
     data_path := "data" |}.

(** A network that puts logit 1 on class [(i + 3) mod 5] of point [i] and
    logit 0 on the other classes. *)
Definition demo_forward (s : Sample) : tensor Q :=
  {| shape0 := List.length (data_x s);
     shape1 := 5;
     item := fun i j => if (j =? (i + 3) mod 5)%nat then 1%Q else 0%Q |}.

(** A world with three checkpoint directories and one test sample. *)
Definition demo_world : World Q :=
  {| Weights := unit;
     load_config := fun _ => demo_config;
     os_listdir := fun _ => Ok ["2023-01-01"; "notes.txt"; "2023-06-01"; "2022-12-31"]%string;
     os_path_isdir := fun p => negb (String.eqb p "checkpoints/notes.txt");
     DGCNN_forward := fun _ _ _ => demo_forward;
     torch_load := fun _ => Ok tt;
     test_loader := fun _ _ _ _ => Ok [demo_sample] |}.

(** A world whose checkpoint root holds a file and no directory. *)
Definition bare_world : World Q :=
  {| Weights := unit;
     load_config := fun _ => demo_config;
     os_listdir := fun _ => Ok ["notes.txt"]%string;
     os_path_isdir := fun _ => false;
     DGCNN_forward := fun _ _ _ => demo_forward;
     torch_load := fun _ => Ok tt;
     test_loader := fun _ _ _ _ => Ok [demo_sample] |}.

(** * Properties *)

(** ** The color table *)

Lemma small_label_cases (c : Z) :
  -5 <= c <= 4 ->
  c = -5 \/ c = -4 \/ c = -3 \/ c = -2 \/ c = -1 \/
  c = 0 \/ c = 1 \/ c = 2 \/ c = 3 \/ c = 4.
Proof. lia. Qed.

(** A color is found exactly for the labels -5..4. *)
Lemma py_getitem_colors_ok (c : Z) :
  -5 <= c <= 4 ->
  exists col, py_getitem colors c = Ok col /\ In col colors.
Proof.
  intros H.
  destruct (small_label_cases c H) as [-> | [-> | [-> | [-> | [-> |
                                      [-> | [-> | [-> | [-> | ->]]]]]]]]];
    eexists; (split; [reflexivity | simpl; tauto]).
Qed.

Lemma py_getitem_colors_raises (c : Z) :
  c < -5 \/ 4 < c -> py_getitem colors c = Raise IndexError.
Proof.
  intros H. unfold py_getitem. change (Z.of_nat (List.length colors)) with 5.
  cbv zeta.
  destruct (c <? 0) eqn:Hneg.
  - apply Z.ltb_lt in Hneg.
    replace (c + 5 <? 0) with true by (symmetry; apply Z.ltb_lt; lia).
    reflexivity.
  - apply Z.ltb_ge in Hneg.
    replace (c <? 0) with false by (symmetry; apply Z.ltb_ge; lia).
    replace (5 <=? c) with true by (symmetry; apply Z.leb_le; lia).
    reflexivity.
Qed.

Lemma list_comp_ok {A B : Type} (f : A -> result B) (P : B -> Prop) (l : list A) :
  (forall a, In a l -> exists b, f a = Ok b /\ P b) ->
  exists bs, list_comp f l = Ok bs /\ List.length bs = List.length l /\ Forall P bs.
Proof.
  induction l as [| a tl IH]; intros H.
  - exists []. repeat split; constructor.
  - destruct (H a (or_introl eq_refl)) as [b [Hb Pb]].
    destruct IH as [bs [Hbs [Hlen HP]]].
    { intros a' Ha'. apply H. right. exact Ha'. }
    exists (b :: bs). simpl. rewrite Hb, Hbs.
    repeat split; [now rewrite Hlen | now constructor].
Qed.

Lemma list_comp_nth {A B : Type} (f : A -> result B) (l : list A) (bs : list B) :
  list_comp f l = Ok bs ->
  forall i a, nth_error l i = Some a ->
  exists b, nth_error bs i = Some b /\ f a = Ok b.
Proof.
  revert bs. induction l as [| a0 tl IH]; intros bs H i a Hi.
  - destruct i; discriminate.
  - simpl in H. destruct (f a0) as [b0 |] eqn:Hf; [| discriminate].
    destruct (list_comp f tl) as [bs0 |] eqn:Htl; [| discriminate].
    injection H as <-.
    destruct i as [| i].
    + injection Hi as <-. exists b0. split; [reflexivity | exact Hf].
    + simpl in Hi. simpl. eapply IH; [reflexivity | exact Hi].
Qed.

Lemma color_array_ok (labels : list Z) :
  Forall (fun c => -5 <= c <= 4) labels ->
  exists cs, color_array labels = Ok cs
             /\ List.length cs = List.length labels
             /\ Forall (fun col => In col colors) cs.
Proof.
  intros H. unfold color_array. apply list_comp_ok.
  intros a Ha. apply py_getitem_colors_ok.
  rewrite Forall_forall in H. apply H. exact Ha.
Qed.

(** ** The trace of [render] *)

Lemma legend_elements_eq : legend_elements = Ok legend_handles.
Proof. reflexivity. Qed.

Lemma save_step (save_path : option string) :
  (if py_truthy save_path
   then match save_path with
        | Some p => emit (EvSavefig p 300 "tight")
        | None => ret tt
        end
   else ret tt) = (save_events save_path, Ok tt).
Proof.
  destruct save_path as [p |]; [| reflexivity].
  simpl. destruct (String.eqb p EmptyString); reflexivity.
Qed.

Lemma render_run (data : Sample) (pred_classes : list Z) (save_path : option string)
    (c1 c2 : list string) (r mid_x mid_y mid_z : Q) (acc : float_val) :
  render_inputs_ok data pred_classes c1 c2 r mid_x mid_y mid_z acc ->
  render data pred_classes save_path
  = (render_events data pred_classes save_path c1 c2 r mid_x mid_y mid_z acc, Ok tt).
Proof.
  intros (E1 & E2 & E3 & E4 & E5 & E6 & E7).
  unfold render, set_view. cbv zeta. cbn [for_each].
  rewrite E1, E2, E3, E4, E5, E6, E7, save_step.
  reflexivity.
Qed.

(** Every run of [render] either fails having only set the figure up, or
    reaches its end with the events listed in [render_events]. *)
Lemma render_inv (data : Sample) (pred_classes : list Z) (save_path : option string) :
  (exists e, outcome (render data pred_classes save_path) = Raise e
             /\ forallb setup_event (trace (render data pred_classes save_path)) = true)
  \/ (exists c1 c2 r mid_x mid_y mid_z acc,
        render_inputs_ok data pred_classes c1 c2 r mid_x mid_y mid_z acc).
Proof.
  unfold render_inputs_ok, render, set_view. cbv zeta. cbn [for_each].
  destruct (color_array (data_y data)) as [c1 | e] eqn:E1;
    [| left; exists e; split; reflexivity].
  destruct (color_array pred_classes) as [c2 | e] eqn:E2;
    [| left; exists e; split; reflexivity].
  destruct (max_range (data_x data)) as [r | e] eqn:E3;
    [| left; exists e; split; reflexivity].
  destruct (mid (col0 (data_x data))) as [mid_x | e] eqn:E4;
    [| left; exists e; split; reflexivity].
  destruct (mid (col1 (data_x data))) as [mid_y | e] eqn:E5;
    [| left; exists e; split; reflexivity].
  destruct (mid (col2 (data_x data))) as [mid_z | e] eqn:E6;
    [| left; exists e; split; reflexivity].
  destruct (accuracy pred_classes (data_y data)) as [acc | e] eqn:E7;
    [| left; exists e; split; reflexivity].
  right. exists c1, c2, r, mid_x, mid_y, mid_z, acc. repeat split; reflexivity.
Qed.

Lemma render_ok_inv (data : Sample) (pred_classes : list Z) (save_path : option string) :
  outcome (render data pred_classes save_path) = Ok tt ->
  exists c1 c2 r mid_x mid_y mid_z acc,
    render_inputs_ok data pred_classes c1 c2 r mid_x mid_y mid_z acc.
Proof.
  intros H.
  destruct (render_inv data pred_classes save_path) as [[e [He _]] | Hok];
    [congruence | exact Hok].
Qed.

(** An event that is not part of the figure's set-up shows only in a run
    that reaches its end. *)
Lemma late_event_inv (data : Sample) (pred_classes : list Z) (save_path : option string)
    (ev : event) :
  setup_event ev = false ->
  In ev (trace (render data pred_classes save_path)) ->
  exists c1 c2 r mid_x mid_y mid_z acc,
    render_inputs_ok data pred_classes c1 c2 r mid_x mid_y mid_z acc
    /\ In ev (render_events data pred_classes save_path c1 c2 r mid_x mid_y mid_z acc).
Proof.
  intros Hlate Hin.
  destruct (render_inv data pred_classes save_path)
    as [[e [_ Hall]] | (c1 & c2 & r & mx & my & mz & acc & Hok)].
  - rewrite forallb_forall in Hall. apply Hall in Hin. congruence.
  - exists c1, c2, r, mx, my, mz, acc. split; [exact Hok |].
    rewrite (render_run _ _ save_path _ _ _ _ _ _ _ Hok) in Hin. exact Hin.
Qed.

(** ** Which inputs make [render] reach its end *)

Lemma max_range_ok (points : list point) :
  points <> [] -> exists r, max_range points = Ok r.
Proof. destruct points; [congruence | intros _; eexists; reflexivity]. Qed.

Lemma mid_ok (c : list Q) : c <> [] -> exists m, mid c = Ok m.
Proof. destruct c; [congruence | intros _; eexists; reflexivity]. Qed.

Lemma max_range_raises (points : list point) (e : exn) :
  max_range points = Raise e -> e = ValueError /\ points = [].
Proof. destruct points; [intros [= <-]; auto | discriminate]. Qed.

Lemma mid_raises (c : list Q) (e : exn) :
  mid c = Raise e -> e = ValueError /\ c = [].
Proof. destruct c; [intros [= <-]; auto | discriminate]. Qed.

Lemma np_eq_same_length (a b : list Z) :
  List.length a = List.length b ->
  np_eq a b = Ok (map (fun '(p, g) => Z.eqb p g) (combine a b)).
Proof. intros H. unfold np_eq. rewrite H, Nat.eqb_refl. reflexivity. Qed.

Lemma np_eq_raises (a b : list Z) (e : exn) :
  np_eq a b = Raise e -> e = ValueError /\ List.length a <> List.length b.
Proof.
  unfold np_eq. destruct (List.length a =? List.length b)%nat eqn:Hlen.
  - discriminate.
  - apply Nat.eqb_neq in Hlen. intros H. split; [| exact Hlen].
    destruct a as [| p [| p' a]]; destruct b as [| g [| g' b]];
      simpl in H; congruence.
Qed.

Lemma accuracy_raises (pred_classes ground_truth : list Z) (e : exn) :
  accuracy pred_classes ground_truth = Raise e ->
  e = ValueError /\ List.length pred_classes <> List.length ground_truth.
Proof.
  unfold accuracy. destruct (np_eq pred_classes ground_truth) eqn:H; simpl.
  - discriminate.
  - intros [= <-]. eapply np_eq_raises. exact H.
Qed.

Lemma col_not_nil (f : point -> Q) (points : list point) :
  points <> [] -> map f points <> [].
Proof. destruct points; [congruence | discriminate]. Qed.

Lemma render_completes (data : Sample) (pred_classes : list Z) (N : nat) :
  (1 <= N)%nat ->
  sample_ok (-5) data pred_classes N ->
  exists c1 c2 r mid_x mid_y mid_z acc,
    render_inputs_ok data pred_classes c1 c2 r mid_x mid_y mid_z acc.
Proof.
  intros HN (Hx & Hy & Hp & Hgt & Hpred).
  assert (Hne : data_x data <> []) by (intros E; rewrite E in Hx; simpl in Hx; lia).
  destruct (color_array_ok _ Hgt) as (c1 & E1 & _).
  destruct (color_array_ok _ Hpred) as (c2 & E2 & _).
  destruct (max_range_ok _ Hne) as (r & E3).
  destruct (mid_ok _ (col_not_nil (fun p => fst (fst p)) _ Hne)) as (mx & E4).
  destruct (mid_ok _ (col_not_nil (fun p => snd (fst p)) _ Hne)) as (my & E5).
  destruct (mid_ok _ (col_not_nil (fun p => snd p) _ Hne)) as (mz & E6).
  exists c1, c2, r, mx, my, mz.
  exists (np_mean (map (fun '(p, g) => Z.eqb p g) (combine pred_classes (data_y data)))).
  unfold render_inputs_ok, accuracy.
  rewrite np_eq_same_length by congruence.
  repeat split; assumption.
Qed.

Lemma sample_ok_weaken (data : Sample) (pred_classes : list Z) (N : nat) :
  sample_ok 0 data pred_classes N -> sample_ok (-5) data pred_classes N.
Proof.
  intros (Hx & Hy & Hp & Hgt & Hpred). repeat split; try assumption.
  - eapply Forall_impl; [| exact Hgt]. simpl. lia.
  - eapply Forall_impl; [| exact Hpred]. simpl. lia.
Qed.

(** Where an exception of [render] comes from: a color lookup, or numpy
    (an empty coordinate array, label arrays of different shapes). *)
Lemma render_raises (data : Sample) (pred_classes : list Z) (save_path : option string)
    (e : exn) :
  outcome (render data pred_classes save_path) = Raise e ->
  color_array (data_y data) = Raise e
  \/ color_array pred_classes = Raise e
  \/ e = ValueError.
Proof.
  unfold render, set_view. cbv zeta. cbn [for_each].
  destruct (color_array (data_y data)) as [c1 | e1] eqn:E1;
    [| intros [= <-]; auto].
  destruct (color_array pred_classes) as [c2 | e2] eqn:E2;
    [| intros [= <-]; auto].
  destruct (max_range (data_x data)) as [r | e3] eqn:E3;
    [| intros [= <-]; right; right; eapply max_range_raises; eassumption].
  destruct (mid (col0 (data_x data))) as [mid_x | e4] eqn:E4;
    [| intros [= <-]; right; right; eapply mid_raises; eassumption].
  destruct (mid (col1 (data_x data))) as [mid_y | e5] eqn:E5;
    [| intros [= <-]; right; right; eapply mid_raises; eassumption].
  destruct (mid (col2 (data_x data))) as [mid_z | e6] eqn:E6;
    [| intros [= <-]; right; right; eapply mid_raises; eassumption].
  destruct (accuracy pred_classes (data_y data)) as [acc | e7] eqn:E7;
    [| intros [= <-]; right; right; eapply accuracy_raises; eassumption].
  rewrite save_step. discriminate.
Qed.

(** The two scatter calls are made as soon as both color arrays exist,
    whatever happens later. *)
Lemma scatter_events (data : Sample) (pred_classes : list Z) (save_path : option string)
    (c1 c2 : list string) :
  color_array (data_y data) = Ok c1 ->
  color_array pred_classes = Ok c2 ->
  In (EvScatter Ax1 (data_x data) c1 2) (trace (render data pred_classes save_path))
  /\ In (EvScatter Ax2 (data_x data) c2 2) (trace (render data pred_classes save_path)).
Proof.
  intros E1 E2. unfold render. cbv zeta. rewrite E1, E2.
  cbn [trace bind emit lift fst snd app]. rewrite legend_elements_eq.
  cbn [trace bind emit lift fst snd app].
  split; simpl; tauto.
Qed.

(** ** Color arrays *)

(** C3.  For a sample of N points whose labels and predicted classes all lie
    in 0..4, both color arrays are built, they are the arrays handed to the
    two scatter calls, each has length N, each entry is one of the five
    colors, and the routine does not end in an IndexError. *)
Theorem color_arrays_in_palette (data : Sample) (pred_classes : list Z)
    (save_path : option string) (N : nat) :
  sample_ok 0 data pred_classes N ->
  exists c1 c2,
    color_array (data_y data) = Ok c1
    /\ color_array pred_classes = Ok c2
    /\ In (EvScatter Ax1 (data_x data) c1 2) (trace (render data pred_classes save_path))
    /\ In (EvScatter Ax2 (data_x data) c2 2) (trace (render data pred_classes save_path))
    /\ List.length c1 = N
    /\ List.length c2 = N
    /\ Forall (fun col => In col colors) c1
    /\ Forall (fun col => In col colors) c2
    /\ outcome (render data pred_classes save_path) <> Raise IndexError.
Proof.
  intros Hok. apply sample_ok_weaken in Hok.
  destruct Hok as (Hx & Hy & Hp & Hgt & Hpred).
  destruct (color_array_ok _ Hgt) as (c1 & E1 & L1 & P1).
  destruct (color_array_ok _ Hpred) as (c2 & E2 & L2 & P2).
  destruct (scatter_events data pred_classes save_path c1 c2 E1 E2) as [S1 S2].
  exists c1, c2. repeat split; try assumption; try congruence.
  intros Hraise. apply render_raises in Hraise.
  destruct Hraise as [H | [H | H]]; congruence.
Qed.

Lemma color_arrays_in_palette_witness :
  sample_ok 0 demo_sample [0; 3] 2
  /\ exists c1 c2,
       color_array (data_y demo_sample) = Ok c1
       /\ color_array [0; 3] = Ok c2
       /\ In (EvScatter Ax1 (data_x demo_sample) c1 2) (trace (render demo_sample [0; 3] None))
       /\ In (EvScatter Ax2 (data_x demo_sample) c2 2) (trace (render demo_sample [0; 3] None))
       /\ List.length c1 = 2%nat
       /\ List.length c2 = 2%nat
       /\ Forall (fun col => In col colors) c1
       /\ Forall (fun col => In col colors) c2
       /\ outcome (render demo_sample [0; 3] None) <> Raise IndexError.
Proof.
  assert (H : sample_ok 0 demo_sample [0; 3] 2).
  { unfold sample_ok. simpl. repeat split; repeat constructor; lia. }
  split; [exact H | exact (color_arrays_in_palette demo_sample [0; 3] None 2 H)].
Defined.

(** C10.  Labels -5..-1 do not make the color lookup raise: label [c] gets
    the color of class [c + 5], so -1 is drawn red, and a sample whose
    labels and predicted classes lie in -5..4 is plotted to the end. *)
Theorem negative_label_wraps (data : Sample) (pred_classes : list Z)
    (save_path : option string) (N : nat) :
  (1 <= N)%nat ->
  sample_ok (-5) data pred_classes N ->
  outcome (render data pred_classes save_path) = Ok tt
  /\ py_getitem colors (-1) = Ok "red"%string
  /\ exists c1 c2,
       In (EvScatter Ax1 (data_x data) c1 2) (trace (render data pred_classes save_path))
       /\ In (EvScatter Ax2 (data_x data) c2 2) (trace (render data pred_classes save_path))
       /\ (forall i c, nth_error (data_y data) i = Some c -> -5 <= c <= -1 ->
             py_getitem colors c = py_getitem colors (c + 5)
             /\ exists col, nth_error c1 i = Some col /\ py_getitem colors (c + 5) = Ok col)
       /\ (forall i c, nth_error pred_classes i = Some c -> -5 <= c <= -1 ->
             py_getitem colors c = py_getitem colors (c + 5)
             /\ exists col, nth_error c2 i = Some col /\ py_getitem colors (c + 5) = Ok col).
Proof.
  intros HN Hok.
  destruct (render_completes data pred_classes N HN Hok)
    as (c1 & c2 & r & mx & my & mz & acc & Hin).
  split; [rewrite (render_run _ _ save_path _ _ _ _ _ _ _ Hin); reflexivity |].
  split; [reflexivity |].
  destruct Hin as (E1 & E2 & _).
  destruct (scatter_events data pred_classes save_path c1 c2 E1 E2) as [S1 S2].
  assert (Hwrap : forall c, -5 <= c <= -1 -> py_getitem colors c = py_getitem colors (c + 5)).
  { intros c Hc.
    assert (Hcases : c = -5 \/ c = -4 \/ c = -3 \/ c = -2 \/ c = -1) by lia.
    destruct Hcases as [-> | [-> | [-> | [-> | ->]]]]; reflexivity. }
  exists c1, c2. repeat split; try assumption.
  - apply Hwrap; assumption.
  - destruct (list_comp_nth _ _ _ E1 i c H) as (col & Hcol & Hget).
    exists col. split; [exact Hcol |]. rewrite <- Hwrap by assumption. exact Hget.
  - apply Hwrap; assumption.
  - destruct (list_comp_nth _ _ _ E2 i c H) as (col & Hcol & Hget).
    exists col. split; [exact Hcol |]. rewrite <- Hwrap by assumption. exact Hget.
Qed.

Lemma negative_label_wraps_witness :
  (1 <= 2)%nat
  /\ sample_ok (-5) wrapped_sample [0; 3] 2
  /\ outcome (render wrapped_sample [0; 3] None) = Ok tt.
Proof.
  assert (HN : (1 <= 2)%nat) by lia.
  assert (H : sample_ok (-5) wrapped_sample [0; 3] 2).
  { unfold sample_ok. simpl. repeat split; repeat constructor; lia. }
  split; [exact HN |]. split; [exact H |].
  exact (proj1 (negative_label_wraps wrapped_sample [0; 3] None 2 HN H)).
Defined.

(** ** Accuracy *)

Lemma np_sum_map_filter {A : Type} (f : A -> bool) (l : list A) :
  np_sum (map f l) = Z.of_nat (List.length (filter f l)).
Proof.
  induction l as [| a tl IH]; [reflexivity |].
  simpl. destruct (f a); simpl List.length; lia.
Qed.

Lemma filter_length_le {A : Type} (f : A -> bool) (l : list A) :
  (List.length (filter f l) <= List.length l)%nat.
Proof.
  induction l as [| a tl IH]; simpl; [lia |].
  destruct (f a); simpl; lia.
Qed.

Lemma fraction_bounds (a b : Z) :
  0 <= a <= b -> 0 < b ->
  (0 <= inject_Z a / inject_Z b /\ inject_Z a / inject_Z b <= 1)%Q.
Proof.
  intros Ha Hb.
  assert (Hb' : (0 < inject_Z b)%Q) by (unfold Qlt; simpl; lia).
  split.
  - apply Qle_shift_div_l; [exact Hb' |].
    rewrite Qmult_0_l. unfold Qle. simpl. lia.
  - apply Qle_shift_div_r; [exact Hb' |].
    rewrite Qmult_1_l. unfold Qle. simpl. lia.
Qed.

Lemma np_mean_value (l : list bool) :
  (1 <= List.length l)%nat ->
  np_mean l = Fval (inject_Z (np_sum l) / inject_Z (Z.of_nat (List.length l))).
Proof. destruct l; simpl List.length; [lia | reflexivity]. Qed.

Lemma accuracy_value (pred_classes ground_truth : list Z) (N : nat) :
  (1 <= N)%nat ->
  List.length ground_truth = N ->
  List.length pred_classes = N ->
  accuracy pred_classes ground_truth
  = Ok (Fval (inject_Z (Z.of_nat (List.length (matching_points pred_classes ground_truth)))
              / inject_Z (Z.of_nat N))).
Proof.
  intros HN Hg Hp. unfold accuracy, matching_points.
  assert (Hlen : List.length (combine pred_classes ground_truth) = N).
  { rewrite length_combine. lia. }
  rewrite np_eq_same_length by congruence. cbn [rbind].
  rewrite np_mean_value by (rewrite length_map; lia).
  rewrite length_map, Hlen, np_sum_map_filter.
  rewrite (filter_ext (fun '(p, g) => Z.eqb p g) (fun pg => Z.eqb (fst pg) (snd pg)))
    by (intros [p g]; reflexivity).
  reflexivity.
Qed.

Lemma suptitle_in_render_events (data : Sample) (pred_classes : list Z)
    (save_path : option string) (c1 c2 : list string) (r mid_x mid_y mid_z : Q)
    (acc a : float_val) :
  In (EvSuptitle a)
     (render_events data pred_classes save_path c1 c2 r mid_x mid_y mid_z acc) <->
  a = acc.
Proof.
  unfold render_events, save_events. split.
  - intros H.
    destruct save_path as [p |]; [destruct (String.eqb p EmptyString) |];
      simpl in H;
      repeat (destruct H as [H | H]; [try discriminate; congruence |]);
      contradiction.
  - intros ->. do 3 (apply in_or_app; right). apply in_or_app. left. left. reflexivity.
Qed.

(** C1.  For a sample of N >= 1 points the accuracy is the number of points
    whose predicted class equals the ground-truth class, divided by N; it
    lies between 0 and 1; no other value is ever put in the figure title,
    and a run that reaches its end puts it there. *)
Theorem accuracy_is_match_fraction (data : Sample) (pred_classes : list Z)
    (save_path : option string) (N : nat) :
  (1 <= N)%nat ->
  List.length (data_y data) = N ->
  List.length pred_classes = N ->
  exists q : Q,
    accuracy pred_classes (data_y data) = Ok (Fval q)
    /\ (q == inject_Z (Z.of_nat (List.length (matching_points pred_classes (data_y data))))
            / inject_Z (Z.of_nat N))%Q
    /\ (0 <= q)%Q /\ (q <= 1)%Q
    /\ (forall a, In (EvSuptitle a) (trace (render data pred_classes save_path)) ->
                  a = Fval q)
    /\ (outcome (render data pred_classes save_path) = Ok tt ->
        In (EvSuptitle (Fval q)) (trace (render data pred_classes save_path))).
Proof.
  intros HN Hg Hp.
  pose proof (accuracy_value pred_classes (data_y data) N HN Hg Hp) as Hacc.
  eexists. split; [exact Hacc |]. split; [reflexivity |].
  assert (Hb : (0 <= inject_Z (Z.of_nat (List.length (matching_points pred_classes (data_y data))))
                     / inject_Z (Z.of_nat N)
                /\ inject_Z (Z.of_nat (List.length (matching_points pred_classes (data_y data))))
                     / inject_Z (Z.of_nat N) <= 1)%Q).
  { apply fraction_bounds; [| lia].
    pose proof (filter_length_le (fun pg => Z.eqb (fst pg) (snd pg))
                  (combine pred_classes (data_y data))) as Hle.
    rewrite length_combine in Hle. unfold matching_points. lia. }
  destruct Hb as [Hb0 Hb1].
  split; [exact Hb0 |]. split; [exact Hb1 |]. split.
  - intros a Ha.
    destruct (late_event_inv data pred_classes save_path (EvSuptitle a) eq_refl Ha)
      as (c1 & c2 & r & mx & my & mz & acc & Hok & Hin).
    apply suptitle_in_render_events in Hin. subst a.
    destruct Hok as (_ & _ & _ & _ & _ & _ & E7). congruence.
  - intros Hend.
    destruct (render_ok_inv data pred_classes save_path Hend)
      as (c1 & c2 & r & mx & my & mz & acc & Hok).
    rewrite (render_run _ _ save_path _ _ _ _ _ _ _ Hok).
    apply suptitle_in_render_events.
    destruct Hok as (_ & _ & _ & _ & _ & _ & E7). congruence.
Qed.

Lemma accuracy_is_match_fraction_witness :
  (1 <= 2)%nat
  /\ List.length (data_y demo_sample) = 2%nat
  /\ List.length [0; 3] = 2%nat
  /\ exists q : Q,
       accuracy [0; 3] (data_y demo_sample) = Ok (Fval q)
       /\ (q == 1 # 2)%Q
       /\ In (EvSuptitle (Fval q)) (trace (render demo_sample [0; 3] None)).
Proof.
  assert (HN : (1 <= 2)%nat) by lia.
  split; [exact HN |]. split; [reflexivity |]. split; [reflexivity |].
  destruct (accuracy_is_match_fraction demo_sample [0; 3] None 2 HN eq_refl eq_refl)
    as (q & Hacc & Hq & _ & _ & _ & Hend).
  exists q. split; [exact Hacc |]. split.
  - rewrite Hq. reflexivity.
  - apply Hend. reflexivity.
Defined.

(** ** The per-class report *)

Lemma printed_ground_truth_render_events (data : Sample) (pred_classes : list Z)
    (save_path : option string) (c1 c2 : list string) (r mid_x mid_y mid_z : Q)
    (acc : float_val) :
  printed_ground_truth
    (render_events data pred_classes save_path c1 c2 r mid_x mid_y mid_z acc)
  = class_counts (data_y data).
Proof.
  unfold render_events, save_events.
  destruct save_path as [p |]; [destruct (String.eqb p EmptyString) |]; reflexivity.
Qed.

Lemma printed_predicted_render_events (data : Sample) (pred_classes : list Z)
    (save_path : option string) (c1 c2 : list string) (r mid_x mid_y mid_z : Q)
    (acc : float_val) :
  printed_predicted
    (render_events data pred_classes save_path c1 c2 r mid_x mid_y mid_z acc)
  = class_counts pred_classes.
Proof.
  unfold render_events, save_events.
  destruct save_path as [p |]; [destruct (String.eqb p EmptyString) |]; reflexivity.
Qed.

Lemma class_counts_length (labels : list Z) : List.length (class_counts labels) = 5%nat.
Proof. reflexivity. Qed.

(** Every label in 0..4 is counted by exactly one class. *)
Lemma class_counts_sum (labels : list Z) :
  Forall (fun c => 0 <= c <= 4) labels ->
  zsum (class_counts labels) = Z.of_nat (List.length labels).
Proof.
  induction 1 as [| c tl Hc _ IH]; [reflexivity |].
  unfold class_counts, zsum in *.
  change (py_range 5) with [0; 1; 2; 3; 4] in *.
  unfold np_eq_scalar in *. cbn [map fold_right np_sum] in *.
  assert (Hcases : c = 0 \/ c = 1 \/ c = 2 \/ c = 3 \/ c = 4) by lia.
  cbn [List.length]. rewrite Nat2Z.inj_succ.
  destruct Hcases as [-> | [-> | [-> | [-> | ->]]]]; cbn [Z.eqb Pos.eqb]; lia.
Qed.

(** C4.  For a sample of N points whose labels and predicted classes lie in
    0..4, the five ground-truth counts sum to N and so do the five predicted
    counts; with at least one point these are the counts the report prints.
    For ground truth [0,1,2,3,4] and the same predictions every count is 1
    and the accuracy is 1. *)
Theorem report_counts_sum_to_N (data : Sample) (pred_classes : list Z)
    (save_path : option string) (N : nat) :
  sample_ok 0 data pred_classes N ->
  (List.length (class_counts (data_y data)) = 5%nat
   /\ List.length (class_counts pred_classes) = 5%nat)
  /\ zsum (class_counts (data_y data)) = Z.of_nat N
  /\ zsum (class_counts pred_classes) = Z.of_nat N
  /\ ((1 <= N)%nat ->
      printed_ground_truth (trace (render data pred_classes save_path))
      = class_counts (data_y data)
      /\ printed_predicted (trace (render data pred_classes save_path))
         = class_counts pred_classes)
  /\ (data_y data = [0; 1; 2; 3; 4] -> pred_classes = [0; 1; 2; 3; 4] ->
      class_counts (data_y data) = [1; 1; 1; 1; 1]
      /\ class_counts pred_classes = [1; 1; 1; 1; 1]
      /\ exists q : Q, accuracy pred_classes (data_y data) = Ok (Fval q) /\ (q == 1)%Q).
Proof.
  intros Hok. pose proof Hok as (Hx & Hy & Hp & Hgt & Hpred).
  split; [split; apply class_counts_length |].
  split; [rewrite class_counts_sum by exact Hgt; congruence |].
  split; [rewrite class_counts_sum by exact Hpred; congruence |].
  split.
  - intros HN.
    destruct (render_completes data pred_classes N HN (sample_ok_weaken _ _ _ Hok))
      as (c1 & c2 & r & mx & my & mz & acc & Hin).
    rewrite (render_run _ _ save_path _ _ _ _ _ _ _ Hin).
    cbn [trace fst].
    rewrite printed_ground_truth_render_events, printed_predicted_render_events.
    split; reflexivity.
  - intros -> ->. split; [reflexivity |]. split; [reflexivity |].
    eexists. split; reflexivity.
Qed.

Lemma report_counts_sum_to_N_witness :
  sample_ok 0 five_class_sample [0; 1; 2; 3; 4] 5
  /\ zsum (class_counts (data_y five_class_sample)) = 5
  /\ printed_ground_truth (trace (render five_class_sample [0; 1; 2; 3; 4] None))
     = [1; 1; 1; 1; 1].
Proof.
  assert (H : sample_ok 0 five_class_sample [0; 1; 2; 3; 4] 5).
  { unfold sample_ok. simpl. repeat split; repeat constructor; lia. }
  split; [exact H |].
  destruct (report_counts_sum_to_N five_class_sample [0; 1; 2; 3; 4] None 5 H)
    as (_ & Hsum & _ & Hprinted & _).
  split; [exact Hsum |].
  rewrite (proj1 (Hprinted (le_S _ _ (le_S _ _ (le_S _ _ (le_S _ _ (le_n 1))))))).
  reflexivity.
Defined.

(** ** The larger and the smaller of two floats *)



(** ** The events of a complete run of [render] *)

Lemma render_events_split (data : Sample) (pred_classes : list Z)
    (save_path : option string) (c1 c2 : list string) (r mid_x mid_y mid_z : Q)
    (acc : float_val) :
  render_events data pred_classes save_path c1 c2 r mid_x mid_y mid_z acc
  = drawing_events data c1 c2 r mid_x mid_y mid_z acc
    ++ save_events save_path
    ++ EvShow :: report_events (data_y data) pred_classes.
Proof. reflexivity. Qed.

Lemma drawing_events_quiet (data : Sample) (c1 c2 : list string)
    (r mid_x mid_y mid_z : Q) (acc : float_val) :
  forallb (fun ev => negb (is_savefig ev || is_show ev))
          (drawing_events data c1 c2 r mid_x mid_y mid_z acc) = true.
Proof. reflexivity. Qed.

Lemma report_events_quiet (ground_truth pred_classes : list Z) :
  forallb (fun ev => negb (is_savefig ev || is_show ev))
          (report_events ground_truth pred_classes) = true.
Proof. reflexivity. Qed.

Lemma quiet_no_savefig (l : list event) :
  forallb (fun ev => negb (is_savefig ev || is_show ev)) l = true ->
  forall p dpi bbox, ~ In (EvSavefig p dpi bbox) l.
Proof.
  intros H p dpi bbox Hin. rewrite forallb_forall in H.
  apply H in Hin. discriminate.
Qed.

(** ** The latest checkpoint directory *)

Lemma ascii_compare_lt (c1 c2 : ascii) :
  Ascii.compare c1 c2 = Lt <-> (nat_of_ascii c1 < nat_of_ascii c2)%nat.
Proof.
  unfold Ascii.compare, nat_of_ascii. rewrite N.compare_lt_iff. lia.
Qed.

Lemma ascii_compare_gt (c1 c2 : ascii) :
  Ascii.compare c1 c2 = Gt <-> (nat_of_ascii c2 < nat_of_ascii c1)%nat.
Proof.
  unfold Ascii.compare, nat_of_ascii. rewrite N.compare_gt_iff. lia.
Qed.

Lemma lex_le_refl (s : string) : lex_le s s.
Proof. induction s; auto. Qed.

Lemma lex_le_trans (a b c : string) : lex_le a b -> lex_le b c -> lex_le a c.
Proof.
  intros Hab. revert c.
  induction Hab as [s | c1 c2 s1 s2 Hlt | ch s1 s2 Hab IH]; intros c Hbc.
  - constructor.
  - inversion Hbc; subst; constructor; lia.
  - inversion Hbc; subst; auto.
Qed.

(** Python's [>] on str is the strict part of [lex_le]. *)
Lemma py_str_gt_false (a b : string) : py_str_gt a b = false -> lex_le a b.
Proof.
  unfold py_str_gt. revert b.
  induction a as [| c1 a IH]; intros [| c2 b]; simpl; auto; try discriminate.
  destruct (Ascii.compare c1 c2) eqn:Hc; intros H.
  - apply Ascii.compare_eq_iff in Hc. subst c2. auto.
  - apply ascii_compare_lt in Hc. auto.
  - discriminate.
Qed.

Lemma py_str_gt_true (a b : string) : py_str_gt a b = true -> lex_le b a /\ a <> b.
Proof.
  unfold py_str_gt. revert b.
  induction a as [| c1 a IH]; intros [| c2 b]; simpl; try discriminate.
  - intros _. split; [auto | discriminate].
  - destruct (Ascii.compare c1 c2) eqn:Hc; intros H.
    + apply Ascii.compare_eq_iff in Hc. subst c2.
      destruct (IH b H) as [Hle Hne]. split; [auto | congruence].
    + discriminate.
    + apply ascii_compare_gt in Hc. split; [auto |].
      intros [= -> _]. lia.
Qed.

Lemma fold_max_spec (tl : list string) (m0 : string) :
  let m := fold_left (fun m item => if py_str_gt item m then item else m) tl m0 in
  (m = m0 \/ In m tl) /\ lex_le m0 m /\ (forall d, In d tl -> lex_le d m).
Proof.
  revert m0. induction tl as [| item tl IH]; intros m0; cbn [fold_left].
  - split; [auto |]. split; [apply lex_le_refl |]. intros d [].
  - specialize (IH (if py_str_gt item m0 then item else m0)).
    cbv zeta in IH. destruct IH as (Hin & Hle & Hall).
    destruct (py_str_gt item m0) eqn:Hgt.
    + apply py_str_gt_true in Hgt. destruct Hgt as [Hgt _].
      split; [destruct Hin as [-> | Hin]; simpl; auto |].
      split; [eapply lex_le_trans; eassumption |].
      intros d [<- | Hd]; auto.
    + apply py_str_gt_false in Hgt.
      split; [destruct Hin as [-> | Hin]; simpl; auto |].
      split; [exact Hle |].
      intros d [<- | Hd]; [eapply lex_le_trans; eassumption | auto].
Qed.

Lemma py_max_spec (l : list string) :
  l <> [] ->
  exists m, py_max l = Ok m /\ In m l /\ (forall d, In d l -> lex_le d m).
Proof.
  destruct l as [| x0 tl]; [congruence | intros _].
  destruct (fold_max_spec tl x0) as (Hin & Hle & Hall).
  eexists. split; [reflexivity |]. split.
  - destruct Hin as [-> | Hin]; simpl; auto.
  - intros d [<- | Hd]; auto.
Qed.

Section Driver.
Context {F : Type} {K : TorchFloat F}.

(** C5.  When the checkpoint root has at least one subdirectory, the
    directory the driver takes for the latest is one of them and no
    subdirectory name is lexicographically above it; the checkpoint the
    driver loads is best_model.pt inside it.  Of 2023-01-01, 2023-06-01 and
    2022-12-31 it takes 2023-06-01. *)
Theorem driver_selects_lex_max (w : World F) (names : list string) :
  let checkpoint_dir := training_checkpoint_dir (the_config w) in
  let dirs := timestamp_dirs w checkpoint_dir names in
  os_listdir w checkpoint_dir = Ok names ->
  dirs <> [] ->
  exists latest,
    latest_dir dirs = Ok latest
    /\ In latest dirs
    /\ (forall d, In d dirs -> lex_le d latest)
    /\ In (EvTorchLoad (os_path_join (os_path_join checkpoint_dir latest) "best_model.pt"))
          (trace (main w))
    /\ latest_dir ["2023-01-01"; "2023-06-01"; "2022-12-31"]%string
       = Ok "2023-06-01"%string.
Proof.
  intros checkpoint_dir dirs Hlist Hne.
  destruct (py_max_spec dirs Hne) as (latest & Hmax & Hin & Hall).
  assert (Hlatest : latest_dir dirs = Ok latest).
  { unfold latest_dir. destruct dirs; [congruence | exact Hmax]. }
  exists latest. repeat split; try assumption.
  unfold main. unfold dirs, checkpoint_dir, the_config in *. cbv zeta.
  rewrite Hlist. cbn [trace bind emit lift fst snd app]. rewrite Hlatest.
  cbn [trace bind emit lift fst snd app].
  do 4 right. left. reflexivity.
Qed.

(** C6.  When the checkpoint root has no subdirectory, the driver ends in
    FileNotFoundError having only read the configuration, built the model
    and listed the root: no checkpoint is loaded, no data set or loader is
    built, no forward pass is run, and nothing is drawn, saved or shown. *)
Theorem no_checkpoint_dirs_raises (w : World F) (names : list string) :
  let checkpoint_dir := training_checkpoint_dir (the_config w) in
  os_listdir w checkpoint_dir = Ok names ->
  timestamp_dirs w checkpoint_dir names = [] ->
  main w
  = ([EvLoadConfig "configs/config.yaml";
      EvBuildModel (model_k (the_config w)) (model_dropout (the_config w));
      EvListdir checkpoint_dir],
     Raise FileNotFoundError)
  /\ (forall p, ~ In (EvTorchLoad p) (trace (main w)))
  /\ ~ In EvLoadStateDict (trace (main w))
  /\ (forall d g, ~ In (EvDataset d g) (trace (main w)))
  /\ (forall t b, ~ In (EvDataloaders t b) (trace (main w)))
  /\ ~ In EvForward (trace (main w))
  /\ (forall ax pts c s, ~ In (EvScatter ax pts c s) (trace (main w)))
  /\ (forall p dpi bbox, ~ In (EvSavefig p dpi bbox) (trace (main w)))
  /\ ~ In EvShow (trace (main w)).
Proof.
  intros checkpoint_dir Hlist Hnone.
  assert (Hmain : main w
                  = ([EvLoadConfig "configs/config.yaml";
                      EvBuildModel (model_k (the_config w)) (model_dropout (the_config w));
                      EvListdir checkpoint_dir],
                     Raise FileNotFoundError)).
  { unfold main. unfold checkpoint_dir, the_config in *. cbv zeta.
    rewrite Hlist. cbn [bind emit lift fst snd app]. rewrite Hnone. reflexivity. }
  rewrite Hmain. cbn [trace fst].
  split; [reflexivity |].
  repeat split; intros; intros Hin; simpl in Hin;
    repeat (destruct Hin as [Hin | Hin]; [discriminate |]); exact Hin.
Qed.

End Driver.

Lemma driver_selects_lex_max_witness :
  os_listdir demo_world "checkpoints" = Ok ["2023-01-01"; "notes.txt"; "2023-06-01"; "2022-12-31"]%string
  /\ timestamp_dirs demo_world "checkpoints"
       ["2023-01-01"; "notes.txt"; "2023-06-01"; "2022-12-31"]%string <> []
  /\ In (EvTorchLoad "checkpoints/2023-06-01/best_model.pt") (trace (main demo_world)).
Proof.
  assert (Hne : timestamp_dirs demo_world "checkpoints"
                  ["2023-01-01"; "notes.txt"; "2023-06-01"; "2022-12-31"]%string <> [])
    by discriminate.
  split; [reflexivity |]. split; [exact Hne |].
  destruct (driver_selects_lex_max demo_world _ eq_refl Hne)
    as (latest & Hlatest & _ & _ & Hload & _).
  injection Hlatest as <-. exact Hload.
Defined.

Lemma no_checkpoint_dirs_raises_witness :
  os_listdir bare_world "checkpoints" = Ok ["notes.txt"]%string
  /\ timestamp_dirs bare_world "checkpoints" ["notes.txt"]%string = []
  /\ outcome (main bare_world) = Raise FileNotFoundError.
Proof.
  split; [reflexivity |]. split; [reflexivity |].
  rewrite (proj1 (no_checkpoint_dirs_raises bare_world ["notes.txt"]%string eq_refl eq_refl)).
  reflexivity.
Defined.

(** ** Inference *)

Lemma list_comp_ext {A B : Type} (f g : A -> result B) (l : list A) :
  (forall a, In a l -> f a = g a) -> list_comp f l = list_comp g l.
Proof.
  induction l as [| a tl IH]; intros H; [reflexivity |].
  simpl. rewrite (H a (or_introl eq_refl)), IH; [reflexivity |].
  intros a' Ha'. apply H. right. exact Ha'.
Qed.

Section Inference.
Context {F : Type} {K : TorchFloat F}.

Lemma lane_softmax_dim1 (outputs predictions : tensor F) (i : nat) :
  torch_softmax outputs 1 = Ok predictions ->
  lane predictions 1 i 0 = softmax_over_classes (point_logits outputs i).
Proof.
  intros [= <-]. unfold softmax_over_classes, point_logits.
  cbn [lane shape1 item Z.to_nat Pos.to_nat Pos.iter_op Nat.add].
  rewrite !map_map. reflexivity.
Qed.

Lemma pred_classes_of_per_point (outputs : tensor F) :
  pred_classes_of outputs = per_point_classes outputs.
Proof.
  unfold pred_classes_of, per_point_classes.
  destruct (torch_softmax outputs 1) as [predictions | e] eqn:Hs; [| discriminate].
  cbn [rbind]. unfold torch_argmax.
  cbn [norm_dim rbind Z.leb Z.ltb Z.compare Pos.compare Pos.compare_cont andb
       Z.to_nat Pos.to_nat Pos.iter_op Nat.add].
  assert (Hshape : shape0 predictions = shape0 outputs)
    by (injection Hs as <-; reflexivity).
  assert (Hclasses : shape1 predictions = shape1 outputs)
    by (injection Hs as <-; reflexivity).
  rewrite Hshape, Hclasses.
  destruct (shape1 outputs =? 0)%nat; [reflexivity |].
  apply list_comp_ext. intros i _.
  rewrite (lane_softmax_dim1 _ _ i Hs). reflexivity.
Qed.

(** The plot of [visualize_prediction] is [render] on the classes inference
    produced; when inference fails nothing is drawn. *)
Lemma visualize_prediction_run (model : Sample -> tensor F) (data : Sample)
    (save_path : option string) (pred_classes : list Z) :
  pred_classes_of (model data) = Ok pred_classes ->
  trace (visualize_prediction model data save_path)
  = [EvModelEval; EvToDevice; EvForward] ++ trace (render data pred_classes save_path)
  /\ outcome (visualize_prediction model data save_path)
     = outcome (render data pred_classes save_path).
Proof.
  intros H. unfold visualize_prediction. rewrite H. split; reflexivity.
Qed.

Lemma visualize_prediction_fails (model : Sample -> tensor F) (data : Sample)
    (save_path : option string) (e : exn) :
  pred_classes_of (model data) = Raise e ->
  visualize_prediction model data save_path
  = ([EvModelEval; EvToDevice; EvForward], Raise e).
Proof.
  intros H. unfold visualize_prediction. rewrite H. reflexivity.
Qed.

(** *** Softmax and the argmax *)

Lemma argmax_from_map (f : F -> F) (l : list F) (best : F) (best_i i : nat) :
  (forall a b, In a (best :: l) -> In b (best :: l) -> fgt (f a) (f b) = fgt a b) ->
  argmax_from (f best) best_i i (map f l) = argmax_from best best_i i l.
Proof.
  revert best best_i i. induction l as [| v tl IH]; intros best best_i i H.
  - reflexivity.
  - cbn [map argmax_from].
    rewrite (H v best) by (simpl; auto).
    destruct (fgt v best); apply IH; intros a b Ha Hb; apply H;
      simpl in *; tauto.
Qed.

Lemma argmax1d_map (f : F -> F) (l : list F) :
  (forall a b, In a l -> In b l -> fgt (f a) (f b) = fgt a b) ->
  argmax1d (map f l) = argmax1d l.
Proof.
  destruct l as [| v tl]; intros H; [reflexivity |].
  cbn [map argmax1d]. rewrite argmax_from_map by exact H. reflexivity.
Qed.

Lemma per_point_argmax_kept (outputs : tensor F) :
  (forall i a b,
      (i < shape0 outputs)%nat ->
      In a (point_logits outputs i) -> In b (point_logits outputs i) ->
      fgt (fdiv (fexp a) (fsum (map fexp (point_logits outputs i))))
          (fdiv (fexp b) (fsum (map fexp (point_logits outputs i))))
      = fgt a b) ->
  per_point_classes outputs = torch_argmax outputs 1.
Proof.
  intros H. unfold per_point_classes, torch_argmax.
  cbn [norm_dim rbind Z.leb Z.ltb Z.compare Pos.compare Pos.compare_cont andb
       Z.to_nat Pos.to_nat Pos.iter_op Nat.add].
  destruct (shape1 outputs =? 0)%nat; [reflexivity |].
  apply list_comp_ext. intros i Hi. apply in_seq in Hi.
  unfold softmax_over_classes.
  rewrite argmax1d_map; [reflexivity |].
  intros a b Ha Hb. apply H; [lia | exact Ha | exact Hb].
Qed.

(** Softmax leaves every predicted class as the raw logits give it, in any
    arithmetic where dividing the exponentials of a point's logits by their
    sum keeps the strict order of these logits. *)
Theorem softmax_keeps_argmax_if_order_kept (outputs : tensor F) :
  (forall i a b,
      (i < shape0 outputs)%nat ->
      In a (point_logits outputs i) -> In b (point_logits outputs i) ->
      fgt (fdiv (fexp a) (fsum (map fexp (point_logits outputs i))))
          (fdiv (fexp b) (fsum (map fexp (point_logits outputs i))))
      = fgt a b) ->
  pred_classes_of outputs = torch_argmax outputs 1.
Proof.
  intros H. rewrite pred_classes_of_per_point.
  apply per_point_argmax_kept. exact H.
Qed.

End Inference.

Lemma softmax_keeps_argmax_if_order_kept_witness :
  pred_classes_of (demo_forward demo_sample) = Ok [3; 4]
  /\ torch_argmax (demo_forward demo_sample) 1 = Ok [3; 4].
Proof.
  assert (H : pred_classes_of (demo_forward demo_sample)
              = torch_argmax (demo_forward demo_sample) 1).
  { apply softmax_keeps_argmax_if_order_kept.
    intros i a b Hi Ha Hb.
    assert (Hcases : i = 0%nat \/ i = 1%nat) by (simpl in Hi; lia).
    destruct Hcases as [-> | ->]; simpl in Ha, Hb;
      repeat (destruct Ha as [<- | Ha]; [| try contradiction]);
      repeat (destruct Hb as [<- | Hb]; [| try contradiction]);
      reflexivity. }
  split; [rewrite H |]; reflexivity.
Defined.

(** ** The extremes of an array, and lookups that raise *)





Lemma py_getitem_exn {A : Type} (l : list A) (i : Z) (e : exn) :
  py_getitem l i = Raise e -> e = IndexError.
Proof.
  unfold py_getitem. cbv zeta.
  destruct ((_ <? 0) || (_ <=? _)); [congruence |].
  destruct (nth_error l _); congruence.
Qed.

Lemma color_array_exn (labels : list Z) (e : exn) :
  color_array labels = Raise e -> e = IndexError.
Proof.
  unfold color_array. induction labels as [| c tl IH]; simpl; [discriminate |].
  destruct (py_getitem colors c) eqn:Hc.
  - destruct (list_comp _ tl); [discriminate |]. intros [= <-]. apply IH. reflexivity.
  - intros [= <-]. eapply py_getitem_exn. exact Hc.
Qed.

Lemma color_array_raises (labels : list Z) (c : Z) :
  In c labels -> c < -5 \/ 4 < c -> color_array labels = Raise IndexError.
Proof.
  intros Hin Hc. destruct (color_array labels) as [cs | e] eqn:H.
  - destruct (In_nth_error _ _ Hin) as [i Hi].
    destruct (list_comp_nth _ _ _ H i c Hi) as (col & _ & Hget).
    rewrite (py_getitem_colors_raises c Hc) in Hget. discriminate.
  - f_equal. eapply color_array_exn. exact H.
Qed.

(** An empty string as save path counts as no save path: nothing is
    saved. *)
Theorem empty_save_path_not_saved (data : Sample) (pred_classes : list Z) :
  forall q dpi bbox,
    ~ In (EvSavefig q dpi bbox) (trace (render data pred_classes (Some EmptyString))).
Proof.
  intros q dpi bbox Hin.
  destruct (late_event_inv data pred_classes (Some EmptyString)
              (EvSavefig q dpi bbox) eq_refl Hin)
    as (c1 & c2 & r & mx & my & mz & acc & _ & Hev).
  rewrite render_events_split in Hev. cbn [save_events String.eqb app] in Hev.
  apply in_app_or in Hev. destruct Hev as [Hev | [Hev | Hev]].
  - exact (quiet_no_savefig _ (drawing_events_quiet data c1 c2 r mx my mz acc) _ _ _ Hev).
  - discriminate.
  - exact (quiet_no_savefig _ (report_events_quiet (data_y data) pred_classes) _ _ _ Hev).
Qed.

(** * The driver's loop and the routine as a whole *)

From Stdlib Require Import Permutation.

(** ** Vocabulary *)

(** The paths a trace saves figures to, in order. *)
Definition saved_files (t : list event) : list string :=
  flat_map (fun e => match e with
                     | EvSavefig p _ _ => [p]
                     | _ => []
                     end) t.

(** How often a trace shows a figure, and how often it runs the model. *)
Definition shows (t : list event) : nat := List.length (filter is_show t).

Definition is_forward (e : event) : bool :=
  match e with
  | EvForward => true
  | _ => false
  end.

(** The network the driver visualizes with: the architecture of the
    configuration on the weights of the checkpoint. *)
Definition loaded_model {F : Type} (w : World F) (weights : Weights w) :
    Sample -> tensor F :=
  DGCNN_forward w (model_k (the_config w)) (model_dropout (the_config w)) weights.

(** One pass of the driver's loop (lines 130-138). *)
Definition visualize_batch {F : Type} {K : TorchFloat F}
    (model : Sample -> tensor F) (batch : Sample) : M unit :=
  visualize_prediction model batch (Some (save_name batch)).

(** ** Running a sequence *)

Lemma bind_ok {A B : Type} (m : M A) (k : A -> M B) (a : A) :
  outcome m = Ok a ->
  trace (bind m k) = trace m ++ trace (k a) /\ outcome (bind m k) = outcome (k a).
Proof. destruct m as [t [a' | e]]; simpl; intros [= <-]; split; reflexivity. Qed.

Lemma bind_raise {A B : Type} (m : M A) (k : A -> M B) (e : exn) :
  outcome m = Raise e -> bind m k = (trace m, Raise e).
Proof. destruct m as [t [a' | e']]; simpl; intros [= <-]; reflexivity. Qed.

Lemma saved_files_app (t1 t2 : list event) :
  saved_files (t1 ++ t2) = saved_files t1 ++ saved_files t2.
Proof. apply flat_map_app. Qed.

Lemma save_name_not_empty (batch : Sample) :
  String.eqb (save_name batch) EmptyString = false.
Proof. reflexivity. Qed.

Lemma shows_app (t1 t2 : list event) : shows (t1 ++ t2) = (shows t1 + shows t2)%nat.
Proof. unfold shows. rewrite filter_app, length_app. reflexivity. Qed.

Section Loop.
Context {F : Type} {K : TorchFloat F}.

(** The driver up to its loop, when the checkpoint and the test loader are
    there. *)
Lemma main_run (w : World F) (names : list string) (latest : string)
    (weights : Weights w) (batches : list Sample) :
  let cfg := the_config w in
  let checkpoint_path :=
    os_path_join (os_path_join (training_checkpoint_dir cfg) latest) "best_model.pt" in
  os_listdir w (training_checkpoint_dir cfg) = Ok names ->
  latest_dir (timestamp_dirs w (training_checkpoint_dir cfg) names) = Ok latest ->
  torch_load w checkpoint_path = Ok weights ->
  test_loader w (data_path cfg) "novice" [1; 15] 1 = Ok batches ->
  main w
  = ([EvLoadConfig "configs/config.yaml";
      EvBuildModel (model_k cfg) (model_dropout cfg);
      EvListdir (training_checkpoint_dir cfg);
      EvPrint (LineCheckpoint checkpoint_path);
      EvTorchLoad checkpoint_path;
      EvLoadStateDict;
      EvDataset (data_path cfg) "novice";
      EvDataloaders [1; 15] 1]
     ++ trace (for_each batches (visualize_batch (loaded_model w weights))),
     outcome (for_each batches (visualize_batch (loaded_model w weights)))).
Proof.
  intros cfg checkpoint_path Hlist Hlatest Hload Hloader.
  unfold main. unfold checkpoint_path, cfg, the_config in *. cbv zeta.
  rewrite Hlist. cbn [bind emit lift fst snd app]. rewrite Hlatest.
  cbn [bind emit lift fst snd app]. rewrite Hload.
  cbn [bind emit lift fst snd app]. rewrite Hloader.
  reflexivity.
Qed.

End Loop.

(** ** Failures of the driver's collaborators *)

Lemma in_middle {A : Type} (pre post : list A) (a : A) : In a (pre ++ a :: post).
Proof. apply in_or_app. right. left. reflexivity. Qed.

(** An element that a list does not hold sits, in any list that starts
    with it, behind that list. *)
Lemma split_after_prefix {A : Type} (f : A -> bool) (l1 l2 pre post : list A) (a : A) :
  pre ++ a :: post = l1 ++ l2 ->
  forallb (fun v => negb (f v)) l1 = true ->
  f a = true ->
  exists pre', pre = l1 ++ pre'.
Proof.
  revert pre. induction l1 as [| v tl IH]; intros pre Heq Hall Ha.
  - exists pre. reflexivity.
  - cbn [forallb] in Hall. apply andb_true_iff in Hall. destruct Hall as [Hv Htl].
    destruct pre as [| p pre].
    + injection Heq as -> _. rewrite Ha in Hv. discriminate.
    + injection Heq as -> Heq. destruct (IH pre Heq Htl Ha) as [pre' ->].
      exists pre'. reflexivity.
Qed.

Section DriverFailures.
Context {F : Type} {K : TorchFloat F}.

Lemma main_load_error (w : World F) (names : list string) (latest : string) (e : exn) :
  let cfg := the_config w in
  let checkpoint_path :=
    os_path_join (os_path_join (training_checkpoint_dir cfg) latest) "best_model.pt" in
  os_listdir w (training_checkpoint_dir cfg) = Ok names ->
  latest_dir (timestamp_dirs w (training_checkpoint_dir cfg) names) = Ok latest ->
  torch_load w checkpoint_path = Raise e ->
  main w
  = ([EvLoadConfig "configs/config.yaml";
      EvBuildModel (model_k cfg) (model_dropout cfg);
      EvListdir (training_checkpoint_dir cfg);
      EvPrint (LineCheckpoint checkpoint_path);
      EvTorchLoad checkpoint_path],
     Raise e).
Proof.
  intros cfg checkpoint_path Hlist Hlatest Hload.
  unfold checkpoint_path, cfg, the_config in *. unfold main. cbv zeta.
  rewrite Hlist. cbn [bind emit lift fst snd app]. rewrite Hlatest.
  cbn [bind emit lift fst snd app]. rewrite Hload. reflexivity.
Qed.

Lemma main_loader_error (w : World F) (names : list string) (latest : string)
    (weights : Weights w) (e : exn) :
  let cfg := the_config w in
  let checkpoint_path :=
    os_path_join (os_path_join (training_checkpoint_dir cfg) latest) "best_model.pt" in
  os_listdir w (training_checkpoint_dir cfg) = Ok names ->
  latest_dir (timestamp_dirs w (training_checkpoint_dir cfg) names) = Ok latest ->
  torch_load w checkpoint_path = Ok weights ->
  test_loader w (data_path cfg) "novice" [1; 15] 1 = Raise e ->
  main w
  = ([EvLoadConfig "configs/config.yaml";
      EvBuildModel (model_k cfg) (model_dropout cfg);
      EvListdir (training_checkpoint_dir cfg);
      EvPrint (LineCheckpoint checkpoint_path);
      EvTorchLoad checkpoint_path;
      EvLoadStateDict;
      EvDataset (data_path cfg) "novice";
      EvDataloaders [1; 15] 1],
     Raise e).
Proof.
  intros cfg checkpoint_path Hlist Hlatest Hload Hloader.
  unfold checkpoint_path, cfg, the_config in *. unfold main. cbv zeta.
  rewrite Hlist. cbn [bind emit lift fst snd app]. rewrite Hlatest.
  cbn [bind emit lift fst snd app]. rewrite Hload.
  cbn [bind emit lift fst snd app]. rewrite Hloader. reflexivity.
Qed.

(** The driver never runs the model before it has restored the weights of
    the checkpoint: in every run, a forward pass comes after
    [load_state_dict]. *)
Theorem weights_restored_before_inference (w : World F) (pre post : list event) :
  trace (main w) = pre ++ EvForward :: post ->
  In EvLoadStateDict pre.
Proof.
  intros Heq.
  pose proof (in_middle pre post EvForward) as Hin. rewrite <- Heq in Hin.
  destruct (os_listdir w (training_checkpoint_dir (the_config w)))
    as [names | e] eqn:Hlist.
  2: { unfold main, the_config in *. cbv zeta in Hin. rewrite Hlist in Hin.
       simpl in Hin. intuition discriminate. }
  destruct (latest_dir (timestamp_dirs w (training_checkpoint_dir (the_config w)) names))
    as [latest | e] eqn:Hlatest.
  2: { unfold main, the_config in *. cbv zeta in Hin. rewrite Hlist in Hin.
       cbn [bind emit lift fst snd app] in Hin. rewrite Hlatest in Hin.
       simpl in Hin. intuition discriminate. }
  destruct (torch_load w
              (os_path_join
                 (os_path_join (training_checkpoint_dir (the_config w)) latest)
                 "best_model.pt"))
    as [weights | e] eqn:Hload.
  2: { rewrite (main_load_error w names latest e Hlist Hlatest Hload) in Hin.
       simpl in Hin. intuition discriminate. }
  destruct (test_loader w (data_path (the_config w)) "novice" [1; 15] 1)
    as [batches | e] eqn:Hloader.
  2: { rewrite (main_loader_error w names latest weights e Hlist Hlatest Hload Hloader)
         in Hin.
       simpl in Hin. intuition discriminate. }
  rewrite (main_run w names latest weights batches Hlist Hlatest Hload Hloader) in Heq.
  cbn [trace fst] in Heq. symmetry in Heq.
  destruct (split_after_prefix is_forward _ _ _ _ _ Heq eq_refl eq_refl) as [pre' ->].
  apply in_or_app. left. simpl. tauto.
Qed.

End DriverFailures.

Lemma weights_restored_before_inference_witness :
  exists pre post,
    trace (main demo_world) = pre ++ EvForward :: post
    /\ In EvLoadStateDict pre.
Proof.
  exists (firstn 10 (trace (main demo_world))), (skipn 11 (trace (main demo_world))).
  assert (H : trace (main demo_world)
              = firstn 10 (trace (main demo_world))
                ++ EvForward :: skipn 11 (trace (main demo_world)))
    by (vm_compute; reflexivity).
  split; [exact H |].
  exact (weights_restored_before_inference demo_world _ _ H).
Defined.

(** ** The accuracy at its ends *)

Lemma filter_all_length {A : Type} (f : A -> bool) (l : list A) :
  List.length (filter f l) = List.length l <-> forallb f l = true.
Proof.
  induction l as [| a tl IH]; cbn [filter forallb List.length].
  - tauto.
  - pose proof (filter_length_le f tl) as Hle. destruct (f a); cbn [List.length andb].
    + rewrite <- IH. lia.
    + split; [lia | discriminate].
Qed.

Lemma combine_all_equal (a b : list Z) :
  List.length a = List.length b ->
  forallb (fun pg => Z.eqb (fst pg) (snd pg)) (combine a b) = true <-> a = b.
Proof.
  revert b. induction a as [| p a IH]; intros [| g b] Hlen; simpl in Hlen;
    try discriminate.
  - simpl. tauto.
  - cbn [combine forallb fst snd]. rewrite andb_true_iff, Z.eqb_eq, IH by lia.
    split; [intros [-> ->]; reflexivity | intros [= -> ->]; auto].
Qed.

Lemma fraction_is_one (m n : Z) :
  0 < n -> (inject_Z m / inject_Z n == 1)%Q <-> m = n.
Proof.
  intros Hn.
  assert (Hn' : ~ (inject_Z n == 0)%Q) by (unfold Qeq; simpl; lia).
  split.
  - intros H. apply inject_Z_injective.
    rewrite <- (Qmult_div_r (inject_Z m) (inject_Z n)) by exact Hn'.
    unfold Qdiv in *. rewrite (Qmult_comm (inject_Z m)), Qmult_assoc.
    rewrite <- (Qmult_assoc (inject_Z n)), (Qmult_comm (/ inject_Z n)) .
    rewrite Qmult_assoc, <- Qmult_assoc, H. ring.
  - intros ->. apply Qmult_inv_r. exact Hn'.
Qed.

Lemma fraction_is_zero (m n : Z) :
  0 < n -> (inject_Z m / inject_Z n == 0)%Q <-> m = 0.
Proof.
  intros Hn.
  assert (Hn' : ~ (inject_Z n == 0)%Q) by (unfold Qeq; simpl; lia).
  split.
  - intros H. apply inject_Z_injective.
    apply (Qmult_inj_r _ _ (/ inject_Z n)).
    + intros E. apply Hn'. rewrite <- (Qinv_involutive (inject_Z n)), E. reflexivity.
    + unfold Qdiv in H. rewrite H. ring.
  - intros ->. unfold Qdiv. ring.
Qed.

(** On labels and predictions of one length N >= 1, the accuracy is 1
    exactly when every predicted class is the label, and 0 exactly when
    none is. *)
Theorem accuracy_ends (pred_classes ground_truth : list Z) (N : nat) :
  (1 <= N)%nat ->
  List.length ground_truth = N ->
  List.length pred_classes = N ->
  exists q : Q,
    accuracy pred_classes ground_truth = Ok (Fval q)
    /\ ((q == 1)%Q <-> pred_classes = ground_truth)
    /\ ((q == 0)%Q <-> matching_points pred_classes ground_truth = []).
Proof.
  intros HN Hg Hp.
  eexists. split; [apply (accuracy_value _ _ N HN Hg Hp) |].
  assert (Hlen : List.length (combine pred_classes ground_truth) = N)
    by (rewrite length_combine; lia).
  split.
  - rewrite fraction_is_one by lia. unfold matching_points.
    rewrite <- combine_all_equal by congruence.
    rewrite <- filter_all_length. rewrite Hlen. lia.
  - rewrite fraction_is_zero by lia.
    destruct (matching_points pred_classes ground_truth) eqn:Hm; cbn [List.length].
    + split; reflexivity.
    + split; [lia | discriminate].
Qed.

Lemma accuracy_ends_witness :
  exists q : Q, accuracy [0; 4] [0; 4] = Ok (Fval q) /\ (q == 1)%Q.
Proof.
  destruct (accuracy_ends [0; 4] [0; 4] 2) as (q & Hq & Hone & _);
    [lia | reflexivity | reflexivity |].
  exists q. split; [exact Hq |]. apply Hone. reflexivity.
Defined.

(** ** Labels the report leaves out *)

(** A label of one of the five classes. *)
Definition in_class_table (c : Z) : bool := (0 <=? c) && (c <=? 4).

Lemma class_counts_cons (c : Z) (labels : list Z) :
  zsum (class_counts (c :: labels))
  = (if in_class_table c then 1 else 0) + zsum (class_counts labels).
Proof.
  unfold class_counts, zsum, in_class_table.
  change (py_range 5) with [0; 1; 2; 3; 4].
  unfold np_eq_scalar. cbn [map fold_right np_sum].
  destruct (0 <=? c) eqn:H0; destruct (c <=? 4) eqn:H4; cbn [andb].
  - apply Z.leb_le in H0, H4.
    assert (Hcases : c = 0 \/ c = 1 \/ c = 2 \/ c = 3 \/ c = 4) by lia.
    destruct Hcases as [-> | [-> | [-> | [-> | ->]]]]; cbn [Z.eqb Pos.eqb]; lia.
  - apply Z.leb_gt in H4.
    replace (c =? 0) with false by (symmetry; apply Z.eqb_neq; lia).
    replace (c =? 1) with false by (symmetry; apply Z.eqb_neq; lia).
    replace (c =? 2) with false by (symmetry; apply Z.eqb_neq; lia).
    replace (c =? 3) with false by (symmetry; apply Z.eqb_neq; lia).
    replace (c =? 4) with false by (symmetry; apply Z.eqb_neq; lia).
    lia.
  - apply Z.leb_gt in H0.
    replace (c =? 0) with false by (symmetry; apply Z.eqb_neq; lia).
    replace (c =? 1) with false by (symmetry; apply Z.eqb_neq; lia).
    replace (c =? 2) with false by (symmetry; apply Z.eqb_neq; lia).
    replace (c =? 3) with false by (symmetry; apply Z.eqb_neq; lia).
    replace (c =? 4) with false by (symmetry; apply Z.eqb_neq; lia).
    lia.
  - apply Z.leb_gt in H0, H4. lia.
Qed.

Lemma class_counts_total (labels : list Z) :
  zsum (class_counts labels)
  = Z.of_nat (List.length (filter in_class_table labels)).
Proof.
  induction labels as [| c tl IH]; [reflexivity |].
  rewrite class_counts_cons, IH. cbn [filter].
  destruct (in_class_table c); cbn [List.length]; lia.
Qed.

(** The report counts the labels 0..4 only: in a run that reaches its end
    the printed ground-truth counts add up to the number of labels in
    0..4, and the printed predicted counts to the number of predicted
    classes in 0..4.  A label in -5..-1 is drawn, in the color of another
    class, and is in no count. *)
Theorem report_leaves_out_other_labels (data : Sample) (pred_classes : list Z)
    (save_path : option string) (N : nat) :
  (1 <= N)%nat ->
  sample_ok (-5) data pred_classes N ->
  zsum (printed_ground_truth (trace (render data pred_classes save_path)))
  = Z.of_nat (List.length (filter in_class_table (data_y data)))
  /\ zsum (printed_predicted (trace (render data pred_classes save_path)))
     = Z.of_nat (List.length (filter in_class_table pred_classes))
  /\ (zsum (printed_ground_truth (trace (render data pred_classes save_path)))
      = Z.of_nat N
      <-> Forall (fun c => 0 <= c <= 4) (data_y data)).
Proof.
  intros HN Hok.
  destruct (render_completes data pred_classes N HN Hok)
    as (c1 & c2 & r & mx & my & mz & acc & Hin).
  rewrite (render_run _ _ save_path _ _ _ _ _ _ _ Hin). cbn [trace fst].
  rewrite printed_ground_truth_render_events, printed_predicted_render_events.
  rewrite !class_counts_total.
  split; [reflexivity |]. split; [reflexivity |].
  destruct Hok as (_ & Hy & _).
  rewrite <- Hy, Nat2Z.inj_iff, filter_all_length, forallb_forall, Forall_forall.
  unfold in_class_table.
  split; intros H c Hc; specialize (H c Hc).
  - apply andb_true_iff in H. lia.
  - apply andb_true_iff. lia.
Qed.

Lemma report_leaves_out_other_labels_witness :
  (1 <= 2)%nat
  /\ sample_ok (-5) wrapped_sample [0; 3] 2
  /\ zsum (printed_ground_truth (trace (render wrapped_sample [0; 3] None))) = 1.
Proof.
  assert (HN : (1 <= 2)%nat) by lia.
  assert (H : sample_ok (-5) wrapped_sample [0; 3] 2).
  { unfold sample_ok. simpl. repeat split; repeat constructor; lia. }
  split; [exact HN |]. split; [exact H |].
  rewrite (proj1 (report_leaves_out_other_labels wrapped_sample [0; 3] None 2 HN H)).
  reflexivity.
Defined.

(** ** The order of the directory listing *)

Lemma lex_le_antisym (a b : string) : lex_le a b -> lex_le b a -> a = b.
Proof.
  intros Hab. induction Hab as [s | c1 c2 s1 s2 Hlt | c s1 s2 Hab IH]; intros Hba.
  - inversion Hba. reflexivity.
  - inversion Hba; subst; lia.
  - inversion Hba; subst; [lia |]. f_equal. apply IH. assumption.
Qed.

Section ListingOrder.
Context {F : Type}.

(** [os.listdir] returns the entries in arbitrary order; the driver's
    choice does not depend on it: two listings with the same entries give
    the same latest directory, or both give the not-found error. *)
Theorem latest_dir_ignores_listing_order (w : World F) (checkpoint_dir : string)
    (names names' : list string) :
  Permutation names names' ->
  latest_dir (timestamp_dirs w checkpoint_dir names)
  = latest_dir (timestamp_dirs w checkpoint_dir names').
Proof.
  intros Hperm.
  assert (Hdirs : Permutation (timestamp_dirs w checkpoint_dir names)
                              (timestamp_dirs w checkpoint_dir names')).
  { unfold timestamp_dirs. clear -Hperm.
    induction Hperm as [| a l l' _ IH | a b l | l l' l'' _ IH1 _ IH2]; cbn [filter].
    - constructor.
    - destruct (os_path_isdir w (os_path_join checkpoint_dir a));
        [constructor |]; exact IH.
    - destruct (os_path_isdir w (os_path_join checkpoint_dir a));
        destruct (os_path_isdir w (os_path_join checkpoint_dir b));
        try apply Permutation_refl; apply perm_swap.
    - eapply perm_trans; eassumption. }
  set (dirs := timestamp_dirs w checkpoint_dir names) in *.
  set (dirs' := timestamp_dirs w checkpoint_dir names') in *.
  destruct dirs as [| d0 tl] eqn:Ed.
  - apply Permutation_nil in Hdirs. rewrite Hdirs. reflexivity.
  - destruct dirs' as [| d0' tl'] eqn:Ed'.
    + apply Permutation_sym, Permutation_nil in Hdirs. discriminate.
    + destruct (py_max_spec (d0 :: tl)) as (m & Hm & Hin & Hall); [discriminate |].
      destruct (py_max_spec (d0' :: tl')) as (m' & Hm' & Hin' & Hall'); [discriminate |].
      unfold latest_dir. rewrite Hm, Hm'. f_equal.
      apply lex_le_antisym.
      * apply Hall'. eapply Permutation_in; eassumption.
      * apply Hall. eapply Permutation_in; [apply Permutation_sym |]; eassumption.
Qed.

End ListingOrder.

Lemma latest_dir_ignores_listing_order_witness :
  latest_dir (timestamp_dirs demo_world "checkpoints"
                ["2023-01-01"; "2023-06-01"; "2022-12-31"]%string)
  = latest_dir (timestamp_dirs demo_world "checkpoints"
                  ["2023-06-01"; "2023-01-01"; "2022-12-31"]%string).
Proof.
  apply latest_dir_ignores_listing_order. apply perm_swap.
Defined.

(** ** One forward pass, in evaluation mode *)

Definition is_inference (e : event) : bool :=
  match e with
  | EvModelEval | EvToDevice | EvForward => true
  | _ => false
  end.

Lemma render_no_inference (data : Sample) (pred_classes : list Z)
    (save_path : option string) :
  forallb (fun e => negb (is_inference e)) (trace (render data pred_classes save_path))
  = true.
Proof.
  destruct (render_inv data pred_classes save_path)
    as [[e [_ Hall]] | (c1 & c2 & r & mx & my & mz & acc & Hok)].
  - rewrite forallb_forall in *. intros ev Hev. specialize (Hall ev Hev).
    destruct ev; try discriminate; reflexivity.
  - rewrite (render_run _ _ save_path _ _ _ _ _ _ _ Hok), render_events_split.
    cbn [trace fst]. rewrite !forallb_app. unfold save_events.
    destruct save_path as [p |]; [destruct (String.eqb p EmptyString) |]; reflexivity.
Qed.

Section EvalMode.
Context {F : Type} {K : TorchFloat F}.

(** Every call puts the model in evaluation mode, moves the sample to the
    device and runs the model, in this order and before anything else, and
    never runs the model a second time. *)
Theorem one_forward_pass_in_eval_mode (model : Sample -> tensor F) (data : Sample)
    (save_path : option string) :
  exists rest,
    trace (visualize_prediction model data save_path)
    = EvModelEval :: EvToDevice :: EvForward :: rest
    /\ forallb (fun e => negb (is_inference e)) rest = true.
Proof.
  destruct (pred_classes_of (model data)) as [pc | e] eqn:Hpc.
  - destruct (visualize_prediction_run model data save_path pc Hpc) as [Ht _].
    exists (trace (render data pc save_path)). split; [exact Ht |].
    apply render_no_inference.
  - rewrite (visualize_prediction_fails model data save_path e Hpc).
    exists []. split; reflexivity.
Qed.

End EvalMode.

(** ** Files beside the checkpoint directories *)

Section RegularFiles.
Context {F : Type}.

(** Only directories are candidates: the entry the driver takes for the
    latest is an entry of the listing and is a directory, also when a
    regular file of the checkpoint root has a greater name. *)
Theorem latest_dir_is_a_directory (w : World F) (checkpoint_dir : string)
    (names : list string) (latest : string) :
  latest_dir (timestamp_dirs w checkpoint_dir names) = Ok latest ->
  In latest names
  /\ os_path_isdir w (os_path_join checkpoint_dir latest) = true
  /\ (forall d, In d names ->
                os_path_isdir w (os_path_join checkpoint_dir d) = true ->
                lex_le d latest).
Proof.
  intros H.
  destruct (timestamp_dirs w checkpoint_dir names) as [| d0 tl] eqn:Ed;
    [discriminate |].
  destruct (py_max_spec (d0 :: tl)) as (m & Hm & Hin & Hall); [discriminate |].
  unfold latest_dir in H. rewrite Hm in H. injection H as <-.
  rewrite <- Ed in Hin, Hall. unfold timestamp_dirs in Hin, Hall.
  apply filter_In in Hin. destruct Hin as [Hin Hdir].
  split; [exact Hin |]. split; [exact Hdir |].
  intros d Hd Hisdir. apply Hall. apply filter_In. split; assumption.
Qed.

End RegularFiles.

Lemma latest_dir_is_a_directory_witness :
  latest_dir (timestamp_dirs demo_world "checkpoints"
                ["2023-01-01"; "notes.txt"; "2023-06-01"; "2022-12-31"]%string)
  = Ok "2023-06-01"%string
  /\ os_path_isdir demo_world "checkpoints/2023-06-01" = true.
Proof.
  assert (H : latest_dir (timestamp_dirs demo_world "checkpoints"
                            ["2023-01-01"; "notes.txt"; "2023-06-01"; "2022-12-31"]%string)
              = Ok "2023-06-01"%string) by reflexivity.
  split; [exact H |].
  exact (proj1 (proj2 (latest_dir_is_a_directory demo_world "checkpoints" _ _ H))).
Defined.

(** ** The report comes after the display *)

Definition is_print (e : event) : bool :=
  match e with
  | EvPrint _ => true
  | _ => false
  end.

(** Nothing is printed by the routine before the figure has been shown:
    every line of the class report comes after the call that shows the
    figure, and a run that fails prints nothing. *)
Theorem report_after_show (data : Sample) (pred_classes : list Z)
    (save_path : option string) (pre post : list event) (line : report_line) :
  trace (render data pred_classes save_path) = pre ++ EvPrint line :: post ->
  In EvShow pre.
Proof.
  intros Heq.
  pose proof (in_middle pre post (EvPrint line)) as Hin. rewrite <- Heq in Hin.
  destruct (late_event_inv data pred_classes save_path (EvPrint line) eq_refl Hin)
    as (c1 & c2 & r & mx & my & mz & acc & Hok & _).
  rewrite (render_run _ _ save_path _ _ _ _ _ _ _ Hok), render_events_split in Heq.
  cbn [trace fst] in Heq.
  assert (Hsplit : pre ++ EvPrint line :: post
                   = (drawing_events data c1 c2 r mx my mz acc
                      ++ save_events save_path ++ [EvShow])
                     ++ report_events (data_y data) pred_classes).
  { rewrite <- Heq. rewrite <- !app_assoc. reflexivity. }
  destruct (split_after_prefix is_print _ _ _ _ _ Hsplit) as [pre' ->].
  - rewrite !forallb_app. unfold save_events.
    destruct save_path as [p |]; [destruct (String.eqb p EmptyString) |]; reflexivity.
  - reflexivity.
  - apply in_or_app. left. apply in_or_app. right. apply in_or_app. right.
    left. reflexivity.
Qed.

Lemma report_after_show_witness :
  exists pre post,
    trace (render demo_sample [0; 3] None) = pre ++ EvPrint LineHeader :: post
    /\ In EvShow pre.
Proof.
  exists (firstn 26 (trace (render demo_sample [0; 3] None))),
         (skipn 27 (trace (render demo_sample [0; 3] None))).
  assert (H : trace (render demo_sample [0; 3] None)
              = firstn 26 (trace (render demo_sample [0; 3] None))
                ++ EvPrint LineHeader :: skipn 27 (trace (render demo_sample [0; 3] None)))
    by (vm_compute; reflexivity).
  split; [exact H |].
  exact (report_after_show demo_sample [0; 3] None _ _ LineHeader H).
Defined.

(** * The routines with the libraries as they are: properties *)

(** ** Vocabulary *)


(** Neither a save nor a show. *)
Definition quiet (e : event) : bool := negb (is_savefig e || is_show e).




(** The half-width and the three midpoints of lines 59-67. *)
Record Box : Type := {
  box_r : Q;
  box_x : Q;
  box_y : Q;
  box_z : Q
}.

Definition box_in (rnd : Q -> Q) (points : list point) : result Box :=
  let* r := max_range_in rnd points in
  let* mid_x := mid_in rnd (col0 points) in
  let* mid_y := mid_in rnd (col1 points) in
  let* mid_z := mid_in rnd (col2 points) in
  Ok {| box_r := r; box_x := mid_x; box_y := mid_y; box_z := mid_z |}.

(** The events of [render_in], stage by stage. *)
Definition opening_events : list event :=
  [EvFigure 15 7; EvAddSubplot Ax1 121].

Definition first_plot_events (data : Sample) (c1 : list string) : list event :=
  opening_events
  ++ [EvScatter Ax1 (data_x data) c1 2;
      EvSetTitle Ax1 (axis_title data "Ground Truth");
      EvLegend Ax1 legend_handles;
      EvAddSubplot Ax2 122].

Definition plots_events (data : Sample) (c1 c2 : list string) : list event :=
  first_plot_events data c1
  ++ [EvScatter Ax2 (data_x data) c2 2;
      EvSetTitle Ax2 (axis_title data "Predicted");
      EvLegend Ax2 legend_handles].

Definition view_start (ax : axes) : list event :=
  [EvSetLabel ax DimX "X"; EvSetLabel ax DimY "Y"; EvSetLabel ax DimZ "Z";
   EvViewInit ax 30 45].

Definition limit_events (rnd : Q -> Q) (ax : axes) (b : Box) : list event :=
  [EvSetLim ax DimX (rnd (box_x b - box_r b)) (rnd (box_x b + box_r b));
   EvSetLim ax DimY (rnd (box_y b - box_r b)) (rnd (box_y b + box_r b));
   EvSetLim ax DimZ (rnd (box_z b - box_r b)) (rnd (box_z b + box_r b))]%Q.

Definition views_events (rnd : Q -> Q) (b : Box) : list event :=
  view_start Ax1 ++ limit_events rnd Ax1 b ++ view_start Ax2 ++ limit_events rnd Ax2 b.

Definition drawn_events (L : Lib) (data : Sample) (c1 c2 : list string) (b : Box)
    (acc : float_val) : list event :=
  plots_events data c1 c2 ++ views_events (fl_round L) b ++ [EvSuptitle acc; EvTightLayout].

(** How the [if save_path:] step ends. *)
Definition save_result (L : Lib) (save_path : option string) : result unit :=
  match save_path with
  | Some p => if String.eqb p EmptyString then Ok tt else savefig L p
  | None => Ok tt
  end.

(** [render_in], failure by failure: what has been logged when a step
    raises, and the whole trace of a run that reaches the end. *)
Definition render_steps (L : Lib) (data : Sample) (pred_classes : list Z)
    (save_path : option string) : M unit :=
  match color_array (data_y data) with
  | Raise e => (opening_events, Raise e)
  | Ok c1 =>
  match scatter L (data_x data) c1 with
  | Raise e => (opening_events, Raise e)
  | Ok _ =>
  match color_array pred_classes with
  | Raise e => (first_plot_events data c1, Raise e)
  | Ok c2 =>
  match scatter L (data_x data) c2 with
  | Raise e => (first_plot_events data c1, Raise e)
  | Ok _ =>
  match box_in (fl_round L) (data_x data) with
  | Raise e => (plots_events data c1 c2 ++ view_start Ax1, Raise e)
  | Ok b =>
  match accuracy pred_classes (data_y data) with
  | Raise e => (plots_events data c1 c2 ++ views_events (fl_round L) b, Raise e)
  | Ok acc =>
  match save_result L save_path with
  | Raise e => (drawn_events L data c1 c2 b acc, Raise e)
  | Ok _ =>
      (drawn_events L data c1 c2 b acc
       ++ save_events save_path
       ++ EvShow :: report_events (data_y data) pred_classes, Ok tt)
  end end end end end end end.

(** matplotlib's check of the color list of a scatter call: one color per
    point, a single color, or none. *)
Definition matplotlib_scatter (points : list point) (c : list string) : result unit :=
  let n := List.length c in
  if (n =? List.length points)%nat || (n <=? 1)%nat then Ok tt else Raise ValueError.

(** float32 coordinates, matplotlib's scatter, and a disk without a
    directory [/nonexistent]. *)
Definition demo_lib : Lib :=
  {| fl_round := round32;
     scatter := matplotlib_scatter;
     savefig := fun p => if String.prefix "/nonexistent/" p
                         then Raise FileNotFoundError else Ok tt |}.

(** Exact arithmetic and calls that succeed. *)
Definition ideal_lib : Lib :=
  {| fl_round := fun q => q;
     scatter := fun _ _ => Ok tt;
     savefig := fun _ => Ok tt |}.

(** ** The run of [render_in] *)

Lemma render_in_steps (L : Lib) (data : Sample) (pred_classes : list Z)
    (save_path : option string) :
  render_in L data pred_classes save_path = render_steps L data pred_classes save_path.
Proof.
  unfold render_in, render_steps, set_view_in, call, box_in. cbv zeta. cbn [for_each].
  rewrite legend_elements_eq.
  destruct (color_array (data_y data)) as [c1 | e]; [| reflexivity].
  cbn [bind emit lift ret fst snd app].
  destruct (scatter L (data_x data) c1) as [[] | e]; [| reflexivity].
  cbn [bind emit lift ret fst snd app].
  destruct (color_array pred_classes) as [c2 | e]; [| reflexivity].
  cbn [bind emit lift ret fst snd app].
  destruct (scatter L (data_x data) c2) as [[] | e]; [| reflexivity].
  cbn [bind emit lift ret fst snd app].
  destruct (max_range_in (fl_round L) (data_x data)) as [r | e]; [| reflexivity].
  cbn [bind emit lift ret fst snd app rbind].
  destruct (mid_in (fl_round L) (col0 (data_x data))) as [mx | e]; [| reflexivity].
  cbn [bind emit lift ret fst snd app rbind].
  destruct (mid_in (fl_round L) (col1 (data_x data))) as [my | e]; [| reflexivity].
  cbn [bind emit lift ret fst snd app rbind].
  destruct (mid_in (fl_round L) (col2 (data_x data))) as [mz | e]; [| reflexivity].
  cbn [bind emit lift ret fst snd app rbind].
  destruct (accuracy pred_classes (data_y data)) as [acc | e]; [| reflexivity].
  cbn [bind emit lift ret fst snd app].
  unfold save_result, save_events.
  destruct save_path as [p |]; cbn [py_truthy]; [| reflexivity].
  destruct (String.eqb p EmptyString); cbn [negb]; [reflexivity |].
  destruct (savefig L p) as [[] | e]; reflexivity.
Qed.

Lemma setup_not_late (l : list event) (ev : event) :
  forallb setup_event l = true -> setup_event ev = false -> ~ In ev l.
Proof.
  intros H Hev Hin. rewrite forallb_forall in H. apply H in Hin. congruence.
Qed.

Lemma setup_quiet (l : list event) :
  forallb setup_event l = true -> forallb quiet l = true.
Proof.
  intros H. rewrite forallb_forall in *. intros ev Hev.
  specialize (H ev Hev). destruct ev; try discriminate; reflexivity.
Qed.

Lemma drawn_events_quiet (L : Lib) (data : Sample) (c1 c2 : list string) (b : Box)
    (acc : float_val) :
  forallb quiet (drawn_events L data c1 c2 b acc) = true.
Proof. reflexivity. Qed.

Lemma report_events_all_quiet (ground_truth pred_classes : list Z) :
  forallb quiet (report_events ground_truth pred_classes) = true.
Proof. reflexivity. Qed.

Lemma tight_layout_drawn (L : Lib) (data : Sample) (c1 c2 : list string) (b : Box)
    (acc : float_val) :
  In EvTightLayout (drawn_events L data c1 c2 b acc).
Proof.
  unfold drawn_events. apply in_or_app. right. apply in_or_app. right.
  simpl. tauto.
Qed.

Lemma save_result_some (L : Lib) (p : string) :
  p <> EmptyString -> save_result L (Some p) = savefig L p.
Proof.
  intros Hp. unfold save_result.
  rewrite (proj2 (String.eqb_neq p EmptyString) Hp). reflexivity.
Qed.

Lemma save_result_falsy (L : Lib) (save_path : option string) :
  py_truthy save_path = false ->
  save_result L save_path = Ok tt /\ save_events save_path = [].
Proof.
  unfold save_result, save_events. destruct save_path as [p |]; [| split; reflexivity].
  cbn [py_truthy]. destruct (String.eqb p EmptyString); [split; reflexivity | discriminate].
Qed.

(** [render] is [render_in] in exact arithmetic with scatter and savefig
    calls that return. *)
Lemma render_ideal (data : Sample) (pred_classes : list Z) (save_path : option string) :
  render data pred_classes save_path = render_in ideal_lib data pred_classes save_path.
Proof.
  rewrite render_in_steps.
  unfold render, render_steps, set_view, box_in. cbv zeta.
  cbn [for_each fl_round scatter savefig ideal_lib].
  rewrite legend_elements_eq.
  change (max_range_in (fun q : Q => q)) with max_range.
  change (mid_in (fun q : Q => q)) with mid.
  destruct (color_array (data_y data)) as [c1 | e]; [| reflexivity].
  cbn [bind emit lift ret fst snd app].
  destruct (color_array pred_classes) as [c2 | e]; [| reflexivity].
  cbn [bind emit lift ret fst snd app].
  destruct (max_range (data_x data)) as [r | e]; [| reflexivity].
  cbn [bind emit lift ret fst snd app rbind].
  destruct (mid (col0 (data_x data))) as [mx | e]; [| reflexivity].
  cbn [bind emit lift ret fst snd app rbind].
  destruct (mid (col1 (data_x data))) as [my | e]; [| reflexivity].
  cbn [bind emit lift ret fst snd app rbind].
  destruct (mid (col2 (data_x data))) as [mz | e]; [| reflexivity].
  cbn [bind emit lift ret fst snd app rbind].
  destruct (accuracy pred_classes (data_y data)) as [acc | e]; [| reflexivity].
  cbn [bind emit lift ret fst snd app].
  unfold save_result, save_events. cbn [savefig ideal_lib].
  destruct save_path as [p |]; cbn [py_truthy]; [| reflexivity].
  destruct (String.eqb p EmptyString); reflexivity.
Qed.

(** ** Which inputs let [render_in] draw the whole figure *)

Lemma box_in_ok (rnd : Q -> Q) (points : list point) :
  points <> [] -> exists b, box_in rnd points = Ok b.
Proof. destruct points; [congruence | intros _; eexists; reflexivity]. Qed.

Lemma box_in_empty (rnd : Q -> Q) : box_in rnd [] = Raise ValueError.
Proof. reflexivity. Qed.

(** A sample of N >= 1 points with labels and classes the color lookup
    accepts, on which the two scatter calls succeed, is drawn in full: the
    run gets to the save step, and ends as that step does. *)
Lemma render_in_drawn (L : Lib) (data : Sample) (pred_classes : list Z)
    (save_path : option string) (N : nat) :
  (1 <= N)%nat ->
  sample_ok (-5) data pred_classes N ->
  (forall c, List.length c = N -> scatter L (data_x data) c = Ok tt) ->
  exists c1 c2 b acc,
    color_array (data_y data) = Ok c1
    /\ color_array pred_classes = Ok c2
    /\ box_in (fl_round L) (data_x data) = Ok b
    /\ accuracy pred_classes (data_y data) = Ok acc
    /\ render_in L data pred_classes save_path
       = match save_result L save_path with
         | Raise e => (drawn_events L data c1 c2 b acc, Raise e)
         | Ok _ => (drawn_events L data c1 c2 b acc
                    ++ save_events save_path
                    ++ EvShow :: report_events (data_y data) pred_classes, Ok tt)
         end.
Proof.
  intros HN (Hx & Hy & Hp & Hgt & Hpred) Hsc.
  assert (Hne : data_x data <> []) by (intros E; rewrite E in Hx; simpl in Hx; lia).
  destruct (color_array_ok _ Hgt) as (c1 & E1 & Hl1 & _).
  destruct (color_array_ok _ Hpred) as (c2 & E2 & Hl2 & _).
  destruct (box_in_ok (fl_round L) _ Hne) as (b & Eb).
  exists c1, c2, b.
  exists (np_mean (map (fun '(p, g) => Z.eqb p g) (combine pred_classes (data_y data)))).
  assert (Eacc : accuracy pred_classes (data_y data)
                 = Ok (np_mean (map (fun '(p, g) => Z.eqb p g)
                                    (combine pred_classes (data_y data))))).
  { unfold accuracy. rewrite np_eq_same_length by congruence. reflexivity. }
  do 4 (split; [assumption |]).
  rewrite render_in_steps. unfold render_steps.
  rewrite E1, (Hsc c1) by congruence. rewrite E2, (Hsc c2) by congruence.
  rewrite Eb, Eacc. reflexivity.
Qed.

(** ** Saving and showing the figure *)

(** C8, as amended.  An invocation gets as far as the save step (the call
    after [tight_layout]) or raises before it, having neither saved nor
    shown.  At the save step, with a non-empty save path, savefig is asked
    for that path at 300 dpi with a tight bounding box: if it returns, the
    figure is shown next, so that it was saved once, immediately before
    the one call that shows it; if it raises, the invocation ends with that
    exception, nothing saved and nothing shown.  With no save path (None or
    the empty string) nothing is saved and the figure is shown.  A sample
    of N >= 1 points with labels the color lookup accepts, whose scatter
    calls succeed, gets as far as the save step. *)
Theorem savefig_before_show (L : Lib) (data : Sample) (pred_classes : list Z)
    (save_path : option string) :
  let run := render_in L data pred_classes save_path in
  (forall p, In EvTightLayout (trace run) -> save_path = Some p -> p <> EmptyString ->
     (savefig L p = Ok tt ->
      outcome run = Ok tt
      /\ exists pre post,
           trace run = pre ++ EvSavefig p 300 "tight" :: EvShow :: post
           /\ forallb quiet (pre ++ post) = true)
     /\ (forall e, savefig L p = Raise e ->
           outcome run = Raise e /\ forallb quiet (trace run) = true))
  /\ (In EvTightLayout (trace run) -> py_truthy save_path = false ->
      outcome run = Ok tt
      /\ exists pre post,
           trace run = pre ++ EvShow :: post
           /\ forallb quiet (pre ++ post) = true)
  /\ (~ In EvTightLayout (trace run) ->
      exists e, outcome run = Raise e /\ forallb quiet (trace run) = true)
  /\ (forall N, (1 <= N)%nat -> sample_ok (-5) data pred_classes N ->
        (forall c, List.length c = N -> scatter L (data_x data) c = Ok tt) ->
        In EvTightLayout (trace run)).
Proof.
  intros run.
  assert (Hkinds :
    (exists e, run = (trace run, Raise e) /\ forallb setup_event (trace run) = true)
    \/ (exists c1 c2 b acc,
          run = match save_result L save_path with
                | Raise e => (drawn_events L data c1 c2 b acc, Raise e)
                | Ok _ => (drawn_events L data c1 c2 b acc
                           ++ save_events save_path
                           ++ EvShow :: report_events (data_y data) pred_classes, Ok tt)
                end)).
  { unfold run. rewrite render_in_steps. unfold render_steps.
    destruct (color_array (data_y data)) as [c1 | e];
      [| left; exists e; split; reflexivity].
    destruct (scatter L (data_x data) c1) as [[] | e];
      [| left; exists e; split; reflexivity].
    destruct (color_array pred_classes) as [c2 | e];
      [| left; exists e; split; reflexivity].
    destruct (scatter L (data_x data) c2) as [[] | e];
      [| left; exists e; split; reflexivity].
    destruct (box_in (fl_round L) (data_x data)) as [b | e];
      [| left; exists e; split; reflexivity].
    destruct (accuracy pred_classes (data_y data)) as [acc | e];
      [| left; exists e; split; reflexivity].
    right. exists c1, c2, b, acc.
    destruct (save_result L save_path) as [[] | e]; reflexivity. }
  split; [| split; [| split]].
  - intros p Hreach -> Hp.
    destruct Hkinds as [(e & _ & Hall) | (c1 & c2 & b & acc & Hrun)].
    { exfalso. exact (setup_not_late _ EvTightLayout Hall eq_refl Hreach). }
    rewrite save_result_some in Hrun by exact Hp. split.
    + intros Hsave. rewrite Hsave in Hrun. rewrite Hrun. split; [reflexivity |].
      exists (drawn_events L data c1 c2 b acc), (report_events (data_y data) pred_classes).
      split.
      * cbn [trace fst save_events].
        rewrite (proj2 (String.eqb_neq p EmptyString) Hp). reflexivity.
      * rewrite forallb_app, drawn_events_quiet, report_events_all_quiet. reflexivity.
    + intros e Hsave. rewrite Hsave in Hrun. rewrite Hrun.
      split; [reflexivity | apply drawn_events_quiet].
  - intros Hreach Hfalsy.
    destruct Hkinds as [(e & _ & Hall) | (c1 & c2 & b & acc & Hrun)].
    { exfalso. exact (setup_not_late _ EvTightLayout Hall eq_refl Hreach). }
    destruct (save_result_falsy L save_path Hfalsy) as [Hres Hev].
    rewrite Hres, Hev in Hrun. rewrite Hrun. split; [reflexivity |].
    exists (drawn_events L data c1 c2 b acc), (report_events (data_y data) pred_classes).
    split; [reflexivity |].
    rewrite forallb_app, drawn_events_quiet, report_events_all_quiet. reflexivity.
  - intros Hnot.
    destruct Hkinds as [(e & Hrun & Hall) | (c1 & c2 & b & acc & Hrun)].
    + exists e. split; [rewrite Hrun; reflexivity | apply setup_quiet; exact Hall].
    + exfalso. apply Hnot. rewrite Hrun.
      destruct (save_result L save_path); cbn [trace fst];
        [apply in_or_app; left |]; apply tight_layout_drawn.
  - intros N HN Hok Hsc.
    destruct (render_in_drawn L data pred_classes save_path N HN Hok Hsc)
      as (c1 & c2 & b & acc & _ & _ & _ & _ & Hrun).
    unfold run. rewrite Hrun.
    destruct (save_result L save_path); cbn [trace fst];
      [apply in_or_app; left |]; apply tight_layout_drawn.
Qed.

Lemma demo_scatter_ok (c : list string) :
  List.length c = 2%nat -> scatter demo_lib (data_x demo_sample) c = Ok tt.
Proof.
  intros H. cbn [scatter demo_lib]. unfold matplotlib_scatter. rewrite H. reflexivity.
Qed.

Lemma demo_sample_ok : sample_ok (-5) demo_sample [0; 3] 2.
Proof. unfold sample_ok. simpl. repeat split; repeat constructor; lia. Qed.

Lemma savefig_before_show_witness :
  (exists pre post,
     trace (render_in demo_lib demo_sample [0; 3] (Some "out.png"%string))
     = pre ++ EvSavefig "out.png" 300 "tight" :: EvShow :: post
     /\ forallb quiet (pre ++ post) = true)
  /\ outcome (render_in demo_lib demo_sample [0; 3] (Some "/nonexistent/out.png"%string))
     = Raise FileNotFoundError.
Proof.
  assert (HN : (1 <= 2)%nat) by lia.
  split.
  - destruct (savefig_before_show demo_lib demo_sample [0; 3] (Some "out.png"%string))
      as (Hsave & _ & _ & Hreach).
    destruct (Hsave "out.png"%string (Hreach 2%nat HN demo_sample_ok demo_scatter_ok)
                eq_refl) as [Hok _]; [discriminate |].
    exact (proj2 (Hok eq_refl)).
  - destruct (savefig_before_show demo_lib demo_sample [0; 3]
                (Some "/nonexistent/out.png"%string))
      as (Hsave & _ & _ & Hreach).
    destruct (Hsave "/nonexistent/out.png"%string
                (Hreach 2%nat HN demo_sample_ok demo_scatter_ok) eq_refl) as [_ Hfail];
      [discriminate |].
    exact (proj1 (Hfail FileNotFoundError eq_refl)).
Defined.

(** The claim as it stands fails twice over.  A sample with a label 5 and a
    save path: the color lookup raises IndexError, nothing is written and
    nothing is shown.  A good sample and a save path in a directory that
    does not exist: savefig raises, nothing is written and nothing is
    shown. *)
Lemma savefig_not_in_every_invocation :
  (outcome (render_in demo_lib six_class_sample [0; 3] (Some "out.png"%string))
   = Raise IndexError
   /\ saved_files (trace (render_in demo_lib six_class_sample [0; 3]
                            (Some "out.png"%string))) = []
   /\ shows (trace (render_in demo_lib six_class_sample [0; 3]
                      (Some "out.png"%string))) = 0%nat)
  /\ (outcome (render_in demo_lib demo_sample [0; 3] (Some "/nonexistent/out.png"%string))
      = Raise FileNotFoundError
      /\ saved_files (trace (render_in demo_lib demo_sample [0; 3]
                               (Some "/nonexistent/out.png"%string))) = []
      /\ shows (trace (render_in demo_lib demo_sample [0; 3]
                         (Some "/nonexistent/out.png"%string))) = 0%nat).
Proof. vm_compute. repeat split; reflexivity. Qed.

(** ** The bounding box *)















(** ** Inference: softmax over the classes, then the argmax *)

Definition is_scatter (e : event) : bool :=
  match e with
  | EvScatter _ _ _ _ => true
  | _ => false
  end.

Lemma no_scatter (l : list event) (ax : axes) (pts : list point) (cs : list string)
    (s : Z) :
  forallb (fun e => negb (is_scatter e)) l = true -> ~ In (EvScatter ax pts cs s) l.
Proof.
  intros H Hin. rewrite forallb_forall in H. apply H in Hin. discriminate.
Qed.

(** The labels a subplot shows. *)
Definition shown_labels (data : Sample) (pred_classes : list Z) (ax : axes) : list Z :=
  match ax with
  | Ax1 => data_y data
  | Ax2 => pred_classes
  end.

Lemma scatter_in_first_plot (data : Sample) (c1 : list string)
    (ax : axes) (pts : list point) (cs : list string) (s : Z) :
  In (EvScatter ax pts cs s) (first_plot_events data c1) ->
  ax = Ax1 /\ pts = data_x data /\ cs = c1 /\ s = 2.
Proof.
  intros H. simpl in H.
  repeat (destruct H as [H | H];
          [try discriminate; injection H as <- <- <- <-; repeat split; reflexivity |]).
  contradiction.
Qed.

Lemma scatter_in_plots (data : Sample) (c1 c2 : list string)
    (ax : axes) (pts : list point) (cs : list string) (s : Z) :
  In (EvScatter ax pts cs s) (plots_events data c1 c2) ->
  pts = data_x data /\ s = 2
  /\ cs = match ax with Ax1 => c1 | Ax2 => c2 end.
Proof.
  intros H. unfold plots_events in H. apply in_app_or in H. destruct H as [H | H].
  - apply scatter_in_first_plot in H. destruct H as (-> & -> & -> & ->).
    repeat split; reflexivity.
  - simpl in H.
    repeat (destruct H as [H | H];
            [try discriminate; injection H as <- <- <- <-; repeat split; reflexivity |]).
    contradiction.
Qed.

(** A scatter call that returned was made on the points of the sample with
    the colors of the labels its subplot shows. *)
Lemma scatter_in_render_in (L : Lib) (data : Sample) (pred_classes : list Z)
    (save_path : option string) (ax : axes) (pts : list point) (cs : list string)
    (s : Z) :
  In (EvScatter ax pts cs s) (trace (render_in L data pred_classes save_path)) ->
  pts = data_x data /\ s = 2
  /\ color_array (shown_labels data pred_classes ax) = Ok cs.
Proof.
  rewrite render_in_steps. unfold render_steps.
  destruct (color_array (data_y data)) as [c1 | e] eqn:E1.
  2: { intros H. exfalso. revert H. apply no_scatter. reflexivity. }
  destruct (scatter L (data_x data) c1) as [[] | e].
  2: { intros H. exfalso. revert H. apply no_scatter. reflexivity. }
  assert (Hfirst : In (EvScatter ax pts cs s) (first_plot_events data c1) ->
                   pts = data_x data /\ s = 2
                   /\ color_array (shown_labels data pred_classes ax) = Ok cs).
  { intros H. apply scatter_in_first_plot in H. destruct H as (-> & -> & -> & ->).
    repeat split; try reflexivity. exact E1. }
  destruct (color_array pred_classes) as [c2 | e] eqn:E2; [| exact Hfirst].
  destruct (scatter L (data_x data) c2) as [[] | e]; [| exact Hfirst].
  assert (Hplots : In (EvScatter ax pts cs s) (plots_events data c1 c2) ->
                   pts = data_x data /\ s = 2
                   /\ color_array (shown_labels data pred_classes ax) = Ok cs).
  { intros H. apply scatter_in_plots in H. destruct H as (-> & -> & ->).
    repeat split; try reflexivity. destruct ax; assumption. }
  destruct (box_in (fl_round L) (data_x data)) as [b | e].
  2: { cbn [trace fst]. intros H. apply in_app_or in H. destruct H as [H | H];
         [exact (Hplots H) |].
       exfalso. revert H. apply no_scatter. reflexivity. }
  destruct (accuracy pred_classes (data_y data)) as [acc | e].
  2: { cbn [trace fst]. intros H. apply in_app_or in H. destruct H as [H | H];
         [exact (Hplots H) |].
       exfalso. revert H. apply no_scatter. reflexivity. }
  assert (Hdrawn : In (EvScatter ax pts cs s) (drawn_events L data c1 c2 b acc) ->
                   pts = data_x data /\ s = 2
                   /\ color_array (shown_labels data pred_classes ax) = Ok cs).
  { unfold drawn_events. intros H. apply in_app_or in H. destruct H as [H | H];
      [exact (Hplots H) |].
    exfalso. revert H. apply no_scatter. reflexivity. }
  destruct (save_result L save_path); [| exact Hdrawn].
  cbn [trace fst]. intros H. apply in_app_or in H. destruct H as [H | H];
    [exact (Hdrawn H) |].
  exfalso. revert H. apply no_scatter. unfold save_events.
  destruct save_path as [p |]; [destruct (String.eqb p EmptyString) |]; reflexivity.
Qed.

Section Classes.
Context {F : Type} {K : TorchFloat F}.

Lemma visualize_prediction_in_steps (L : Lib) (model : Sample -> result (tensor F))
    (data : Sample) (save_path : option string) :
  visualize_prediction_in L model data save_path
  = match model data with
    | Raise e => ([EvModelEval; EvToDevice], Raise e)
    | Ok outputs =>
        match pred_classes_of outputs with
        | Raise e => ([EvModelEval; EvToDevice; EvForward], Raise e)
        | Ok pred_classes =>
            ([EvModelEval; EvToDevice; EvForward]
             ++ trace (render_in L data pred_classes save_path),
             outcome (render_in L data pred_classes save_path))
        end
    end.
Proof.
  unfold visualize_prediction_in.
  destruct (model data) as [outputs | e]; [| reflexivity].
  cbn [bind emit lift fst snd app].
  destruct (pred_classes_of outputs) as [pc | e]; [| reflexivity].
  cbn [bind emit lift fst snd app].
  destruct (render_in L data pc save_path) as [t r]. reflexivity.
Qed.

(** [visualize_prediction] is [visualize_prediction_in] with a forward pass
    that returns, in exact arithmetic with scatter and savefig calls that
    return. *)
Lemma visualize_prediction_ideal (model : Sample -> tensor F) (data : Sample)
    (save_path : option string) :
  visualize_prediction model data save_path
  = visualize_prediction_in ideal_lib (fun d => Ok (model d)) data save_path.
Proof.
  rewrite visualize_prediction_in_steps. unfold visualize_prediction.
  cbn [bind emit lift fst snd app].
  destruct (pred_classes_of (model data)) as [pc | e]; [| reflexivity].
  cbn [bind emit lift fst snd app]. rewrite render_ideal.
  destruct (render_in ideal_lib data pc save_path) as [t r]. reflexivity.
Qed.

Lemma fold_exp_sum (outputs : tensor F) (i n : nat) :
  fold_left fadd (map fexp (map (fun j => item outputs i j) (seq 0 n))) fzero
  = exp_sum outputs i n.
Proof.
  induction n as [| n IH]; [reflexivity |].
  rewrite seq_S, !map_app, fold_left_app, IH. reflexivity.
Qed.

(** The softmax of a point's logits is the list of its probabilities. *)
Lemma softmax_probabilities (outputs : tensor F) (i : nat) :
  softmax_over_classes (point_logits outputs i)
  = map (probability outputs i) (seq 0 (shape1 outputs)).
Proof.
  unfold softmax_over_classes, point_logits, probability, fsum.
  rewrite fold_exp_sum, map_map. reflexivity.
Qed.

Lemma argmax_from_running (p : nat -> F) (m i best_i : nat) :
  running_best p i best_i ->
  running_best p (i + m) (argmax_from (p best_i) best_i i (map p (seq i m))).
Proof.
  revert i best_i. induction m as [| m IH]; intros i best_i H.
  - rewrite Nat.add_0_r. exact H.
  - cbn [seq map argmax_from]. rewrite Nat.add_succ_r, <- Nat.add_succ_l.
    destruct (fgt (p i) (p best_i)) eqn:Hgt.
    + apply IH. apply best_taken with best_i; assumption.
    + apply IH. apply best_kept; assumption.
Qed.

Lemma argmax1d_running (p : nat -> F) (n : nat) :
  (1 <= n)%nat ->
  exists c, argmax1d (map p (seq 0 n)) = Ok (Z.of_nat c) /\ running_best p n c.
Proof.
  destruct n as [| m]; [lia | intros _].
  exists (argmax_from (p 0%nat) 0 1 (map p (seq 1 m))). split; [reflexivity |].
  exact (argmax_from_running p m 1 0 (best_first p)).
Qed.

Lemma running_best_bound (p : nat -> F) (n c : nat) :
  running_best p n c -> (c < n)%nat.
Proof. induction 1; lia. Qed.

Lemma running_best_later (p : nat -> F) (n c : nat) :
  running_best p n c ->
  forall j, (c < j < n)%nat -> fgt (p j) (p c) = false.
Proof.
  induction 1 as [| n c H IH Hgt | n c H IH Hgt]; intros j Hj.
  - lia.
  - lia.
  - destruct (Nat.eq_dec j n) as [-> | Hne]; [exact Hgt | apply IH; lia].
Qed.

(** Where "ranks above" is an order, the entry held at the end is the
    first largest one. *)
Lemma running_best_first_largest (p : nat -> F) (n c : nat) :
  running_best p n c ->
  forall N, (n <= N)%nat -> ranked p N -> first_largest p n c.
Proof.
  induction 1 as [| n c H IH Hgt | n c H IH Hgt]; intros N HN Hr.
  - destruct Hr as (Hirr & _ & _). split; [lia |]. split.
    + intros j Hj. replace j with 0%nat by lia. apply Hirr. lia.
    + intros j Hj. lia.
  - destruct (IH N ltac:(lia) Hr) as (Hc & Hnone & Hfirst).
    destruct Hr as (Hirr & Htrans & Hneg).
    split; [lia |]. split.
    + intros j Hj. destruct (Nat.eq_dec j n) as [-> | Hne]; [apply Hirr; lia |].
      destruct (fgt (p j) (p n)) eqn:Hjn; [| reflexivity].
      rewrite <- (Hnone j ltac:(lia)).
      symmetry. apply (Htrans j n c); try lia; assumption.
    + intros j Hj.
      destruct (fgt (p n) (p j)) eqn:Hnj; [reflexivity |].
      rewrite <- Hgt. symmetry. apply (Hneg n j c); try lia; [exact Hnj |].
      apply Hnone. lia.
  - destruct (IH N ltac:(lia) Hr) as (Hc & Hnone & Hfirst).
    split; [lia |]. split; [| exact Hfirst].
    intros j Hj. destruct (Nat.eq_dec j n) as [-> | Hne]; [exact Hgt | apply Hnone; lia].
Qed.

Lemma nth_error_seq0 (n i : nat) : (i < n)%nat -> nth_error (seq 0 n) i = Some i.
Proof.
  intros H. rewrite (nth_error_nth' _ 0%nat) by (rewrite length_seq; exact H).
  rewrite seq_nth by exact H. reflexivity.
Qed.

(** C2.  The predicted classes are obtained point by point.  For point [i],
    the probability of class [j] is the exponential of its logit divided by
    the sum of the exponentials of the point's logits (softmax over
    dimension 1), and the point's class is the argmax of these
    probabilities: the entry held after going through them in order and
    moving on only to an entry that ranks above the one held, so that no
    later entry ranks above it and, where "ranks above" is an order (no
    nan), no entry ranks above it and it ranks above every earlier one.
    There is one class per point; with no class at all the argmax raises
    IndexError.  These classes are the ones the routine draws: the second
    scatter call is given their colors. *)
Theorem pred_classes_softmax_argmax (L : Lib) (model : Sample -> result (tensor F))
    (data : Sample) (save_path : option string) (outputs : tensor F) :
  (shape1 outputs = 0%nat -> pred_classes_of outputs = Raise IndexError)
  /\ ((1 <= shape1 outputs)%nat ->
      exists pred_classes,
        pred_classes_of outputs = Ok pred_classes
        /\ List.length pred_classes = shape0 outputs
        /\ forall i, (i < shape0 outputs)%nat ->
             exists c,
               nth_error pred_classes i = Some (Z.of_nat c)
               /\ running_best (probability outputs i) (shape1 outputs) c
               /\ (c < shape1 outputs)%nat
               /\ (forall j, (c < j < shape1 outputs)%nat ->
                     fgt (probability outputs i j) (probability outputs i c) = false)
               /\ (ranked (probability outputs i) (shape1 outputs) ->
                   first_largest (probability outputs i) (shape1 outputs) c))
  /\ (model data = Ok outputs ->
      forall pts c2 s,
        In (EvScatter Ax2 pts c2 s)
           (trace (visualize_prediction_in L model data save_path)) ->
        exists pred_classes,
          pred_classes_of outputs = Ok pred_classes
          /\ color_array pred_classes = Ok c2
          /\ pts = data_x data)
  /\ (forall e, model data = Raise e ->
        visualize_prediction_in L model data save_path
        = ([EvModelEval; EvToDevice], Raise e)).
Proof.
  split; [| split; [| split]].
  - intros H0. rewrite pred_classes_of_per_point. unfold per_point_classes.
    rewrite H0. reflexivity.
  - intros Hc. rewrite pred_classes_of_per_point. unfold per_point_classes.
    replace (shape1 outputs =? 0)%nat with false by (symmetry; apply Nat.eqb_neq; lia).
    destruct (list_comp_ok
                (fun i => argmax1d (softmax_over_classes (point_logits outputs i)))
                (fun _ => True) (seq 0 (shape0 outputs))) as (pc & Hpc & Hlen & _).
    { intros i _. rewrite softmax_probabilities.
      destruct (argmax1d_running (probability outputs i) _ Hc) as (c & Hcls & _).
      exists (Z.of_nat c). split; [exact Hcls | exact I]. }
    exists pc. split; [exact Hpc |]. split; [rewrite Hlen; apply length_seq |].
    intros i Hi.
    destruct (list_comp_nth _ _ _ Hpc i i (nth_error_seq0 _ _ Hi)) as (b & Hb & Hcls).
    rewrite softmax_probabilities in Hcls.
    destruct (argmax1d_running (probability outputs i) _ Hc) as (c & Hcls' & Hrun).
    exists c. split; [congruence |]. split; [exact Hrun |].
    split; [exact (running_best_bound _ _ _ Hrun) |].
    split; [exact (running_best_later _ _ _ Hrun) |].
    intros Hr. exact (running_best_first_largest _ _ _ Hrun _ (le_n _) Hr).
  - intros Hm pts c2 s. rewrite visualize_prediction_in_steps, Hm.
    destruct (pred_classes_of outputs) as [pc | e].
    + cbn [trace fst]. intros H. apply in_app_or in H. destruct H as [H | H].
      { simpl in H. intuition discriminate. }
      apply scatter_in_render_in in H. destruct H as (-> & _ & Hcol).
      exists pc. repeat split; [exact Hcol].
    + cbn [trace fst]. intros H. simpl in H. intuition discriminate.
  - intros e Hm. rewrite visualize_prediction_in_steps, Hm. reflexivity.
Qed.

(** C9, as amended.  Softmax leaves the class of a point as its raw logits
    give it whenever dividing the exponentials of the point's logits by
    their sum keeps the strict order of these logits. *)
Theorem softmax_keeps_class_of_ordered_point (outputs : tensor F) (i : nat) :
  (1 <= shape1 outputs)%nat ->
  (i < shape0 outputs)%nat ->
  (forall a b,
      In a (point_logits outputs i) -> In b (point_logits outputs i) ->
      fgt (fdiv (fexp a) (fsum (map fexp (point_logits outputs i))))
          (fdiv (fexp b) (fsum (map fexp (point_logits outputs i))))
      = fgt a b) ->
  exists pred_classes raw_classes c,
    pred_classes_of outputs = Ok pred_classes
    /\ torch_argmax outputs 1 = Ok raw_classes
    /\ nth_error pred_classes i = Some c
    /\ nth_error raw_classes i = Some c.
Proof.
  intros Hc Hi Hkept.
  assert (Hguard : (shape1 outputs =? 0)%nat = false) by (apply Nat.eqb_neq; lia).
  assert (Hne : forall k, point_logits outputs k <> []).
  { intros k E. apply (f_equal (@List.length F)) in E.
    unfold point_logits in E. rewrite length_map, length_seq in E. simpl in E. lia. }
  destruct (list_comp_ok
              (fun k => argmax1d (softmax_over_classes (point_logits outputs k)))
              (fun _ => True) (seq 0 (shape0 outputs))) as (pc & Hpc & _ & _).
  { intros k _. destruct (point_logits outputs k) as [| v tl] eqn:E;
      [destruct (Hne k E) |].
    eexists. split; [reflexivity | exact I]. }
  destruct (list_comp_ok
              (fun k => argmax1d (point_logits outputs k))
              (fun _ => True) (seq 0 (shape0 outputs))) as (raw & Hraw & _ & _).
  { intros k _. destruct (point_logits outputs k) as [| v tl] eqn:E;
      [destruct (Hne k E) |].
    eexists. split; [reflexivity | exact I]. }
  destruct (list_comp_nth _ _ _ Hpc i i (nth_error_seq0 _ _ Hi)) as (c & Hc1 & Hcls).
  destruct (list_comp_nth _ _ _ Hraw i i (nth_error_seq0 _ _ Hi)) as (c' & Hc2 & Hcls').
  exists pc, raw, c.
  split; [rewrite pred_classes_of_per_point; unfold per_point_classes;
          rewrite Hguard; exact Hpc |].
  split.
  { unfold torch_argmax.
    cbn [norm_dim rbind Z.leb Z.ltb Z.compare Pos.compare Pos.compare_cont andb
         Z.to_nat Pos.to_nat Pos.iter_op Nat.add].
    rewrite Hguard. exact Hraw. }
  split; [exact Hc1 |].
  unfold softmax_over_classes in Hcls.
  rewrite argmax1d_map in Hcls by exact Hkept.
  congruence.
Qed.

End Classes.

(** Logits of two points over two classes: 0 and 2^-30 for the first
    point, 0 and 1 for the second. *)
Definition close_logits : tensor Q :=
  {| shape0 := 2;
     shape1 := 2;
     item := fun i j => match i, j with
                        | O, S _ => pow2 (-30)
                        | S _, S _ => 1%Q
                        | _, _ => 0%Q
                        end |}.

(** The [>] of floats is an order on finite values. *)
Lemma binary32_ranked (p : nat -> Q) (n : nat) : @ranked Q binary32 p n.
Proof.
  assert (Hgt : forall a b : Q, @fgt Q binary32 a b = true <-> (b < a)%Q).
  { intros a b. cbn [fgt binary32]. rewrite negb_true_iff. split.
    - intros H. apply Qnot_le_lt. intros Hle. apply Qle_bool_iff in Hle. congruence.
    - intros H. destruct (Qle_bool a b) eqn:E; [| reflexivity].
      apply Qle_bool_iff in E. exfalso. apply (Qlt_not_le _ _ H). exact E. }
  assert (Hle : forall a b : Q, @fgt Q binary32 a b = false <-> (a <= b)%Q).
  { intros a b. cbn [fgt binary32]. rewrite negb_false_iff. apply Qle_bool_iff. }
  split; [| split].
  - intros i _. apply Hle. apply Qle_refl.
  - intros i j k _ _ _ H1 H2. apply Hgt in H1, H2. apply Hgt.
    eapply Qlt_trans; eassumption.
  - intros i j k _ _ _ H1 H2. apply Hle in H1, H2. apply Hle.
    eapply Qle_trans; eassumption.
Qed.

Lemma pred_classes_softmax_argmax_witness :
  @pred_classes_of Q binary32 close_logits = Ok [0; 1]
  /\ first_largest (@probability Q binary32 close_logits 1) 2 1.
Proof.
  destruct (@pred_classes_softmax_argmax Q binary32 demo_lib
              (fun _ => Ok close_logits) demo_sample None close_logits)
    as (_ & Hclasses & _ & _).
  destruct Hclasses as (pc & Hpc & _ & Hpoint); [simpl; lia |].
  assert (Hval : @pred_classes_of Q binary32 close_logits = Ok [0; 1])
    by (vm_compute; reflexivity).
  split; [exact Hval |].
  destruct (Hpoint 1%nat) as (c & Hc & _ & _ & _ & Hfirst); [simpl; lia |].
  rewrite Hval in Hpc. injection Hpc as <-.
  cbn [nth_error] in Hc. injection Hc as Hc.
  assert (Hc1 : c = 1%nat) by lia. subst c.
  apply Hfirst. apply binary32_ranked.
Defined.

(** In float32 the claim fails.  The exponentials of 0 and of 2^-30 both
    round to 1, the two probabilities are 1/2 each, and the argmax of a tie
    is its first index, class 0, where the raw logits give class 1. *)
Lemma softmax_changes_a_class :
  @pred_classes_of Q binary32 close_logits = Ok [0; 1]
  /\ @torch_argmax Q binary32 close_logits 1 = Ok [1; 1]
  /\ @probability Q binary32 close_logits 0 0 = (1 # 2)%Q
  /\ @probability Q binary32 close_logits 0 1 = (1 # 2)%Q.
Proof. vm_compute. repeat split; reflexivity. Qed.

Lemma softmax_keeps_class_of_ordered_point_witness :
  exists pred_classes raw_classes,
    @pred_classes_of Q binary32 close_logits = Ok pred_classes
    /\ @torch_argmax Q binary32 close_logits 1 = Ok raw_classes
    /\ nth_error pred_classes 1 = Some 1
    /\ nth_error raw_classes 1 = Some 1.
Proof.
  destruct (@softmax_keeps_class_of_ordered_point Q binary32 close_logits 1)
    as (pc & raw & c & H1 & H2 & H3 & H4).
  - simpl. lia.
  - simpl. lia.
  - intros a b Ha Hb. simpl in Ha, Hb.
    destruct Ha as [<- | [<- | []]]; destruct Hb as [<- | [<- | []]];
      vm_compute; reflexivity.
  - assert (Hraw : @torch_argmax Q binary32 close_logits 1 = Ok [1; 1])
      by (vm_compute; reflexivity).
    exists pc, raw. split; [exact H1 |]. split; [exact H2 |].
    rewrite Hraw in H2. injection H2 as <-.
    cbn [nth_error] in H4. injection H4 as <-.
    split; [exact H3 | reflexivity].
Defined.

(** ** Labels outside the color table, and samples without points *)

(** A ground-truth label outside -5..4 (a sixth class, say) ends the
    routine in IndexError before anything is drawn.  A predicted class
    outside -5..4 does so once the first subplot is drawn, that is, when
    the ground-truth labels have their colors and the first scatter call
    has returned.  Either way nothing is saved or shown. *)
Theorem label_out_of_range_raises (L : Lib) (data : Sample) (pred_classes : list Z)
    (save_path : option string) (c : Z) :
  c < -5 \/ 4 < c ->
  (In c (data_y data) ->
   render_in L data pred_classes save_path = (opening_events, Raise IndexError))
  /\ (In c pred_classes ->
      forall c1,
        color_array (data_y data) = Ok c1 ->
        scatter L (data_x data) c1 = Ok tt ->
        render_in L data pred_classes save_path
        = (first_plot_events data c1, Raise IndexError)).
Proof.
  intros Hc. split.
  - intros Hin. rewrite render_in_steps. unfold render_steps.
    rewrite (color_array_raises _ c Hin Hc). reflexivity.
  - intros Hin c1 E1 Hsc. rewrite render_in_steps. unfold render_steps.
    rewrite E1, Hsc, (color_array_raises _ c Hin Hc). reflexivity.
Qed.

Lemma label_out_of_range_raises_witness :
  render_in demo_lib six_class_sample [0; 3] None = (opening_events, Raise IndexError)
  /\ render_in demo_lib demo_sample [0; 7] (Some "out.png"%string)
     = (first_plot_events demo_sample ["blue"; "red"]%string, Raise IndexError).
Proof.
  split.
  - apply (label_out_of_range_raises demo_lib six_class_sample [0; 3] None 5);
      [right; reflexivity | simpl; tauto].
  - apply (label_out_of_range_raises demo_lib demo_sample [0; 7]
             (Some "out.png"%string) 7);
      [right; reflexivity | simpl; tauto | reflexivity | reflexivity].
Defined.

Section NoPoints.
Context {F : Type} {K : TorchFloat F}.

(** A sample with no point never reaches the limits.  When the model
    returns logits without any class, the argmax raises IndexError right
    after the forward pass.  When the lines after inference are reached,
    with colors for the labels and the classes and two scatter calls that
    return, the maximum of the empty coordinate array raises ValueError:
    after the two scatter calls and the first subplot's axis labels and
    viewing angle, before any limit is set. *)
Theorem empty_sample_raises (L : Lib) (data : Sample) (save_path : option string) :
  data_x data = [] ->
  (forall pred_classes c1 c2,
      color_array (data_y data) = Ok c1 ->
      color_array pred_classes = Ok c2 ->
      scatter L [] c1 = Ok tt ->
      scatter L [] c2 = Ok tt ->
      render_in L data pred_classes save_path
      = (plots_events data c1 c2 ++ view_start Ax1, Raise ValueError))
  /\ (forall (model : Sample -> result (tensor F)) outputs,
        model data = Ok outputs ->
        shape1 outputs = 0%nat ->
        visualize_prediction_in L model data save_path
        = ([EvModelEval; EvToDevice; EvForward], Raise IndexError)).
Proof.
  intros Hx. split.
  - intros pc c1 c2 E1 E2 S1 S2. rewrite render_in_steps. unfold render_steps.
    rewrite Hx, E1, S1, E2, S2, box_in_empty. reflexivity.
  - intros model outputs Hm H0. rewrite visualize_prediction_in_steps, Hm.
    rewrite pred_classes_of_per_point. unfold per_point_classes. rewrite H0.
    reflexivity.
Qed.

End NoPoints.

Lemma empty_sample_raises_witness :
  render_in demo_lib empty_sample [] None
  = (plots_events empty_sample [] [] ++ view_start Ax1, Raise ValueError).
Proof.
  exact (proj1 (@empty_sample_raises Q binary32 demo_lib empty_sample None eq_refl)
           [] [] [] eq_refl eq_refl eq_refl eq_refl).
Defined.

(** ** The routine on a model with at most five classes *)

Section FiveClasses.
Context {F : Type} {K : TorchFloat F}.

(** With at least one class, every point gets a class, and it is an index
    into the classes. *)
Lemma pred_classes_of_ok (outputs : tensor F) :
  (1 <= shape1 outputs)%nat ->
  exists pred_classes,
    pred_classes_of outputs = Ok pred_classes
    /\ List.length pred_classes = shape0 outputs
    /\ Forall (fun c => 0 <= c < Z.of_nat (shape1 outputs)) pred_classes.
Proof.
  intros Hc. rewrite pred_classes_of_per_point. unfold per_point_classes.
  replace (shape1 outputs =? 0)%nat with false by (symmetry; apply Nat.eqb_neq; lia).
  destruct (list_comp_ok
              (fun i => argmax1d (softmax_over_classes (point_logits outputs i)))
              (fun c => 0 <= c < Z.of_nat (shape1 outputs))
              (seq 0 (shape0 outputs))) as (pc & Hpc & Hlen & Hall).
  - intros i _. rewrite softmax_probabilities.
    destruct (argmax1d_running (probability outputs i) _ Hc) as (c & Hcls & Hrun).
    exists (Z.of_nat c). split; [exact Hcls |].
    apply running_best_bound in Hrun. lia.
  - exists pc. rewrite length_seq in Hlen. repeat split; assumption.
Qed.

(** On a sample of N >= 1 points with N labels that the color lookup
    accepts, when the forward pass returns one row of one to five logits
    per point and the scatter calls succeed, the routine gets through to
    the save step and ends as that step does: every predicted class is a
    valid class index, so coloring the predictions cannot fail. *)
Theorem visualize_prediction_completes (L : Lib) (model : Sample -> result (tensor F))
    (data : Sample) (save_path : option string) (N : nat) (outputs : tensor F) :
  (1 <= N)%nat ->
  List.length (data_x data) = N ->
  List.length (data_y data) = N ->
  Forall (fun c => -5 <= c <= 4) (data_y data) ->
  model data = Ok outputs ->
  shape0 outputs = N ->
  (1 <= shape1 outputs <= 5)%nat ->
  (forall c, List.length c = N -> scatter L (data_x data) c = Ok tt) ->
  exists pred_classes,
    pred_classes_of outputs = Ok pred_classes
    /\ List.length pred_classes = N
    /\ Forall (fun c => 0 <= c < Z.of_nat (shape1 outputs)) pred_classes
    /\ outcome (visualize_prediction_in L model data save_path)
       = save_result L save_path
    /\ In EvTightLayout (trace (visualize_prediction_in L model data save_path)).
Proof.
  intros HN Hx Hy Hgt Hm Hrows Hcols Hsc.
  destruct (pred_classes_of_ok outputs) as (pc & Hpc & Hlen & Hall); [lia |].
  exists pc. split; [exact Hpc |]. split; [congruence |]. split; [exact Hall |].
  rewrite visualize_prediction_in_steps, Hm, Hpc. cbn [trace outcome fst snd].
  destruct (render_in_drawn L data pc save_path N HN) as (c1 & c2 & b & acc & _ & _ & _ & _ & Hrun).
  - repeat split; try assumption; try congruence.
    eapply Forall_impl; [| exact Hall]. simpl. lia.
  - exact Hsc.
  - rewrite Hrun.
    destruct (save_result L save_path) as [[] | e]; cbn [trace outcome fst snd];
      (split; [reflexivity |]); apply in_or_app; right;
      [apply in_or_app; left |]; apply tight_layout_drawn.
Qed.

End FiveClasses.

(** A network that puts logit 1 on class [(i + 3) mod 5] of point [i] and
    logit 0 on the other classes, and raises on a sample without
    points. *)
Definition demo_network (s : Sample) : result (tensor Q) :=
  match data_x s with
  | [] => Raise RuntimeError
  | _ => Ok (demo_forward s)
  end.

Lemma visualize_prediction_completes_witness :
  @pred_classes_of Q binary32 (demo_forward demo_sample) = Ok [3; 4]
  /\ outcome (@visualize_prediction_in Q binary32 demo_lib demo_network demo_sample
                (Some "out.png"%string)) = Ok tt
  /\ outcome (@visualize_prediction_in Q binary32 demo_lib demo_network demo_sample
                (Some "/nonexistent/out.png"%string)) = Raise FileNotFoundError.
Proof.
  assert (Hgt : Forall (fun c => -5 <= c <= 4) (data_y demo_sample))
    by (simpl; repeat constructor; lia).
  assert (HN : (1 <= 2)%nat) by lia.
  assert (Hcols : (1 <= shape1 (demo_forward demo_sample) <= 5)%nat) by (simpl; lia).
  split; [vm_compute; reflexivity |]. split.
  - destruct (@visualize_prediction_completes Q binary32 demo_lib demo_network
                demo_sample (Some "out.png"%string) 2 (demo_forward demo_sample)
                HN eq_refl eq_refl Hgt eq_refl eq_refl Hcols demo_scatter_ok)
      as (pc & _ & _ & _ & Hend & _).
    exact Hend.
  - destruct (@visualize_prediction_completes Q binary32 demo_lib demo_network
                demo_sample (Some "/nonexistent/out.png"%string) 2
                (demo_forward demo_sample)
                HN eq_refl eq_refl Hgt eq_refl eq_refl Hcols demo_scatter_ok)
      as (pc & _ & _ & _ & Hend & _).
    exact Hend.
Defined.

(** ** The save path and the rest of the run *)

Lemma filter_quiet (l : list event) :
  forallb quiet l = true -> filter (fun e => negb (is_savefig e)) l = l.
Proof.
  induction l as [| e tl IH]; [reflexivity |].
  cbn [forallb filter]. intros H. apply andb_true_iff in H. destruct H as [He Htl].
  rewrite (IH Htl). destruct e; try reflexivity; discriminate.
Qed.

Lemma filter_save_events (save_path : option string) :
  filter (fun e => negb (is_savefig e)) (save_events save_path) = [].
Proof.
  unfold save_events.
  destruct save_path as [p |]; [destruct (String.eqb p EmptyString) |]; reflexivity.
Qed.

(** Saving changes nothing else.  When the save step returns (no save
    path, or a savefig call that succeeds), the run ends as the run without
    a save path does and makes the same calls in the same order, the call
    that saves apart.  When savefig raises, the run is the run without a
    save path cut off just before the figure is shown, and ends with the
    exception of savefig; if the run without a save path fails, the two
    runs are the same. *)
Theorem save_path_only_adds_savefig (L : Lib) (data : Sample) (pred_classes : list Z)
    (save_path : option string) :
  let with_path := render_in L data pred_classes save_path in
  let without := render_in L data pred_classes None in
  (save_result L save_path = Ok tt ->
   filter (fun e => negb (is_savefig e)) (trace with_path) = trace without
   /\ outcome with_path = outcome without)
  /\ (forall e, save_result L save_path = Raise e ->
        (forall e', outcome without = Raise e' -> with_path = without)
        /\ (outcome without = Ok tt ->
            outcome with_path = Raise e
            /\ exists post, trace without = trace with_path ++ EvShow :: post)).
Proof.
  cbv zeta. rewrite !render_in_steps. unfold render_steps.
  cbn [save_result save_events app].
  destruct (color_array (data_y data)) as [c1 | e1].
  2: { split; [intros _; split; reflexivity |].
       intros e _. split; [reflexivity | discriminate]. }
  destruct (scatter L (data_x data) c1) as [[] | e1].
  2: { split; [intros _; split; reflexivity |].
       intros e _. split; [reflexivity | discriminate]. }
  destruct (color_array pred_classes) as [c2 | e1].
  2: { split; [intros _; split; reflexivity |].
       intros e _. split; [reflexivity | discriminate]. }
  destruct (scatter L (data_x data) c2) as [[] | e1].
  2: { split; [intros _; split; reflexivity |].
       intros e _. split; [reflexivity | discriminate]. }
  destruct (box_in (fl_round L) (data_x data)) as [b | e1].
  2: { split; [intros _; split; [apply filter_quiet |]; reflexivity |].
       intros e _. split; [reflexivity | discriminate]. }
  destruct (accuracy pred_classes (data_y data)) as [acc | e1].
  2: { split; [intros _; split; [apply filter_quiet |]; reflexivity |].
       intros e _. split; [reflexivity | discriminate]. }
  split.
  - intros ->. cbn [trace outcome fst snd]. split; [| reflexivity].
    rewrite !filter_app, filter_save_events.
    rewrite (filter_quiet _ (drawn_events_quiet L data c1 c2 b acc)).
    cbn [filter is_savefig negb app].
    rewrite (filter_quiet _ (report_events_all_quiet (data_y data) pred_classes)).
    reflexivity.
  - intros e ->. cbn [trace outcome fst snd]. split; [discriminate |].
    intros _. split; [reflexivity |].
    exists (report_events (data_y data) pred_classes). reflexivity.
Qed.

Lemma save_path_only_adds_savefig_witness :
  filter (fun e => negb (is_savefig e))
         (trace (render_in demo_lib demo_sample [0; 3] (Some "out.png"%string)))
  = trace (render_in demo_lib demo_sample [0; 3] None)
  /\ exists post,
       trace (render_in demo_lib demo_sample [0; 3] None)
       = trace (render_in demo_lib demo_sample [0; 3]
                  (Some "/nonexistent/out.png"%string))
         ++ EvShow :: post.
Proof.
  split.
  - exact (proj1 (proj1 (save_path_only_adds_savefig demo_lib demo_sample [0; 3]
                           (Some "out.png"%string)) eq_refl)).
  - destruct (proj2 (save_path_only_adds_savefig demo_lib demo_sample [0; 3]
                       (Some "/nonexistent/out.png"%string))
                FileNotFoundError eq_refl) as [_ H].
    destruct H as [_ Hpost]; [vm_compute; reflexivity | exact Hpost].
Defined.

(** ** The legend and the colors *)

Definition is_legend (e : event) : bool :=
  match e with
  | EvLegend _ _ => true
  | _ => false
  end.

Lemma no_legend (l : list event) (ax : axes) (handles : list (string * string)) :
  forallb (fun e => negb (is_legend e)) l = true -> ~ In (EvLegend ax handles) l.
Proof.
  intros H Hin. rewrite forallb_forall in H. apply H in Hin. discriminate.
Qed.

(** How far the drawing of the two subplots got: not to the first scatter
    call, to the first and not the second, or through both; what follows
    the two subplots holds neither a scatter call nor a legend. *)
Lemma render_in_plots (L : Lib) (data : Sample) (pred_classes : list Z)
    (save_path : option string) :
  let t := trace (render_in L data pred_classes save_path) in
  t = opening_events
  \/ (exists c1, t = first_plot_events data c1)
  \/ (exists c1 c2 rest,
        t = plots_events data c1 c2 ++ rest
        /\ forallb (fun e => negb (is_scatter e)) rest = true
        /\ forallb (fun e => negb (is_legend e)) rest = true).
Proof.
  cbv zeta. rewrite render_in_steps. unfold render_steps.
  destruct (color_array (data_y data)) as [c1 | e]; [| left; reflexivity].
  destruct (scatter L (data_x data) c1) as [[] | e]; [| left; reflexivity].
  destruct (color_array pred_classes) as [c2 | e];
    [| right; left; exists c1; reflexivity].
  destruct (scatter L (data_x data) c2) as [[] | e];
    [| right; left; exists c1; reflexivity].
  right. right. exists c1, c2.
  destruct (box_in (fl_round L) (data_x data)) as [b | e];
    [| eexists; split; [reflexivity | split; reflexivity]].
  destruct (accuracy pred_classes (data_y data)) as [acc | e];
    [| eexists; split; [reflexivity | split; reflexivity]].
  destruct (save_result L save_path) as [[] | e].
  - exists (views_events (fl_round L) b ++ [EvSuptitle acc; EvTightLayout]
            ++ save_events save_path
            ++ EvShow :: report_events (data_y data) pred_classes).
    split; [cbn [trace fst]; unfold drawn_events; rewrite <- !app_assoc; reflexivity |].
    unfold save_events.
    destruct save_path as [p |]; [destruct (String.eqb p EmptyString) |];
      split; reflexivity.
  - exists (views_events (fl_round L) b ++ [EvSuptitle acc; EvTightLayout]).
    split; [reflexivity | split; reflexivity].
Qed.

Lemma legend_in_first_plot (data : Sample) (c1 : list string) (ax : axes)
    (handles : list (string * string)) :
  In (EvLegend ax handles) (first_plot_events data c1) ->
  ax = Ax1 /\ handles = legend_handles.
Proof.
  intros H. simpl in H.
  repeat (destruct H as [H | H];
          [try discriminate; injection H as <- <-; split; reflexivity |]).
  contradiction.
Qed.

Lemma legend_in_plots (data : Sample) (c1 c2 : list string) (ax : axes)
    (handles : list (string * string)) :
  In (EvLegend ax handles) (plots_events data c1 c2) -> handles = legend_handles.
Proof.
  intros H. simpl in H.
  repeat (destruct H as [H | H];
          [try discriminate; injection H as <- <-; reflexivity |]).
  contradiction.
Qed.

(** The legend tells the truth about the colors.  A subplot whose points
    are drawn also gets the legend, and every legend the routine draws is
    the same: it names each color once.  The color in which the subplot
    draws a point whose label [c] is one of the classes 0..4 is
    [colors[c]], and the legend pairs that color with the name of class
    [c]. *)
Theorem legend_matches_colors (L : Lib) (data : Sample) (pred_classes : list Z)
    (save_path : option string) (ax : axes) (pts : list point) (cs : list string)
    (s : Z) :
  let run := render_in L data pred_classes save_path in
  In (EvScatter ax pts cs s) (trace run) ->
  In (EvLegend ax legend_handles) (trace run)
  /\ (forall ax' handles, In (EvLegend ax' handles) (trace run) ->
        handles = legend_handles)
  /\ NoDup (map fst legend_handles)
  /\ (forall k c,
        nth_error (shown_labels data pred_classes ax) k = Some c ->
        0 <= c <= 4 ->
        exists col name,
          nth_error cs k = Some col
          /\ py_getitem colors c = Ok col
          /\ py_getitem class_names c = Ok name
          /\ In (col, name) legend_handles).
Proof.
  intros run Hsc.
  pose proof (scatter_in_render_in _ _ _ _ _ _ _ _ Hsc) as (_ & _ & Hcol).
  assert (Hlegend : In (EvLegend ax legend_handles) (trace run)
                    /\ (forall ax' handles, In (EvLegend ax' handles) (trace run) ->
                          handles = legend_handles)).
  { unfold run in *.
    destruct (render_in_plots L data pred_classes save_path)
      as [Ht | [(c1 & Ht) | (c1 & c2 & rest & Ht & Hrest & Hrest')]];
      cbv zeta in Ht; rewrite Ht in *.
    - exfalso. revert Hsc. apply no_scatter. reflexivity.
    - apply scatter_in_first_plot in Hsc. destruct Hsc as (-> & _).
      split; [simpl; tauto |].
      intros ax' handles H. apply legend_in_first_plot in H. tauto.
    - split.
      + apply in_or_app. left. destruct ax; simpl; tauto.
      + intros ax' handles H. apply in_app_or in H. destruct H as [H | H].
        * exact (legend_in_plots _ _ _ _ _ H).
        * exfalso. exact (no_legend _ _ _ Hrest' H). }
  split; [exact (proj1 Hlegend) |]. split; [exact (proj2 Hlegend) |].
  split; [repeat constructor; simpl; intuition discriminate |].
  intros k c Hk Hc.
  destruct (list_comp_nth _ _ _ Hcol k c Hk) as (col & Hnth & Hget).
  exists col.
  assert (Hcases : c = 0 \/ c = 1 \/ c = 2 \/ c = 3 \/ c = 4) by lia.
  destruct Hcases as [-> | [-> | [-> | [-> | ->]]]];
    injection Hget as <-;
    eexists; (split; [exact Hnth |]); (split; [reflexivity |]);
    (split; [reflexivity |]); simpl; tauto.
Qed.

Lemma legend_matches_colors_witness :
  In (EvLegend Ax2 legend_handles) (trace (render_in demo_lib demo_sample [0; 3] None))
  /\ exists col name,
       nth_error ["blue"; "orange"]%string 1 = Some col
       /\ py_getitem colors 3 = Ok col
       /\ py_getitem class_names 3 = Ok name
       /\ In (col, name) legend_handles.
Proof.
  assert (Hsc : In (EvScatter Ax2 (data_x demo_sample) ["blue"; "orange"]%string 2)
                   (trace (render_in demo_lib demo_sample [0; 3] None)))
    by (vm_compute; tauto).
  destruct (legend_matches_colors demo_lib demo_sample [0; 3] None Ax2 _ _ _ Hsc)
    as (Hleg & _ & _ & Hcolor).
  split; [exact Hleg |].
  apply (Hcolor 1%nat 3); [reflexivity | lia].
Defined.

(** ** The driver *)

Lemma quiet_effects (l : list event) :
  forallb quiet l = true -> saved_files l = [] /\ shows l = 0%nat.
Proof.
  induction l as [| e tl IH]; [split; reflexivity |].
  cbn [forallb]. intros H. apply andb_true_iff in H. destruct H as [He Htl].
  destruct (IH Htl) as [Hs Hsh].
  unfold shows in *. cbn [saved_files flat_map filter]. fold (saved_files tl).
  rewrite Hs. destruct e; try discriminate; cbn [is_show app]; split;
    try reflexivity; exact Hsh.
Qed.

(** A run of [render_in] with a save path saves to it and shows the figure
    once when it reaches its end; a run that raises has done neither. *)
Lemma render_in_effects (L : Lib) (data : Sample) (pred_classes : list Z) (p : string) :
  String.eqb p EmptyString = false ->
  match outcome (render_in L data pred_classes (Some p)) with
  | Ok _ =>
      saved_files (trace (render_in L data pred_classes (Some p))) = [p]
      /\ shows (trace (render_in L data pred_classes (Some p))) = 1%nat
  | Raise _ =>
      saved_files (trace (render_in L data pred_classes (Some p))) = []
      /\ shows (trace (render_in L data pred_classes (Some p))) = 0%nat
  end.
Proof.
  intros Hp. rewrite render_in_steps. unfold render_steps.
  destruct (color_array (data_y data)) as [c1 | e]; [| split; reflexivity].
  destruct (scatter L (data_x data) c1) as [[] | e]; [| split; reflexivity].
  destruct (color_array pred_classes) as [c2 | e]; [| split; reflexivity].
  destruct (scatter L (data_x data) c2) as [[] | e]; [| split; reflexivity].
  destruct (box_in (fl_round L) (data_x data)) as [b | e]; [| split; reflexivity].
  destruct (accuracy pred_classes (data_y data)) as [acc | e]; [| split; reflexivity].
  destruct (save_result L (Some p)) as [[] | e]; cbn [trace outcome fst snd].
  - unfold save_events, shows. rewrite Hp, !saved_files_app, !filter_app, !length_app.
    split; reflexivity.
  - apply quiet_effects. apply drawn_events_quiet.
Qed.

Section DriverRuns.
Context {F : Type} {K : TorchFloat F}.

Lemma visualize_prediction_in_effects (L : Lib) (model : Sample -> result (tensor F))
    (batch : Sample) :
  let run := visualize_prediction_in L model batch (Some (save_name batch)) in
  match outcome run with
  | Ok _ => saved_files (trace run) = [save_name batch] /\ shows (trace run) = 1%nat
  | Raise _ => saved_files (trace run) = [] /\ shows (trace run) = 0%nat
  end.
Proof.
  cbv zeta. rewrite visualize_prediction_in_steps.
  destruct (model batch) as [outputs | e]; [| split; reflexivity].
  destruct (pred_classes_of outputs) as [pc | e]; [| split; reflexivity].
  cbn [trace outcome fst snd].
  pose proof (render_in_effects L batch pc (save_name batch) (save_name_not_empty batch))
    as H.
  rewrite saved_files_app, shows_app.
  destruct (outcome (render_in L batch pc (Some (save_name batch)))); exact H.
Qed.

Lemma visualize_fetched_ok (L : Lib) (model : Sample -> result (tensor F))
    (batch : Sample) :
  visualize_fetched L model (Ok batch)
  = visualize_prediction_in L model batch (Some (save_name batch)).
Proof.
  unfold visualize_fetched. cbn [lift bind fst snd app].
  destruct (visualize_prediction_in L model batch (Some (save_name batch))) as [t r].
  reflexivity.
Qed.

(** The batches the loop gets through: those before the first one that
    cannot be fetched or whose visualization raises. *)
Fixpoint completed_in (L : Lib) (model : Sample -> result (tensor F))
    (loader : list (result Sample)) : list Sample :=
  match loader with
  | Ok batch :: tl =>
      match outcome (visualize_prediction_in L model batch (Some (save_name batch))) with
      | Ok _ => batch :: completed_in L model tl
      | Raise _ => []
      end
  | _ => []
  end.

(** The loop saves and shows one figure for each batch it gets through, in
    the loader's order, and ends well exactly when it gets through all of
    them. *)
Lemma loop_effects_in (L : Lib) (model : Sample -> result (tensor F))
    (loader : list (result Sample)) :
  let loop := for_each loader (visualize_fetched L model) in
  saved_files (trace loop) = map save_name (completed_in L model loader)
  /\ shows (trace loop) = List.length (completed_in L model loader)
  /\ (outcome loop = Ok tt <-> map Ok (completed_in L model loader) = loader).
Proof.
  induction loader as [| fetched tl IH]; cbv zeta in *.
  - repeat split; reflexivity.
  - cbn [for_each completed_in]. destruct fetched as [batch | e].
    2: { cbn. repeat split; try reflexivity; discriminate. }
    rewrite visualize_fetched_ok.
    pose proof (visualize_prediction_in_effects L model batch) as Hb. cbv zeta in Hb.
    destruct (outcome (visualize_prediction_in L model batch (Some (save_name batch))))
      as [[] | e] eqn:Ho.
    + destruct Hb as [Hs Hsh]. destruct IH as (IHs & IHsh & IHo).
      destruct (bind_ok (visualize_prediction_in L model batch (Some (save_name batch)))
                        (fun _ => for_each tl (visualize_fetched L model)) tt Ho)
        as [Ht Hout].
      rewrite Ht, Hout, saved_files_app, shows_app, Hs, Hsh, IHs, IHsh.
      repeat split; try reflexivity.
      * intros H. cbn [map]. f_equal. apply IHo. exact H.
      * intros H. cbn [map] in H. injection H as H. apply IHo. exact H.
    + destruct Hb as [Hs Hsh].
      rewrite (bind_raise _ _ e Ho). cbn [trace outcome fst snd].
      rewrite Hs, Hsh. repeat split; try reflexivity; discriminate.
Qed.

(** The driver gets to its loop: the configuration is read and has its
    four keys, the network is built, a latest checkpoint directory is
    found, its checkpoint is loaded and holds a state dictionary that the
    network accepts, and the data set and its loaders are built. *)
Definition ready (s : Site F) (k : Z) (dropout : Q) (state : StateDict s)
    (loader : list (result Sample)) : Prop :=
  exists config checkpoint_dir names latest checkpoint data_dir dataset,
    read_config s "configs/config.yaml" = Ok config
    /\ cfg_model_k config = Ok k
    /\ cfg_model_dropout config = Ok dropout
    /\ build_DGCNN s k dropout = Ok tt
    /\ cfg_checkpoint_dir config = Ok checkpoint_dir
    /\ listdir s checkpoint_dir = Ok names
    /\ latest_dir (filter (fun d => isdir s (os_path_join checkpoint_dir d)) names)
       = Ok latest
    /\ load_checkpoint_file s
         (os_path_join (os_path_join checkpoint_dir latest) "best_model.pt")
       = Ok checkpoint
    /\ state_dict_of s checkpoint = Ok state
    /\ restore_weights s state = Ok tt
    /\ cfg_data_path config = Ok data_dir
    /\ build_dataset s data_dir "novice" = Ok dataset
    /\ build_loaders s dataset [1; 15] 1 = Ok loader.

(** The driver's calls up to the printed checkpoint path. *)
Definition found_events (k : Z) (dropout : Q) (checkpoint_dir latest : string) :
    list event :=
  [EvLoadConfig "configs/config.yaml";
   EvBuildModel k dropout;
   EvListdir checkpoint_dir;
   EvPrint (LineCheckpoint
              (os_path_join (os_path_join checkpoint_dir latest) "best_model.pt"))].

(** [main_in], failure by failure. *)
Definition main_steps (s : Site F) : M unit :=
  match read_config s "configs/config.yaml" with
  | Raise e => ([], Raise e)
  | Ok config =>
  match cfg_model_k config with
  | Raise e => ([EvLoadConfig "configs/config.yaml"], Raise e)
  | Ok k =>
  match cfg_model_dropout config with
  | Raise e => ([EvLoadConfig "configs/config.yaml"], Raise e)
  | Ok dropout =>
  match build_DGCNN s k dropout with
  | Raise e => ([EvLoadConfig "configs/config.yaml"], Raise e)
  | Ok _ =>
  match cfg_checkpoint_dir config with
  | Raise e => ([EvLoadConfig "configs/config.yaml"; EvBuildModel k dropout], Raise e)
  | Ok checkpoint_dir =>
  match listdir s checkpoint_dir with
  | Raise e => ([EvLoadConfig "configs/config.yaml"; EvBuildModel k dropout], Raise e)
  | Ok names =>
  match latest_dir (filter (fun d => isdir s (os_path_join checkpoint_dir d)) names) with
  | Raise e => ([EvLoadConfig "configs/config.yaml"; EvBuildModel k dropout;
                 EvListdir checkpoint_dir], Raise e)
  | Ok latest =>
  let checkpoint_path :=
    os_path_join (os_path_join checkpoint_dir latest) "best_model.pt" in
  let found := found_events k dropout checkpoint_dir latest in
  match load_checkpoint_file s checkpoint_path with
  | Raise e => (found, Raise e)
  | Ok checkpoint =>
  match state_dict_of s checkpoint with
  | Raise e => (found ++ [EvTorchLoad checkpoint_path], Raise e)
  | Ok state =>
  match restore_weights s state with
  | Raise e => (found ++ [EvTorchLoad checkpoint_path], Raise e)
  | Ok _ =>
  match cfg_data_path config with
  | Raise e => (found ++ [EvTorchLoad checkpoint_path; EvLoadStateDict], Raise e)
  | Ok data_dir =>
  match build_dataset s data_dir "novice" with
  | Raise e => (found ++ [EvTorchLoad checkpoint_path; EvLoadStateDict], Raise e)
  | Ok dataset =>
  match build_loaders s dataset [1; 15] 1 with
  | Raise e => (found ++ [EvTorchLoad checkpoint_path; EvLoadStateDict;
                          EvDataset data_dir "novice"], Raise e)
  | Ok loader =>
      let loop := for_each loader
                    (visualize_fetched (lib s) (forward_pass s k dropout state)) in
      (found ++ [EvTorchLoad checkpoint_path; EvLoadStateDict;
                 EvDataset data_dir "novice"; EvDataloaders [1; 15] 1]
       ++ trace loop,
       outcome loop)
  end end end end end end end end end end end end end.

Lemma main_in_steps (s : Site F) : main_in s = main_steps s.
Proof.
  unfold main_in, main_steps, found_events. cbv zeta.
  destruct (read_config s "configs/config.yaml") as [config | e]; [| reflexivity].
  cbn [bind emit lift fst snd app].
  destruct (cfg_model_k config) as [k | e]; [| reflexivity].
  cbn [bind emit lift fst snd app].
  destruct (cfg_model_dropout config) as [dropout | e]; [| reflexivity].
  cbn [bind emit lift fst snd app].
  destruct (build_DGCNN s k dropout) as [[] | e]; [| reflexivity].
  cbn [bind emit lift fst snd app].
  destruct (cfg_checkpoint_dir config) as [checkpoint_dir | e]; [| reflexivity].
  cbn [bind emit lift fst snd app].
  destruct (listdir s checkpoint_dir) as [names | e]; [| reflexivity].
  cbn [bind emit lift fst snd app].
  destruct (latest_dir (filter (fun d => isdir s (os_path_join checkpoint_dir d)) names))
    as [latest | e]; [| reflexivity].
  cbn [bind emit lift fst snd app].
  destruct (load_checkpoint_file s
              (os_path_join (os_path_join checkpoint_dir latest) "best_model.pt"))
    as [checkpoint | e]; [| reflexivity].
  cbn [bind emit lift fst snd app].
  destruct (state_dict_of s checkpoint) as [state | e]; [| reflexivity].
  cbn [bind emit lift fst snd app].
  destruct (restore_weights s state) as [[] | e]; [| reflexivity].
  cbn [bind emit lift fst snd app].
  destruct (cfg_data_path config) as [data_dir | e]; [| reflexivity].
  cbn [bind emit lift fst snd app].
  destruct (build_dataset s data_dir "novice") as [dataset | e]; [| reflexivity].
  cbn [bind emit lift fst snd app].
  destruct (build_loaders s dataset [1; 15] 1) as [loader | e]; [| reflexivity].
  cbn [bind emit lift fst snd app].
  destruct (for_each loader (visualize_fetched (lib s) (forward_pass s k dropout state)))
    as [t r].
  reflexivity.
Qed.

Lemma main_in_ready (s : Site F) (k : Z) (dropout : Q) (state : StateDict s)
    (loader : list (result Sample)) :
  ready s k dropout state loader ->
  exists pre,
    forallb quiet pre = true
    /\ main_in s
       = (pre ++ trace (for_each loader
                          (visualize_fetched (lib s) (forward_pass s k dropout state))),
          outcome (for_each loader
                     (visualize_fetched (lib s) (forward_pass s k dropout state)))).
Proof.
  intros (config & checkpoint_dir & names & latest & checkpoint & data_dir & dataset
          & H1 & H2 & H3 & H4 & H5 & H6 & H7 & H8 & H9 & H10 & H11 & H12 & H13).
  rewrite main_in_steps. unfold main_steps.
  rewrite H1, H2, H3, H4, H5, H6, H7. cbv zeta.
  rewrite H8, H9, H10, H11, H12, H13.
  eexists. split; [| rewrite app_assoc; reflexivity]. reflexivity.
Qed.

(** When the driver gets to its loop, it saves one image per test sample
    it gets through, named after the sample's form type and number, in the
    loader's order, and shows each of them once; it stops at the first
    sample that cannot be fetched or whose visualization raises (a failing
    forward pass, scatter or savefig included), and ends well exactly when
    there is none.  When it does not get to its loop, it ends with an
    exception and has saved and shown nothing. *)
Theorem driver_saves_one_image_per_sample (s : Site F) :
  (forall k dropout state loader,
      ready s k dropout state loader ->
      let done := completed_in (lib s) (forward_pass s k dropout state) loader in
      saved_files (trace (main_in s)) = map save_name done
      /\ shows (trace (main_in s)) = List.length done
      /\ (outcome (main_in s) = Ok tt <-> map Ok done = loader))
  /\ ((forall k dropout state loader, ~ ready s k dropout state loader) ->
      saved_files (trace (main_in s)) = []
      /\ shows (trace (main_in s)) = 0%nat
      /\ exists e, outcome (main_in s) = Raise e).
Proof.
  split.
  - intros k dropout state loader Hready done.
    destruct (main_in_ready s k dropout state loader Hready) as (pre & Hpre & Hrun).
    rewrite Hrun. cbn [trace outcome fst snd]. rewrite saved_files_app, shows_app.
    destruct (quiet_effects pre Hpre) as [-> ->].
    destruct (loop_effects_in (lib s) (forward_pass s k dropout state) loader)
      as (Hs & Hsh & Ho).
    cbv zeta in Hs, Hsh, Ho. rewrite Hs, Hsh.
    repeat split; try reflexivity; apply Ho.
  - intros Hnot. rewrite main_in_steps. unfold main_steps.
    destruct (read_config s "configs/config.yaml") as [config | e] eqn:H1;
      [| repeat split; exists e; reflexivity].
    destruct (cfg_model_k config) as [k | e] eqn:H2;
      [| repeat split; exists e; reflexivity].
    destruct (cfg_model_dropout config) as [dropout | e] eqn:H3;
      [| repeat split; exists e; reflexivity].
    destruct (build_DGCNN s k dropout) as [[] | e] eqn:H4;
      [| repeat split; exists e; reflexivity].
    destruct (cfg_checkpoint_dir config) as [checkpoint_dir | e] eqn:H5;
      [| repeat split; exists e; reflexivity].
    destruct (listdir s checkpoint_dir) as [names | e] eqn:H6;
      [| repeat split; exists e; reflexivity].
    destruct (latest_dir (filter (fun d => isdir s (os_path_join checkpoint_dir d)) names))
      as [latest | e] eqn:H7; [| repeat split; exists e; reflexivity].
    cbv zeta.
    destruct (load_checkpoint_file s
                (os_path_join (os_path_join checkpoint_dir latest) "best_model.pt"))
      as [checkpoint | e] eqn:H8; [| repeat split; exists e; reflexivity].
    destruct (state_dict_of s checkpoint) as [state | e] eqn:H9;
      [| repeat split; exists e; reflexivity].
    destruct (restore_weights s state) as [[] | e] eqn:H10;
      [| repeat split; exists e; reflexivity].
    destruct (cfg_data_path config) as [data_dir | e] eqn:H11;
      [| repeat split; exists e; reflexivity].
    destruct (build_dataset s data_dir "novice") as [dataset | e] eqn:H12;
      [| repeat split; exists e; reflexivity].
    destruct (build_loaders s dataset [1; 15] 1) as [loader | e] eqn:H13;
      [| repeat split; exists e; reflexivity].
    exfalso. apply (Hnot k dropout state loader).
    exists config, checkpoint_dir, names, latest, checkpoint, data_dir, dataset.
    repeat split; assumption.
Qed.

(** Whichever step raises first ends the driver at once, with that
    exception and the calls that had returned.  Once the checkpoint path
    is printed: a checkpoint file that cannot be loaded, a checkpoint
    without the state dictionary, or a state dictionary the network does
    not accept ends the driver before any data set is built; a data set or
    loaders that cannot be built end it before any inference; and an empty
    test loader lets it end well with nothing visualized. *)
Theorem driver_fails_fast (s : Site F) (config : ConfigFile) (k : Z) (dropout : Q)
    (checkpoint_dir : string) (names : list string) (latest : string) :
  let checkpoint_path :=
    os_path_join (os_path_join checkpoint_dir latest) "best_model.pt" in
  let found := found_events k dropout checkpoint_dir latest in
  read_config s "configs/config.yaml" = Ok config ->
  cfg_model_k config = Ok k ->
  cfg_model_dropout config = Ok dropout ->
  build_DGCNN s k dropout = Ok tt ->
  cfg_checkpoint_dir config = Ok checkpoint_dir ->
  listdir s checkpoint_dir = Ok names ->
  latest_dir (filter (fun d => isdir s (os_path_join checkpoint_dir d)) names)
  = Ok latest ->
  (forall e, load_checkpoint_file s checkpoint_path = Raise e ->
             main_in s = (found, Raise e))
  /\ (forall checkpoint,
        load_checkpoint_file s checkpoint_path = Ok checkpoint ->
        (forall e, state_dict_of s checkpoint = Raise e ->
                   main_in s = (found ++ [EvTorchLoad checkpoint_path], Raise e))
        /\ (forall state,
              state_dict_of s checkpoint = Ok state ->
              (forall e, restore_weights s state = Raise e ->
                         main_in s = (found ++ [EvTorchLoad checkpoint_path], Raise e))
              /\ (forall data_dir,
                    restore_weights s state = Ok tt ->
                    cfg_data_path config = Ok data_dir ->
                    (forall e, build_dataset s data_dir "novice" = Raise e ->
                               main_in s
                               = (found ++ [EvTorchLoad checkpoint_path; EvLoadStateDict],
                                  Raise e))
                    /\ (forall dataset,
                          build_dataset s data_dir "novice" = Ok dataset ->
                          (forall e, build_loaders s dataset [1; 15] 1 = Raise e ->
                                     main_in s
                                     = (found ++ [EvTorchLoad checkpoint_path;
                                                  EvLoadStateDict;
                                                  EvDataset data_dir "novice"],
                                        Raise e))
                          /\ (build_loaders s dataset [1; 15] 1 = Ok [] ->
                              main_in s
                              = (found ++ [EvTorchLoad checkpoint_path;
                                           EvLoadStateDict;
                                           EvDataset data_dir "novice";
                                           EvDataloaders [1; 15] 1],
                                 Ok tt)))))).
Proof.
  intros checkpoint_path found H1 H2 H3 H4 H5 H6 H7.
  unfold checkpoint_path, found. rewrite main_in_steps. unfold main_steps.
  rewrite H1, H2, H3, H4, H5, H6, H7. cbv zeta.
  split; [intros e ->; reflexivity |].
  intros checkpoint ->. split; [intros e ->; reflexivity |].
  intros state ->. split; [intros e ->; reflexivity |].
  intros data_dir -> ->. split; [intros e ->; reflexivity |].
  intros dataset ->. split; [intros e ->; reflexivity |].
  intros ->. reflexivity.
Qed.

End DriverRuns.

(** A configuration file with its four keys. *)
Definition demo_config_file : ConfigFile :=
  {| cfg_model_k := Ok 20;
     cfg_model_dropout := Ok (1 # 2)%Q;
     cfg_checkpoint_dir := Ok "checkpoints"%string;
     cfg_data_path := Ok "data"%string |}.

(** A site with two checkpoint directories, whose loader yields a good
    sample, a sample with a label outside the class table, and a good
    sample again. *)
Definition three_batch_site : Site Q :=
  {| Checkpoint := unit;
     StateDict := unit;
     Dataset := unit;
     read_config := fun _ => Ok demo_config_file;
     build_DGCNN := fun _ _ => Ok tt;
     listdir := fun _ => Ok ["2023-01-01"; "2023-06-01"]%string;
     isdir := fun _ => true;
     load_checkpoint_file := fun _ => Ok tt;
     state_dict_of := fun _ => Ok tt;
     restore_weights := fun _ => Ok tt;
     forward_pass := fun _ _ _ => demo_network;
     build_dataset := fun _ _ => Ok tt;
     build_loaders := fun _ _ _ =>
       Ok [Ok five_class_sample; Ok six_class_sample; Ok demo_sample];
     lib := demo_lib |}.

(** The same site with a checkpoint file that holds no state dictionary. *)
Definition malformed_site : Site Q :=
  {| Checkpoint := unit;
     StateDict := unit;
     Dataset := unit;
     read_config := fun _ => Ok demo_config_file;
     build_DGCNN := fun _ _ => Ok tt;
     listdir := fun _ => Ok ["2023-01-01"; "2023-06-01"]%string;
     isdir := fun _ => true;
     load_checkpoint_file := fun _ => Ok tt;
     state_dict_of := fun _ => Raise KeyError;
     restore_weights := fun _ => Ok tt;
     forward_pass := fun _ _ _ => demo_network;
     build_dataset := fun _ _ => Ok tt;
     build_loaders := fun _ _ _ =>
       Ok [Ok five_class_sample; Ok six_class_sample; Ok demo_sample];
     lib := demo_lib |}.

Lemma driver_saves_one_image_per_sample_witness :
  saved_files (trace (@main_in Q binary32 three_batch_site))
  = ["visualization_curved_model_1.png"%string]
  /\ shows (trace (@main_in Q binary32 three_batch_site)) = 1%nat.
Proof.
  assert (Hready : @ready Q three_batch_site 20 (1 # 2)%Q tt
                     [Ok five_class_sample; Ok six_class_sample; Ok demo_sample]).
  { exists demo_config_file, "checkpoints"%string,
           ["2023-01-01"; "2023-06-01"]%string, "2023-06-01"%string, tt,
           "data"%string, tt.
    repeat split; reflexivity. }
  destruct (proj1 (@driver_saves_one_image_per_sample Q binary32 three_batch_site)
              20 (1 # 2)%Q tt _ Hready) as (Hs & Hsh & _).
  split; [rewrite Hs | rewrite Hsh]; vm_compute; reflexivity.
Defined.

Lemma driver_fails_fast_witness :
  @main_in Q binary32 malformed_site
  = ([EvLoadConfig "configs/config.yaml";
      EvBuildModel 20 (1 # 2);
      EvListdir "checkpoints";
      EvPrint (LineCheckpoint "checkpoints/2023-06-01/best_model.pt");
      EvTorchLoad "checkpoints/2023-06-01/best_model.pt"],
     Raise KeyError).
Proof.
  destruct (@driver_fails_fast Q binary32 malformed_site demo_config_file 20 (1 # 2)%Q
              "checkpoints"%string ["2023-01-01"; "2023-06-01"]%string
              "2023-06-01"%string
              eq_refl eq_refl eq_refl eq_refl eq_refl eq_refl eq_refl) as [_ H].
  exact (proj1 (H tt eq_refl) KeyError eq_refl).
Defined.
